(** * SwiftPOS data layer: the DataProvider state container

    A shallow embedding of the mutators of the DataProvider component
    (contexts/DataContext.tsx) and of the import handler of the Settings page,
    followed by the properties of the stock, purchase, category and backup
    logic.

    Conventions of the embedding.
    - JS numbers are integers here ([Z]): stock levels, quantities and amounts
      in currency units.  Doubles are exact on integers up to 2^53, and the
      stock arithmetic of the sale handlers is rounded beyond ([Double]).
      Numbers with a fractional part are outside the embedding.
    - JS strings are [string]; [toLowerCase] and [trim] are the ASCII
      restrictions of the built-ins.
    - Every handler runs against the state of the render it was created in and
      runs to completion before the next one starts, so a handler is a function
      from the rendered state to the next state, the toasts it shows and its
      return value.
    - The clock, [generateId] (time stamp plus randomness) and [window.confirm]
      are inputs of a handler, collected in [Env]. *)

From Stdlib Require Import ZArith List String Ascii Bool Arith Lia.
From Stdlib Require Import DecimalString.
From Stdlib Require Import SpecFloat.
Import ListNotations.

Local Open Scope string_scope.
Local Open Scope list_scope.
Local Open Scope Z_scope.

(** ** JavaScript built-ins used by the handlers *)

Module JS.

(** [a === b] on strings. *)
Definition strictEq (a b : string) : bool := String.eqb a b.

(** A double quote, for the template literals. *)
Definition dq : string := String "034"%char EmptyString.

(** Template literal: the parts joined without separator. *)
Definition template (parts : list string) : string := String.concat "" parts.

(** [String(n)] for a non-negative integer such as an array length. *)
Definition showNat (n : nat) : string := NilEmpty.string_of_uint (Nat.to_uint n).

Definition lowerChar (c : ascii) : ascii :=
  let n := nat_of_ascii c in
  if (65 <=? n)%nat && (n <=? 90)%nat then ascii_of_nat (n + 32) else c.

(** [s.toLowerCase()]. *)
Fixpoint toLowerCase (s : string) : string :=
  match s with
  | EmptyString => EmptyString
  | String c rest => String (lowerChar c) (toLowerCase rest)
  end.

(** White space and line terminators removed by [trim]. *)
Definition isSpace (c : ascii) : bool :=
  let n := nat_of_ascii c in
  ((9 <=? n)%nat && (n <=? 13)%nat) || (n =? 32)%nat.

Fixpoint trimStart (s : string) : string :=
  match s with
  | EmptyString => EmptyString
  | String c rest => if isSpace c then trimStart rest else s
  end.

Fixpoint trimEnd (s : string) : string :=
  match s with
  | EmptyString => EmptyString
  | String c rest =>
      match trimEnd rest with
      | EmptyString => if isSpace c then EmptyString else String c EmptyString
      | kept => String c kept
      end
  end.

(** [s.trim()]. *)
Definition trim (s : string) : string := trimEnd (trimStart s).

(** [arr.includes(x)] on an array of strings. *)
Definition includes (arr : list string) (x : string) : bool :=
  existsb (fun y => strictEq y x) arr.

(** [arr.findIndex(f)]; [None] stands for -1. *)
Fixpoint findIndex {A : Type} (f : A -> bool) (arr : list A) : option nat :=
  match arr with
  | [] => None
  | x :: rest => if f x then Some O else option_map S (findIndex f rest)
  end.

(** [arr[i] = g(arr[i])] for an index inside the array. *)
Fixpoint updateAt {A : Type} (i : nat) (g : A -> A) (arr : list A) : list A :=
  match arr, i with
  | [], _ => []
  | x :: rest, O => g x :: rest
  | x :: rest, S j => x :: updateAt j g rest
  end.

(** Truthiness of an optional string ([undefined] and [""] are falsy). *)
Definition truthyStr (o : option string) : bool :=
  match o with
  | Some s => negb (strictEq s "")
  | None => false
  end.

(** The string behind a property narrowed by a truthiness test. *)
Definition narrowed (o : option string) : string :=
  match o with
  | Some s => s
  | None => ""
  end.

End JS.

Infix "===" := JS.strictEq (at level 70, no associativity).
Notation "a !== b" := (negb (JS.strictEq a b)) (at level 70, no associativity).

(** ** Entities *)

(** Modelled from the spec: the declarations of ../types are not among the
    sources.  A Product has the fields the handlers read ([id], [category],
    [stock], [buyingPrice], [supplierId]) and the remaining ones of the data
    model ([name], [sellingPrice]). *)
Module Product.
Record t : Type := Build
  { id : string;
    name : string;
    category : string;
    stock : Z;
    buyingPrice : Z;
    sellingPrice : Z;
    supplierId : option string }.

(** [{ ...p, id: i }] *)
Definition withId (i : string) (p : t) : t :=
  Build i (name p) (category p) (stock p) (buyingPrice p) (sellingPrice p) (supplierId p).

(** [{ ...p, category: c }] *)
Definition withCategory (c : string) (p : t) : t :=
  Build (id p) (name p) c (stock p) (buyingPrice p) (sellingPrice p) (supplierId p).

(** [p.stock = n] *)
Definition withStock (n : Z) (p : t) : t :=
  Build (id p) (name p) (category p) n (buyingPrice p) (sellingPrice p) (supplierId p).
End Product.

(** Modelled from the spec: a line item of a Sale (product reference, quantity,
    price at the time of sale); the declaration is in ../types. *)
Module SaleItem.
Record t : Type := Build
  { productId : string;
    quantity : Z;
    price : Z }.
End SaleItem.

(** Modelled from the spec: a Sale as declared in ../types, with the fields the
    handlers read ([id], [items], [customerType], [customerId]) and its date. *)
Module Sale.
Record t : Type := Build
  { id : string;
    items : list SaleItem.t;
    customerType : string;
    customerId : option string;
    date : string }.

Definition withId (i : string) (s : t) : t :=
  Build i (items s) (customerType s) (customerId s) (date s).

Definition withCustomerId (c : option string) (s : t) : t :=
  Build (id s) (items s) (customerType s) c (date s).
End Sale.

(** A Purchase, with the fields [addProduct] and [updateProduct] write. *)
Module Purchase.
Record t : Type := Build
  { id : string;
    date : string;
    supplierId : string;
    productId : string;
    quantity : Z;
    unitCost : Z;
    totalCost : Z }.
End Purchase.

(** ** JSON values

    The payload of [importData] is typed [any]; it is the result of
    [JSON.parse].  Records whose declaration is not needed by any handler
    (suppliers, expenses, customers, payments, company info, settings) are kept
    as such objects. *)
#[local] Unset Elimination Schemes.
Inductive value : Type :=
| VNull
| VBool (b : bool)
| VNum (n : Z)
| VStr (s : string)
| VArr (elements : list value)
| VObj (fields : list (string * value)).
#[local] Set Elimination Schemes.

Definition object : Type := list (string * value).

(** ** Toasts *)

Inductive Severity : Type := success | error | info | warning.

Module Toast.
Record t : Type := Build { message : string; type : Severity }.
End Toast.

(** ** The state held by the provider: ten persisted cells *)

Record State : Type := mkState
  { products : list Product.t;
    sales : list Sale.t;
    suppliers : list object;
    expenses : list object;
    customers : list object;
    purchases : list Purchase.t;
    customerPayments : list object;
    companyInfo : object;
    systemSettings : object;
    categories : list string }.

(** What a handler is given by its environment. *)
Record Env : Type := mkEnv
  { generateId : nat -> string;   (* result of the k-th call of generateId() *)
    today : string;               (* new Date().toISOString().split('T')[0] *)
    confirm : bool }.             (* answer to window.confirm *)

(** ** Handlers

    A handler maps the current state to its return value, the next state and
    the toasts shown, in order. *)
Definition Handler (A : Type) : Type := State -> A * State * list Toast.t.

Definition ret {A : Type} (a : A) : Handler A := fun st => (a, st, []).

Definition bind {A B : Type} (m : Handler A) (k : A -> Handler B) : Handler B :=
  fun st =>
    let r1 := m st in
    let r2 := k (fst (fst r1)) (snd (fst r1)) in
    (fst (fst r2), snd (fst r2), snd r1 ++ snd r2).

Notation "m ;; k" := (bind m (fun _ => k)) (at level 61, right associativity).

(** The handler body sees the state of the current render. *)
Definition render {A : Type} (body : State -> Handler A) : Handler A :=
  fun st => body st st.

Definition resultOf {A : Type} (r : A * State * list Toast.t) : A := fst (fst r).
Definition stateOf {A : Type} (r : A * State * list Toast.t) : State := snd (fst r).
Definition toastsOf {A : Type} (r : A * State * list Toast.t) : list Toast.t := snd r.

(** The setters returned by [useLocalStorage], called with an updater. *)
Definition setProducts (f : list Product.t -> list Product.t) : Handler unit :=
  fun st =>
    (tt, mkState (f (products st)) (sales st) (suppliers st) (expenses st)
           (customers st) (purchases st) (customerPayments st) (companyInfo st)
           (systemSettings st) (categories st), []).

Definition setSales (f : list Sale.t -> list Sale.t) : Handler unit :=
  fun st =>
    (tt, mkState (products st) (f (sales st)) (suppliers st) (expenses st)
           (customers st) (purchases st) (customerPayments st) (companyInfo st)
           (systemSettings st) (categories st), []).

Definition setPurchases (f : list Purchase.t -> list Purchase.t) : Handler unit :=
  fun st =>
    (tt, mkState (products st) (sales st) (suppliers st) (expenses st)
           (customers st) (f (purchases st)) (customerPayments st) (companyInfo st)
           (systemSettings st) (categories st), []).

Definition setCategories (f : list string -> list string) : Handler unit :=
  fun st =>
    (tt, mkState (products st) (sales st) (suppliers st) (expenses st)
           (customers st) (purchases st) (customerPayments st) (companyInfo st)
           (systemSettings st) (f (categories st)), []).

Definition showToast (message : string) (type : Severity) : Handler unit :=
  fun st => (tt, st, [Toast.Build message type]).

(** *** Products *)

Definition addProduct (e : Env) (product : Product.t) : Handler unit :=
  let newProduct := Product.withId (generateId e 0) product in
  setProducts (fun prev => prev ++ [newProduct]) ;;
  if JS.truthyStr (Product.supplierId newProduct)
     && (0 <? Product.stock newProduct)
     && (0 <? Product.buyingPrice newProduct)
  then
    let newPurchase :=
      {| Purchase.date := today e;
         Purchase.supplierId := JS.narrowed (Product.supplierId newProduct);
         Purchase.productId := Product.id newProduct;
         Purchase.quantity := Product.stock newProduct;
         Purchase.unitCost := Product.buyingPrice newProduct;
         Purchase.totalCost := Product.stock newProduct * Product.buyingPrice newProduct;
         Purchase.id := generateId e 1 |} in
    setPurchases (fun prev => prev ++ [newPurchase])
  else ret tt.

Definition updateProduct (e : Env) (updatedProduct : Product.t) : Handler unit :=
  render (fun cur =>
    let oldProduct :=
      find (fun p => Product.id p === Product.id updatedProduct) (products cur) in
    let oldStock :=
      match oldProduct with
      | Some p => Product.stock p
      | None => 0
      end in
    setProducts
      (map (fun p => if Product.id p === Product.id updatedProduct
                     then updatedProduct else p)) ;;
    let stockIncrease := Product.stock updatedProduct - oldStock in
    if JS.truthyStr (Product.supplierId updatedProduct)
       && (0 <? stockIncrease)
       && (0 <? Product.buyingPrice updatedProduct)
    then
      let newPurchase :=
        {| Purchase.date := today e;
           Purchase.supplierId := JS.narrowed (Product.supplierId updatedProduct);
           Purchase.productId := Product.id updatedProduct;
           Purchase.quantity := stockIncrease;
           Purchase.unitCost := Product.buyingPrice updatedProduct;
           Purchase.totalCost := stockIncrease * Product.buyingPrice updatedProduct;
           Purchase.id := generateId e 0 |} in
      setPurchases (fun prev => prev ++ [newPurchase])
    else ret tt).

Definition deleteProduct (productId : string) : Handler unit :=
  setProducts (filter (fun p => Product.id p !== productId)).

(** *** Numbers

    JS numbers are binary64.  The number fields of the records hold integers,
    and on integers [+] and [-] give the exact result rounded to the nearest
    double, ties to even, which is an integer again.  Every integer up to 2^53
    in magnitude is a double, so nothing is rounded there; larger results keep
    53 significant bits.  Results stay finite: Infinity is not modelled. *)
Module Double.

Definition round (z : Z) : Z :=
  if Z.abs z <=? 2 ^ 53 then z
  else
    let n := Z.abs z in
    let e := Z.log2 n - 52 in
    let q := n / 2 ^ e in
    let r := n mod 2 ^ e in
    let half := 2 ^ (e - 1) in
    let up := if r <? half then false else if half <? r then true else Z.odd q in
    Z.sgn z * ((if up then q + 1 else q) * 2 ^ e).

(** [a - b] *)
Definition minus (a b : Z) : Z := round (a - b).

(** [a + b] *)
Definition plus (a b : Z) : Z := round (a + b).

(** The same two operations in the IEEE 754 formalisation of the standard
    library, at the binary64 format, to compare [round] with. *)
Definition ofZ (z : Z) : spec_float := binary_normalize 53 1024 z 0 false.

Definition toZ (x : spec_float) : option Z :=
  match x with
  | S754_zero _ => Some 0
  | S754_finite s m e =>
      let v := if 0 <=? e then Zpos m * 2 ^ e else Zpos m / 2 ^ (- e) in
      Some (if s then - v else v)
  | _ => None
  end.

Definition ieeeMinus (a b : Z) : option Z := toZ (SFsub 53 1024 (ofZ a) (ofZ b)).

Definition ieeePlus (a b : Z) : option Z := toZ (SFadd 53 1024 (ofZ a) (ofZ b)).

(** Whether [minus] and [plus] are the library's on the doubles [a] and [b]. *)
Definition agrees (a b : Z) : bool :=
  match ieeeMinus a b, ieeePlus a b with
  | Some m, Some p => (m =? minus a b) && (p =? plus a b)
  | _, _ => false
  end.

(** The integers from [c - n] to [c + n]. *)
Definition around (c : Z) (n : nat) : list Z :=
  map (fun k => c + Z.of_nat k - Z.of_nat n) (seq 0 (2 * n + 1)).

(** The doubles nearest to 0.4 and 0.6. *)
Definition fourTenths : spec_float := S754_finite false 7205759403792794 (-54).
Definition sixTenths : spec_float := S754_finite false 5404319552844595 (-53).

End Double.

(** *** Sales *)

(** [newProducts[productIndex].stock -= item.quantity], when the product is
    found. *)
Definition takeFromStock (newProducts : list Product.t) (item : SaleItem.t)
  : list Product.t :=
  match JS.findIndex (fun p => Product.id p === SaleItem.productId item) newProducts with
  | Some productIndex =>
      JS.updateAt productIndex
        (fun p => Product.withStock
                    (Double.minus (Product.stock p) (SaleItem.quantity item)) p)
        newProducts
  | None => newProducts
  end.

(** [newProducts[productIndex].stock += item.quantity], when the product is
    found. *)
Definition putBackInStock (newProducts : list Product.t) (item : SaleItem.t)
  : list Product.t :=
  match JS.findIndex (fun p => Product.id p === SaleItem.productId item) newProducts with
  | Some productIndex =>
      JS.updateAt productIndex
        (fun p => Product.withStock
                    (Double.plus (Product.stock p) (SaleItem.quantity item)) p)
        newProducts
  | None => newProducts
  end.

(** The Sale that [addSale] stores. *)
Definition newSaleOf (e : Env) (sale : Sale.t) : Sale.t :=
  let newSale := Sale.withId (generateId e 0) sale in
  if (Sale.customerType sale !== "walk-in") && (Sale.customerType sale !== "online")
  then Sale.withCustomerId (Some (Sale.customerType sale)) newSale
  else newSale.

Definition addSale (e : Env) (sale : Sale.t) : Handler unit :=
  render (fun cur =>
    let newSale := newSaleOf e sale in
    let newProducts := fold_left takeFromStock (Sale.items newSale) (products cur) in
    setProducts (fun _ => newProducts) ;;
    setSales (fun prev => prev ++ [newSale])).

Definition deleteSale (saleId : string) : Handler unit :=
  render (fun cur =>
    match find (fun s => Sale.id s === saleId) (sales cur) with
    | None => ret tt
    | Some saleToDelete =>
        let newProducts :=
          fold_left putBackInStock (Sale.items saleToDelete) (products cur) in
        setProducts (fun _ => newProducts) ;;
        setSales (filter (fun s => Sale.id s !== saleId))
    end).

(** *** Categories *)

Definition addCategory (name : string) : Handler bool :=
  render (fun cur =>
    let trimmedName := JS.trim name in
    if JS.includes (map JS.toLowerCase (categories cur)) (JS.toLowerCase trimmedName)
    then
      showToast (JS.template ["Category "; JS.dq; trimmedName; JS.dq; " already exists."])
                warning ;;
      ret false
    else
      setCategories (fun prev => prev ++ [trimmedName]) ;;
      showToast (JS.template ["Category "; JS.dq; trimmedName; JS.dq; " added."]) success ;;
      ret true).

Definition updateCategory (oldName newName : string) : Handler bool :=
  render (fun cur =>
    let trimmedNewName := JS.trim newName in
    if trimmedNewName === ""
    then
      showToast "Category name cannot be empty." error ;;
      ret false
    else if (JS.toLowerCase oldName !== JS.toLowerCase trimmedNewName)
            && JS.includes (map JS.toLowerCase (categories cur))
                           (JS.toLowerCase trimmedNewName)
    then
      showToast (JS.template ["Category "; JS.dq; trimmedNewName; JS.dq; " already exists."])
                warning ;;
      ret false
    else
      let newProducts :=
        map (fun p => if Product.category p === oldName
                      then Product.withCategory trimmedNewName p
                      else p)
            (products cur) in
      setProducts (fun _ => newProducts) ;;
      setCategories (map (fun c => if c === oldName then trimmedNewName else c)) ;;
      showToast "Category updated successfully!" success ;;
      ret true).

Definition deleteCategory (e : Env) (name : string) : Handler unit :=
  render (fun cur =>
    let productsUsingCategory :=
      List.length (filter (fun p => Product.category p === name) (products cur)) in
    if (0 <? productsUsingCategory)%nat
    then
      showToast
        (JS.template ["Cannot delete category "; JS.dq; name; JS.dq;
                      " as it is being used by "; JS.showNat productsUsingCategory;
                      " product(s)."])
        error
    else if confirm e
    then
      setCategories (filter (fun c => c !== name)) ;;
      showToast (JS.template ["Category "; JS.dq; name; JS.dq; " deleted."]) success
    else ret tt).

(** The form handlers of the Settings page that call the two mutators. *)
Definition handleAddCategory (newCategoryName : string) : Handler unit :=
  if JS.trim newCategoryName === ""
  then showToast "Category name cannot be empty" error
  else addCategory newCategoryName ;; ret tt.

(** ** Backup: export and import

    [importData] takes a payload typed [any] and hands whatever it finds to the
    setters, so at this level each of the ten cells holds a JSON value.
    [toStore] below gives the cells of a typed [State]. *)

Module Key.
Inductive t : Type :=
| products | sales | suppliers | expenses | customers
| purchases | customerPayments | companyInfo | systemSettings | categories.

Definition name (k : t) : string :=
  match k with
  | products => "products"
  | sales => "sales"
  | suppliers => "suppliers"
  | expenses => "expenses"
  | customers => "customers"
  | purchases => "purchases"
  | customerPayments => "customerPayments"
  | companyInfo => "companyInfo"
  | systemSettings => "systemSettings"
  | categories => "categories"
  end.

Definition eqb (a b : t) : bool :=
  match a, b with
  | products, products | sales, sales | suppliers, suppliers
  | expenses, expenses | customers, customers | purchases, purchases
  | customerPayments, customerPayments | companyInfo, companyInfo
  | systemSettings, systemSettings | categories, categories => true
  | _, _ => false
  end.

(** The order of the ten statements of [importData]. *)
Definition importOrder : list t :=
  [products; sales; suppliers; expenses; customers; purchases;
   customerPayments; companyInfo; systemSettings; categories].

(** The order of the properties of the object built by [exportBackup]. *)
Definition exportOrder : list t :=
  [products; sales; suppliers; expenses; customers; companyInfo;
   systemSettings; categories; purchases; customerPayments].
End Key.

Definition Store : Type := Key.t -> value.

(** [setX(v)] for the cell of key [k]. *)
Definition setCell (k : Key.t) (v : value) (st : Store) : Store :=
  fun k' => if Key.eqb k' k then v else st k'.

(** JS truthiness of a JSON value. *)
Definition truthy (v : value) : bool :=
  match v with
  | VNull => false
  | VBool b => b
  | VNum n => negb (n =? 0)
  | VStr s => s !== ""
  | VArr _ => true
  | VObj _ => true
  end.

(** The own property [key] of an object; [fields] lists the properties of the
    object, each key once. *)
Fixpoint lookup (key : string) (fields : list (string * value)) : option value :=
  match fields with
  | [] => None
  | (k, v) :: rest => if k === key then Some v else lookup key rest
  end.

(** Outcome of the property read [data.key]. *)
Inductive Read : Type :=
| Threw                  (* TypeError: data is null *)
| Undefined
| Defined (v : value).

(** [data.k] for one of the ten keys; none of them is a property of a number,
    a string, a boolean or an array. *)
Definition getProp (data : value) (k : Key.t) : Read :=
  match data with
  | VNull => Threw
  | VObj fields =>
      match lookup (Key.name k) fields with
      | Some v => Defined v
      | None => Undefined
      end
  | _ => Undefined
  end.

(** State of the [try] block: still running, or left by an exception.  The
    setters already called keep their effect in both cases. *)
Inductive Completion : Type :=
| Completed (st : Store)
| Thrown (st : Store).

(** [if (data.k) setK(data.k);] *)
Definition importCell (data : value) (acc : Completion) (k : Key.t) : Completion :=
  match acc with
  | Thrown _ => acc
  | Completed st =>
      match getProp data k with
      | Threw => Thrown st
      | Undefined => Completed st
      | Defined v => Completed (if truthy v then setCell k v st else st)
      end
  end.

(** The cell of key [k] after the statement [if (data.k) setK(data.k)]. *)
Definition imported (data : value) (st : Store) (k : Key.t) : value :=
  match getProp data k with
  | Defined v => if truthy v then v else st k
  | _ => st k
  end.

Definition importData (e : Env) (data : value) (st : Store) : Store * list Toast.t :=
  if confirm e
  then
    match fold_left (importCell data) Key.importOrder (Completed st) with
    | Completed st' => (st', [Toast.Build "Data imported successfully!" success])
    | Thrown st' => (st', [Toast.Build "Invalid data file." error])
    end
  else (st, []).

(** The [onload] callback of [handleImportJson] in the Settings page;
    [parsed] is the result of [JSON.parse] on the text of the file, [None] when
    it throws. *)
Definition handleImportJson (e : Env) (parsed : option value) (st : Store)
  : Store * list Toast.t :=
  match parsed with
  | Some data => importData e data st
  | None => (st, [Toast.Build "Invalid JSON file" error])
  end.

(** The object [data] that [exportBackup] serialises.  On the values of type
    [value], [JSON.parse] undoes [JSON.stringify], so this is also the payload
    that reaches [importData] when the written file is imported. *)
Definition exportData (st : Store) : value :=
  VObj (map (fun k => (Key.name k, st k)) Key.exportOrder).

(** *** The cells of a typed state *)

Definition optionalField (key : string) (o : option string) : list (string * value) :=
  match o with
  | Some s => [(key, VStr s)]
  | None => []
  end.

Definition jsProduct (p : Product.t) : value :=
  VObj ([("id", VStr (Product.id p));
         ("name", VStr (Product.name p));
         ("category", VStr (Product.category p));
         ("stock", VNum (Product.stock p));
         ("buyingPrice", VNum (Product.buyingPrice p));
         ("sellingPrice", VNum (Product.sellingPrice p))]
        ++ optionalField "supplierId" (Product.supplierId p)).

Definition jsSaleItem (i : SaleItem.t) : value :=
  VObj [("productId", VStr (SaleItem.productId i));
        ("quantity", VNum (SaleItem.quantity i));
        ("price", VNum (SaleItem.price i))].

Definition jsSale (s : Sale.t) : value :=
  VObj ([("id", VStr (Sale.id s));
         ("items", VArr (map jsSaleItem (Sale.items s)));
         ("customerType", VStr (Sale.customerType s));
         ("date", VStr (Sale.date s))]
        ++ optionalField "customerId" (Sale.customerId s)).

Definition jsPurchase (p : Purchase.t) : value :=
  VObj [("id", VStr (Purchase.id p));
        ("date", VStr (Purchase.date p));
        ("supplierId", VStr (Purchase.supplierId p));
        ("productId", VStr (Purchase.productId p));
        ("quantity", VNum (Purchase.quantity p));
        ("unitCost", VNum (Purchase.unitCost p));
        ("totalCost", VNum (Purchase.totalCost p))].

Definition toStore (s : State) : Store :=
  fun k =>
    match k with
    | Key.products => VArr (map jsProduct (products s))
    | Key.sales => VArr (map jsSale (sales s))
    | Key.suppliers => VArr (map VObj (suppliers s))
    | Key.expenses => VArr (map VObj (expenses s))
    | Key.customers => VArr (map VObj (customers s))
    | Key.purchases => VArr (map jsPurchase (purchases s))
    | Key.customerPayments => VArr (map VObj (customerPayments s))
    | Key.companyInfo => VObj (companyInfo s)
    | Key.systemSettings => VObj (systemSettings s)
    | Key.categories => VArr (map VStr (categories s))
    end.

(** *** The structure a backup document is expected to have

    From the description of the Backup Codec: a document has the entity
    collections, CompanyInfo, SystemSettings and Categories as top-level keys,
    each of them optional. *)
Definition isArray (v : value) : bool :=
  match v with VArr _ => true | _ => false end.

Definition isObject (v : value) : bool :=
  match v with VObj _ => true | _ => false end.

Definition expectedShape (k : Key.t) (v : value) : bool :=
  match k with
  | Key.companyInfo | Key.systemSettings => isObject v
  | _ => isArray v
  end.

Definition expectedStructure (data : value) : bool :=
  match data with
  | VObj fields =>
      forallb (fun k => match lookup (Key.name k) fields with
                        | Some v => expectedShape k v
                        | None => true
                        end)
              Key.importOrder
  | _ => false
  end.

(** ** Notions used by the properties *)

(** Stock of the first product with the given id: the one [findIndex] and
    [find] select. *)
Definition stockOf (productId : string) (ps : list Product.t) : option Z :=
  option_map Product.stock (find (fun p => Product.id p === productId) ps).

(** Total quantity of the line items that refer to a product. *)
Fixpoint quantityOf (productId : string) (items : list SaleItem.t) : Z :=
  match items with
  | [] => 0
  | i :: rest =>
      (if SaleItem.productId i === productId then SaleItem.quantity i else 0)
      + quantityOf productId rest
  end.

(** Add [d] to the stock of the first product with the given id, if any. *)
Fixpoint bump (productId : string) (d : Z) (ps : list Product.t) : list Product.t :=
  match ps with
  | [] => []
  | p :: rest =>
      if Product.id p === productId
      then Product.withStock (Product.stock p + d) p :: rest
      else p :: bump productId d rest
  end.

(** A line item refers to a product of the list. *)
Definition knownIn (ps : list Product.t) (item : SaleItem.t) : bool :=
  existsb (fun p => Product.id p === SaleItem.productId item) ps.

(** Apply [f] to the stock of the first product with the given id, if any. *)
Fixpoint adjust (productId : string) (f : Z -> Z) (ps : list Product.t)
  : list Product.t :=
  match ps with
  | [] => []
  | p :: rest =>
      if Product.id p === productId
      then Product.withStock (f (Product.stock p)) p :: rest
      else p :: adjust productId f rest
  end.

(** What [takeFromStock] and [putBackInStock] give when nothing is rounded. *)
Definition takeExactly (ps : list Product.t) (item : SaleItem.t) : list Product.t :=
  bump (SaleItem.productId item) (- SaleItem.quantity item) ps.

Definition putBackExactly (ps : list Product.t) (item : SaleItem.t) : list Product.t :=
  bump (SaleItem.productId item) (SaleItem.quantity item) ps.

(** Sum of the magnitudes of the quantities of the line items. *)
Fixpoint totalQuantity (items : list SaleItem.t) : Z :=
  match items with
  | [] => 0
  | i :: rest => Z.abs (SaleItem.quantity i) + totalQuantity rest
  end.

(** Every stock is an integer that a double holds exactly. *)
Definition inRange (ps : list Product.t) : Prop :=
  Forall (fun p => Z.abs (Product.stock p) <= 2 ^ 53) ps.

(** Every stock stays within 2^53 in magnitude however the quantities of the
    items are taken from it or added to it. *)
Definition withinRange (items : list SaleItem.t) (ps : list Product.t) : Prop :=
  Forall (fun p => Z.abs (Product.stock p) + totalQuantity items <= 2 ^ 53) ps.

(** The Purchase written when stock comes in from a supplier. *)
Definition purchaseFor (purchaseId date supplier product : string) (qty cost : Z)
  : Purchase.t :=
  {| Purchase.id := purchaseId;
     Purchase.date := date;
     Purchase.supplierId := supplier;
     Purchase.productId := product;
     Purchase.quantity := qty;
     Purchase.unitCost := cost;
     Purchase.totalCost := qty * cost |}.

(** Number of products filed under a category. *)
Definition productsUsing (name : string) (st : State) : nat :=
  List.length (filter (fun p => Product.category p === name) (products st)).

(** The invariant of the category list. *)
Definition uniqueNames (cats : list string) : Prop :=
  NoDup (map JS.toLowerCase cats).

Definition noBlankName (cats : list string) : Prop :=
  Forall (fun c => JS.trim c <> "") cats.

(** Calls of the two category mutators, and sequences of them. *)
Inductive CategoryCall : Type :=
| CallAdd (name : string)
| CallUpdate (oldName newName : string).

Definition callCategory (st : State) (c : CategoryCall) : State :=
  match c with
  | CallAdd name => stateOf (addCategory name st)
  | CallUpdate oldName newName => stateOf (updateCategory oldName newName st)
  end.

Definition callAll (calls : list CategoryCall) (st : State) : State :=
  fold_left callCategory calls st.

(** An [addCategory] call as the Settings form lets it through. *)
Definition nonBlankCall (c : CategoryCall) : Prop :=
  match c with
  | CallAdd name => JS.trim name <> ""
  | CallUpdate _ _ => True
  end.

(** *** Sample data *)

Module Sample.
Definition emptyState : State := mkState [] [] [] [] [] [] [] [] [] [].

Definition env : Env :=
  mkEnv (fun k => match k with O => "k1a2b3c" | _ => "k1d4e5f" end) "2024-05-17" true.

Definition declined : Env :=
  mkEnv (fun k => match k with O => "k1a2b3c" | _ => "k1d4e5f" end) "2024-05-17" false.

Definition shirt : Product.t :=
  Product.Build "" "Shirt" "Clothing" 10 5 10 (Some "S1").

Definition productA : Product.t := Product.Build "A" "Shirt" "Clothing" 10 5 10 (Some "S1").
Definition productB : Product.t := Product.Build "B" "Socks" "Clothing" 5 1 2 None.

Definition shop : State :=
  mkState [productA; productB] [] [] [] [] [] [] [("name", VStr "Swift POS")] []
          ["Clothing"; "Shoes"].

(** Two line items on A and B and one on a product that was deleted. *)
Definition sale : Sale.t :=
  Sale.Build "" [SaleItem.Build "A" 3 10; SaleItem.Build "gone" 4 7; SaleItem.Build "B" 2 2]
             "walk-in" None "2024-05-17".

Definition restockedA : Product.t := Product.Build "A" "Shirt" "Clothing" 15 5 10 (Some "S1").
End Sample.

Module SampleLarge.
(** A product whose stock, 2^53 + 2, is a double, and two sales of one unit
    of it, the second with a line item on a product that is gone. *)
Definition product : Product.t :=
  Product.Build "A" "Rice" "Food" 9007199254740994 1 2 None.

Definition warehouse : State :=
  mkState [product] [] [] [] [] [] [] [] [] ["Food"].

Definition oneUnit : Sale.t :=
  Sale.Build "" [SaleItem.Build "A" 1 2] "walk-in" None "2024-05-17".

Definition oneUnitAndGone : Sale.t :=
  Sale.Build "" [SaleItem.Build "gone" 4 7; SaleItem.Build "A" 1 2]
             "walk-in" None "2024-05-17".
End SampleLarge.

(** ** The remaining mutators of the provider *)

(** *** Records kept as objects: suppliers, expenses, customers, payments *)

Module Obj.

(** [{ ...o, key: v }]: the property keeps its place when [o] has it and comes
    last otherwise. *)
Fixpoint setProp (key : string) (v : value) (o : object) : object :=
  match o with
  | [] => [(key, v)]
  | (k, x) :: rest =>
      if k === key then (k, v) :: rest else (k, x) :: setProp key v rest
  end.

(** [{ ...o, id: i }] *)
Definition withId (i : string) (o : object) : object := setProp "id" (VStr i) o.

(** [o.id]; [None] is undefined. *)
Definition id (o : object) : option value := lookup "id" o.

(** [a === b] on two property reads.  Two arrays or two objects are equal in
    JS only when they are one reference, which a [value] does not record; they
    compare as different here.  The ids of the records are strings. *)
Definition strictEq (a b : option value) : bool :=
  match a, b with
  | None, None => true
  | Some VNull, Some VNull => true
  | Some (VBool x), Some (VBool y) => Bool.eqb x y
  | Some (VNum x), Some (VNum y) => x =? y
  | Some (VStr x), Some (VStr y) => x === y
  | _, _ => false
  end.

(** [o.id === i] for a string [i]. *)
Definition hasId (i : string) (o : object) : bool := strictEq (id o) (Some (VStr i)).

End Obj.

Definition setSuppliers (f : list object -> list object) : Handler unit :=
  fun st =>
    (tt, mkState (products st) (sales st) (f (suppliers st)) (expenses st)
           (customers st) (purchases st) (customerPayments st) (companyInfo st)
           (systemSettings st) (categories st), []).

Definition setExpenses (f : list object -> list object) : Handler unit :=
  fun st =>
    (tt, mkState (products st) (sales st) (suppliers st) (f (expenses st))
           (customers st) (purchases st) (customerPayments st) (companyInfo st)
           (systemSettings st) (categories st), []).

Definition setCustomers (f : list object -> list object) : Handler unit :=
  fun st =>
    (tt, mkState (products st) (sales st) (suppliers st) (expenses st)
           (f (customers st)) (purchases st) (customerPayments st) (companyInfo st)
           (systemSettings st) (categories st), []).

Definition setCustomerPayments (f : list object -> list object) : Handler unit :=
  fun st =>
    (tt, mkState (products st) (sales st) (suppliers st) (expenses st)
           (customers st) (purchases st) (f (customerPayments st)) (companyInfo st)
           (systemSettings st) (categories st), []).

Definition setCompanyInfo (f : object -> object) : Handler unit :=
  fun st =>
    (tt, mkState (products st) (sales st) (suppliers st) (expenses st)
           (customers st) (purchases st) (customerPayments st) (f (companyInfo st))
           (systemSettings st) (categories st), []).

Definition setSystemSettings (f : object -> object) : Handler unit :=
  fun st =>
    (tt, mkState (products st) (sales st) (suppliers st) (expenses st)
           (customers st) (purchases st) (customerPayments st) (companyInfo st)
           (f (systemSettings st)) (categories st), []).

(** The three updaters shared by suppliers, expenses and customers:
    [prev => [...prev, { ...x, id: generateId() }]],
    [prev => prev.map(s => s.id === updated.id ? updated : s)] and
    [prev => prev.filter(s => s.id !== id)]. *)
Definition appendRecord (newId : string) (record : object) (prev : list object)
  : list object :=
  prev ++ [Obj.withId newId record].

Definition replaceRecord (updated : object) (prev : list object) : list object :=
  map (fun s => if Obj.strictEq (Obj.id s) (Obj.id updated) then updated else s) prev.

Definition removeRecord (recordId : string) (prev : list object) : list object :=
  filter (fun s => negb (Obj.hasId recordId s)) prev.

Definition addSupplier (e : Env) (supplier : object) : Handler unit :=
  setSuppliers (appendRecord (generateId e 0) supplier).
Definition updateSupplier (updatedSupplier : object) : Handler unit :=
  setSuppliers (replaceRecord updatedSupplier).
Definition deleteSupplier (supplierId : string) : Handler unit :=
  setSuppliers (removeRecord supplierId).

Definition addExpense (e : Env) (expense : object) : Handler unit :=
  setExpenses (appendRecord (generateId e 0) expense).
Definition updateExpense (updatedExpense : object) : Handler unit :=
  setExpenses (replaceRecord updatedExpense).
Definition deleteExpense (expenseId : string) : Handler unit :=
  setExpenses (removeRecord expenseId).

Definition addCustomer (e : Env) (customer : object) : Handler unit :=
  setCustomers (appendRecord (generateId e 0) customer).
Definition updateCustomer (updatedCustomer : object) : Handler unit :=
  setCustomers (replaceRecord updatedCustomer).
Definition deleteCustomer (customerId : string) : Handler unit :=
  setCustomers (removeRecord customerId).

Definition addCustomerPayment (e : Env) (payment : object) : Handler unit :=
  setCustomerPayments (appendRecord (generateId e 0) payment).

Definition saveCompanyInfo (info : object) : Handler unit :=
  setCompanyInfo (fun _ => info).

Definition saveSystemSettings (settings : object) : Handler unit :=
  setSystemSettings (fun _ => settings).

(** [handleSaveStorage] of the Settings page. *)
Definition handleSaveStorage (storagePref storagePath : string) : Handler unit :=
  render (fun cur =>
    saveSystemSettings
      (Obj.setProp "storagePath" (VStr storagePath)
         (Obj.setProp "storagePreference" (VStr storagePref) (systemSettings cur))) ;;
    showToast "Storage preference saved." success ;;
    if storagePref === "online"
    then showToast "Online folder sync is a placeholder for a future feature." info
    else ret tt).

(** *** Reset and default categories *)

(** The table DEFAULT_CATEGORIES of ../constants, a parameter of the model:
    its keys, the business types, in order, and the category list under each
    key. *)
Record Constants : Type := mkConstants
  { businessTypes : list string;
    DEFAULT_CATEGORIES : string -> list string }.

Definition defaultSettings : object :=
  [("businessType", VStr "clothing");
   ("currency", VStr "MMK");
   ("taxRate", VNum 0);
   ("enableNotifications", VBool true);
   ("enableSound", VBool true);
   ("lowStockThreshold", VNum 10);
   ("receiptSize", VStr "standard");
   ("receiptFooter", VStr "Thank you for your purchase!");
   ("storagePreference", VStr "local");
   ("storagePath", VStr "")].

Definition resetAllData (c : Constants) (e : Env) : Handler unit :=
  if confirm e
  then
    setProducts (fun _ => []) ;;
    setSales (fun _ => []) ;;
    setSuppliers (fun _ => []) ;;
    setExpenses (fun _ => []) ;;
    setCustomers (fun _ => []) ;;
    setPurchases (fun _ => []) ;;
    setCustomerPayments (fun _ => []) ;;
    setCompanyInfo (fun _ => [("name", VStr "Swift POS")]) ;;
    setSystemSettings (fun _ => defaultSettings) ;;
    setCategories (fun _ => DEFAULT_CATEGORIES c "clothing") ;;
    showToast "All data has been reset." success
  else ret tt.

(** The effect that follows [systemSettings.businessType]: it runs with the
    categories of the render in which the business type changed. *)
Definition syncDefaultCategories (c : Constants) (businessType : string) : Handler unit :=
  render (fun cur =>
    let allDefaultCategories := flat_map (DEFAULT_CATEGORIES c) (businessTypes c) in
    let isDefaultOrEmpty :=
      (List.length (categories cur) =? 0)%nat
      || forallb (fun x => JS.includes allDefaultCategories x) (categories cur) in
    if isDefaultOrEmpty
    then setCategories (fun _ => DEFAULT_CATEGORIES c businessType)
    else ret tt).

(** [systemSettings.businessType], when it is a string. *)
Definition businessTypeOf (st : State) : option string :=
  match lookup "businessType" (systemSettings st) with
  | Some (VStr b) => Some b
  | _ => None
  end.

(** *** The toasts on screen *)

Module ToastMessage.
Record t : Type := Build { id : Z; message : string; type : Severity }.
End ToastMessage.

(** [showToast] at the time [now] given by [Date.now()], on the list of toasts
    shown; the timer started with it calls [removeToast] with the same id. *)
Definition pushToast (now : Z) (message : string) (type : Severity)
           (prev : list ToastMessage.t) : list ToastMessage.t :=
  prev ++ [ToastMessage.Build now message type].

Definition removeToast (id : Z) (prev : list ToastMessage.t) : list ToastMessage.t :=
  filter (fun t => negb (ToastMessage.id t =? id)) prev.

(** *** Export of the backup file *)

(** What the directory handle answers to the awaited calls of [exportBackup]:
    [None] and [false] stand for a rejected promise. *)
Module Dir.
Record t : Type := Build
  { queryPermission : option string;
    requestPermission : option string;
    getFileHandle : bool;
    createWritable : bool;
    write : bool;
    close : bool }.
End Dir.

Inductive Event : Type :=
| Shown (t : Toast.t)
| Downloaded (content : value) (fileName : string)
| Written (content : value) (fileName : string).

Definition downloadBackup (blob : value) (fileName : string) : list Event :=
  [Downloaded blob fileName; Shown (Toast.Build "Backup file is downloading." info)].

Definition exportBackup (e : Env) (directoryHandle : option Dir.t) (st : State)
  : list Event :=
  let blob := exportData (toStore st) in
  let fileName := JS.template ["swift-pos-backup-"; today e; ".json"] in
  let caught :=
    Shown (Toast.Build "Failed to save to folder. Downloading instead." error)
    :: downloadBackup blob fileName in
  match directoryHandle with
  | None => downloadBackup blob fileName
  | Some h =>
      let writeFile :=
        if negb (Dir.getFileHandle h) then caught
        else if negb (Dir.createWritable h) then caught
        else if negb (Dir.write h) then caught
        else Written blob fileName ::
             (if negb (Dir.close h) then caught
              else [Shown (Toast.Build
                             (JS.template ["Backup saved to your selected folder: "; fileName])
                             success)]) in
      match Dir.queryPermission h with
      | None => caught
      | Some permission =>
          if permission !== "granted"
          then
            match Dir.requestPermission h with
            | None => caught
            | Some answer =>
                if answer !== "granted"
                then Shown (Toast.Build "Permission to write to folder was denied." error)
                     :: downloadBackup blob fileName
                else writeFile
            end
          else writeFile
      end
  end.

(** *** Calls of the mutators

    The calls that keep the records: the product, sale, supplier, expense,
    customer, customer-payment, company-info and category mutators.  Three
    mutators of the provider are not among them, and the properties over runs
    of calls say nothing of them: [resetAllData] and [importData] replace
    whole cells, and after [saveSystemSettings] the effect on the business
    type may replace the category list. *)

Inductive Call : Type :=
| AddProduct (e : Env) (product : Product.t)
| UpdateProduct (e : Env) (updatedProduct : Product.t)
| DeleteProduct (productId : string)
| AddSale (e : Env) (sale : Sale.t)
| DeleteSale (saleId : string)
| AddSupplier (e : Env) (supplier : object)
| UpdateSupplier (updatedSupplier : object)
| DeleteSupplier (supplierId : string)
| AddExpense (e : Env) (expense : object)
| UpdateExpense (updatedExpense : object)
| DeleteExpense (expenseId : string)
| AddCustomer (e : Env) (customer : object)
| UpdateCustomer (updatedCustomer : object)
| DeleteCustomer (customerId : string)
| AddCustomerPayment (e : Env) (payment : object)
| SaveCompanyInfo (info : object)
| AddCategory (name : string)
| UpdateCategory (oldName newName : string)
| DeleteCategory (e : Env) (name : string).

Definition perform (st : State) (c : Call) : State :=
  match c with
  | AddProduct e product => stateOf (addProduct e product st)
  | UpdateProduct e updatedProduct => stateOf (updateProduct e updatedProduct st)
  | DeleteProduct productId => stateOf (deleteProduct productId st)
  | AddSale e sale => stateOf (addSale e sale st)
  | DeleteSale saleId => stateOf (deleteSale saleId st)
  | AddSupplier e supplier => stateOf (addSupplier e supplier st)
  | UpdateSupplier updatedSupplier => stateOf (updateSupplier updatedSupplier st)
  | DeleteSupplier supplierId => stateOf (deleteSupplier supplierId st)
  | AddExpense e expense => stateOf (addExpense e expense st)
  | UpdateExpense updatedExpense => stateOf (updateExpense updatedExpense st)
  | DeleteExpense expenseId => stateOf (deleteExpense expenseId st)
  | AddCustomer e customer => stateOf (addCustomer e customer st)
  | UpdateCustomer updatedCustomer => stateOf (updateCustomer updatedCustomer st)
  | DeleteCustomer customerId => stateOf (deleteCustomer customerId st)
  | AddCustomerPayment e payment => stateOf (addCustomerPayment e payment st)
  | SaveCompanyInfo companyData => stateOf (saveCompanyInfo companyData st)
  | AddCategory name => stateOf (addCategory name st)
  | UpdateCategory oldName newName => stateOf (updateCategory oldName newName st)
  | DeleteCategory e name => stateOf (deleteCategory e name st)
  end.

Definition performAll (calls : list Call) (st : State) : State :=
  fold_left perform calls st.

(** ** Notions used by the further properties *)

(** Quantity of a product in the sales on record. *)
Fixpoint soldIn (productId : string) (ss : list Sale.t) : Z :=
  match ss with
  | [] => 0
  | s :: rest => quantityOf productId (Sale.items s) + soldIn productId rest
  end.

(** Stock of a product together with its quantity in the sales on record. *)
Definition stockAndSold (productId : string) (st : State) : option Z :=
  option_map (fun s => s + soldIn productId (sales st))
             (stockOf productId (products st)).

(** A run in which no product is added, edited or deleted, every sale gets
    an id that no sale on record has, and the items of every sale added or
    deleted are within the range for the products at that point. *)
Fixpoint salesRun (st : State) (calls : list Call) : Prop :=
  match calls with
  | [] => True
  | c :: rest =>
      match c with
      | AddProduct _ _ | UpdateProduct _ _ | DeleteProduct _ => False
      | AddSale e sale =>
          ~ In (generateId e 0) (map Sale.id (sales st))
          /\ withinRange (Sale.items sale) (products st)
      | DeleteSale saleId =>
          forall s, find (fun x => Sale.id x === saleId) (sales st) = Some s ->
                    withinRange (Sale.items s) (products st)
      | _ => True
      end
      /\ salesRun (perform st c) rest
  end.

Module Sample2.
Definition otherEnv : Env :=
  mkEnv (fun k => match k with O => "k2x7y8z" | _ => "k2u9v0w" end) "2024-05-18" true.

Definition secondSale : Sale.t :=
  Sale.Build "" [SaleItem.Build "B" 1 2; SaleItem.Build "A" 20 10] "online" None "2024-05-18".
End Sample2.



(** A run in which every added product gets an id that no product has. *)
Fixpoint freshProductIds (st : State) (calls : list Call) : Prop :=
  match calls with
  | [] => True
  | c :: rest =>
      match c with
      | AddProduct e _ => ~ In (generateId e 0) (map Product.id (products st))
      | _ => True
      end
      /\ freshProductIds (perform st c) rest
  end.


Module Sample3.
End Sample3.

(** Every product is filed under a category of the list. *)
Definition categoriesOnRecord (st : State) : Prop :=
  Forall (fun c => In c (categories st)) (map Product.category (products st)).

(** A run in which every product added or saved is filed under a category of
    the list, as the product form offers them. *)
Fixpoint knownCategories (st : State) (calls : list Call) : Prop :=
  match calls with
  | [] => True
  | c :: rest =>
      match c with
      | AddProduct _ p => In (Product.category p) (categories st)
      | UpdateProduct _ p => In (Product.category p) (categories st)
      | _ => True
      end
      /\ knownCategories (perform st c) rest
  end.

Module Sample4.
Definition acme : object := [("name", VStr "Acme"); ("phone", VStr "555-0100")].
Definition acmeStored : object :=
  [("name", VStr "Acme"); ("phone", VStr "555-0100"); ("id", VStr "s1")].
Definition acmeEdited : object :=
  [("name", VStr "Acme Ltd"); ("phone", VStr "555-0100"); ("id", VStr "s1")].
Definition bolt : object := [("id", VStr "s2"); ("name", VStr "Bolt")].

Definition suppliersOnly : State :=
  mkState [] [] [acmeStored; bolt] [] [] [] [] [] [] [].
End Sample4.

(** The payments recorded by the calls of a run, in order. *)
Definition paymentsOf (calls : list Call) : list object :=
  flat_map (fun c => match c with
                     | AddCustomerPayment e payment =>
                         [Obj.withId (generateId e 0) payment]
                     | _ => []
                     end)
           calls.

(** The flattened table of default categories, as the effect computes it. *)
Definition allDefaultCategories (c : Constants) : list string :=
  flat_map (DEFAULT_CATEGORIES c) (businessTypes c).

Module Sample5.
(** A table with the four business types of the settings form. *)
Definition constants : Constants :=
  mkConstants ["clothing"; "pharmacy"; "convenience"; "hardware"]
    (fun b =>
       if b === "clothing" then ["Shirts"; "Pants"]
       else if b === "pharmacy" then ["Medicine"; "Care"]
       else if b === "convenience" then ["Snacks"; "Drinks"]
       else if b === "hardware" then ["Tools"]
       else []).

Definition customized : State :=
  mkState [] [] [] [] [] [] [] [] [] ["Shirts"; "Scarves"].

Definition trimmedDefaults : State :=
  mkState [] [] [] [] [] [] [] [] [] ["Pants"].
End Sample5.

Definition isDownload (ev : Event) : bool :=
  match ev with Downloaded _ _ => true | _ => false end.

(** The name [exportBackup] gives the backup file. *)
Definition backupFileName (e : Env) : string :=
  JS.template ["swift-pos-backup-"; today e; ".json"].

Module Sample6.
Definition granted : Dir.t := Dir.Build (Some "granted") None true true true true.
Definition closeFails : Dir.t := Dir.Build (Some "prompt") (Some "granted") true true true false.
End Sample6.

Module Sample7.
Definition withSettings : State :=
  mkState [] [] [] [] [] [] [] [("name", VStr "Swift POS")] defaultSettings ["Shirts"].
End Sample7.

(** Every cell holds a value of the kind its type announces: an array for the
    collections, an object for the company info and the settings. *)
Definition shaped (st : Store) : Prop :=
  forall k, expectedShape k (st k) = true.

(** * Properties *)

(** ** Basic facts about the built-ins *)

Lemma strictEq_spec (a b : string) : reflect (a = b) (a === b).
Proof. apply String.eqb_spec. Qed.

Lemma strictEq_refl (a : string) : (a === a) = true.
Proof. apply String.eqb_refl. Qed.

Lemma truthyStr_set (o : option string) :
  JS.truthyStr o = true <-> exists s, o = Some s /\ s <> "".
Proof.
  destruct o as [s|]; simpl.
  - destruct (strictEq_spec s ""); simpl; split.
    + discriminate.
    + intros (s' & E & N). inversion E; subst. contradiction.
    + intros _. now exists s.
    + reflexivity.
  - split; [discriminate | intros (s & E & _); discriminate].
Qed.

Lemma filter_all {A : Type} (f : A -> bool) (l : list A) :
  (forall x, In x l -> f x = true) -> filter f l = l.
Proof.
  induction l as [|a l IH]; intros H; simpl; [reflexivity|].
  rewrite (H a (or_introl eq_refl)). f_equal. apply IH. intros x Hx. apply H. now right.
Qed.

Lemma filter_none {A : Type} (f : A -> bool) (l : list A) :
  forallb (fun x => negb (f x)) l = true -> filter f l = [].
Proof.
  induction l as [|a l IH]; simpl; [reflexivity|].
  intros H. apply andb_true_iff in H. destruct H as [H1 H2].
  destruct (f a); [discriminate | now apply IH].
Qed.

(** ** Products and the purchases they imply *)

(** The test of [addProduct] and [updateProduct], spelled out. *)
Lemma restock_test (o : option string) (qty cost : Z) :
  JS.truthyStr o && (0 <? qty) && (0 <? cost) = true
  <-> exists s, o = Some s /\ s <> "" /\ 0 < qty /\ 0 < cost.
Proof.
  rewrite !andb_true_iff, truthyStr_set, !Z.ltb_lt. split.
  - intros [[(s & E & N) Hq] Hc]. now exists s.
  - intros (s & E & N & Hq & Hc). repeat split; trivial. now exists s.
Qed.





(** The Purchase that [addProduct] writes for stock that comes from a
    supplier. *)
Lemma addProduct_purchase_written (e : Env) (product : Product.t) (st : State)
      (supplier : string) :
  Product.supplierId product = Some supplier -> supplier <> "" ->
  0 < Product.stock product -> 0 < Product.buyingPrice product ->
  purchases (stateOf (addProduct e product st)) =
    purchases st ++
    [purchaseFor (generateId e 1) (today e) supplier (generateId e 0)
                 (Product.stock product) (Product.buyingPrice product)].
Proof.
  intros E N Hq Hc. unfold addProduct, bind, stateOf.
  cbn [fst snd Product.withId Product.supplierId Product.stock Product.buyingPrice
       Product.id].
  assert (T : JS.truthyStr (Product.supplierId product) && (0 <? Product.stock product)
              && (0 <? Product.buyingPrice product) = true)
    by (apply restock_test; now exists supplier).
  rewrite T, E. reflexivity.
Qed.


Lemma deleteProduct_fresh (i : string) (p : Product.t) (ps : list Product.t) :
  ~ In i (map Product.id ps) ->
  filter (fun q => Product.id q !== i) (ps ++ [Product.withId i p]) = ps.
Proof.
  intros Fresh. rewrite filter_app. cbn [filter Product.withId Product.id].
  rewrite strictEq_refl. cbn. rewrite app_nil_r.
  apply filter_all. intros q Hq.
  destruct (strictEq_spec (Product.id q) i) as [E|]; [|reflexivity].
  exfalso. apply Fresh. rewrite <- E. now apply in_map.
Qed.

(** C9: [addProduct] followed by [deleteProduct] on the generated id gives
    back the product list as it was; a Purchase written by [addProduct] stays;
    no other cell changes.  The generated id is new among the products. *)
Theorem addProduct_deleteProduct (e : Env) (product : Product.t) (st : State) :
  ~ In (generateId e 0) (map Product.id (products st)) ->
  let st1 := stateOf (addProduct e product st) in
  let st2 := stateOf (deleteProduct (generateId e 0) st1) in
  products st2 = products st
  /\ purchases st2 = purchases st1
  /\ (forall supplier,
        Product.supplierId product = Some supplier -> supplier <> "" ->
        0 < Product.stock product -> 0 < Product.buyingPrice product ->
        purchases st2 =
          purchases st ++
          [purchaseFor (generateId e 1) (today e) supplier (generateId e 0)
                       (Product.stock product) (Product.buyingPrice product)])
  /\ st2 = stateOf (setPurchases (fun _ => purchases st1) st)
  /\ toastsOf (deleteProduct (generateId e 0) st1) = [].
Proof.
  intros Fresh st1 st2.
  assert (P2 : purchases st2 = purchases st1) by reflexivity.
  assert (St : st2 = stateOf (setPurchases (fun _ => purchases st1) st)).
  { subst st2 st1.
    unfold deleteProduct, addProduct, bind, setProducts, setPurchases, ret, stateOf.
    destruct (JS.truthyStr _ && _ && _); cbn; rewrite (deleteProduct_fresh _ _ _ Fresh);
      destruct st; reflexivity. }
  repeat split; trivial.
  - rewrite St. reflexivity.
  - intros supplier E N Hq Hc. rewrite P2. subst st1.
    now apply addProduct_purchase_written.
Qed.

Lemma addProduct_deleteProduct_witness :
  ~ In "k1a2b3c" (map Product.id (products Sample.shop))
  /\ products (stateOf (deleteProduct "k1a2b3c"
                 (stateOf (addProduct Sample.env Sample.shirt Sample.shop))))
     = products Sample.shop.
Proof.
  split.
  - simpl. intros [H | [H | H]]; try discriminate; exact H.
  - apply (addProduct_deleteProduct Sample.env Sample.shirt Sample.shop).
    simpl. intros [H | [H | H]]; try discriminate; exact H.
Defined.

(** ** Sales and stock *)

Lemma withStock_same (p : Product.t) : Product.withStock (Product.stock p) p = p.
Proof. now destruct p. Qed.

(** The index found and updated by the handlers is the one [adjust] walks
    to. *)
Lemma update_found_adjust (productId : string) (f : Z -> Z) (ps : list Product.t) :
  match JS.findIndex (fun p => Product.id p === productId) ps with
  | Some i => JS.updateAt i (fun p => Product.withStock (f (Product.stock p)) p) ps
  | None => ps
  end = adjust productId f ps.
Proof.
  induction ps as [|p rest IH]; simpl; [reflexivity|].
  destruct (Product.id p === productId); [reflexivity|].
  destruct (JS.findIndex _ rest) as [i|]; simpl in *; f_equal; exact IH.
Qed.

Lemma takeFromStock_adjust (ps : list Product.t) (item : SaleItem.t) :
  takeFromStock ps item =
  adjust (SaleItem.productId item) (fun s => Double.minus s (SaleItem.quantity item)) ps.
Proof.
  unfold takeFromStock.
  apply (update_found_adjust _ (fun s => Double.minus s (SaleItem.quantity item))).
Qed.

Lemma putBackInStock_adjust (ps : list Product.t) (item : SaleItem.t) :
  putBackInStock ps item =
  adjust (SaleItem.productId item) (fun s => Double.plus s (SaleItem.quantity item)) ps.
Proof.
  unfold putBackInStock.
  apply (update_found_adjust _ (fun s => Double.plus s (SaleItem.quantity item))).
Qed.

Lemma bump_adjust (productId : string) (d : Z) (ps : list Product.t) :
  bump productId d ps = adjust productId (fun s => s + d) ps.
Proof.
  induction ps as [|p rest IH]; simpl; [reflexivity|].
  destruct (Product.id p === productId); [reflexivity | now rewrite IH].
Qed.

Lemma adjust_ids (productId : string) (f : Z -> Z) (ps : list Product.t) :
  map Product.id (adjust productId f ps) = map Product.id ps.
Proof.
  induction ps as [|p rest IH]; simpl; [reflexivity|].
  destruct (Product.id p === productId); simpl; [reflexivity | now rewrite IH].
Qed.

Lemma adjust_unknown (productId : string) (f : Z -> Z) (ps : list Product.t) :
  existsb (fun p => Product.id p === productId) ps = false ->
  adjust productId f ps = ps.
Proof.
  induction ps as [|p rest IH]; simpl; [reflexivity|].
  destruct (Product.id p === productId); simpl; [discriminate|].
  intros H. now rewrite IH.
Qed.

Lemma bump_ids (productId : string) (d : Z) (ps : list Product.t) :
  map Product.id (bump productId d ps) = map Product.id ps.
Proof. rewrite bump_adjust. apply adjust_ids. Qed.

Lemma bump_bump (productId : string) (a b : Z) (ps : list Product.t) :
  bump productId a (bump productId b ps) = bump productId (b + a) ps.
Proof.
  induction ps as [|p rest IH]; simpl; [reflexivity|].
  destruct (Product.id p === productId) eqn:E; simpl; rewrite E.
  - unfold Product.withStock; simpl. now rewrite Z.add_assoc.
  - now rewrite IH.
Qed.

Lemma bump_zero (productId : string) (ps : list Product.t) :
  bump productId 0 ps = ps.
Proof.
  induction ps as [|p rest IH]; simpl; [reflexivity|].
  destruct (Product.id p === productId).
  - now rewrite Z.add_0_r, withStock_same.
  - now rewrite IH.
Qed.

Lemma bump_comm (i j : string) (a b : Z) (ps : list Product.t) :
  bump i a (bump j b ps) = bump j b (bump i a ps).
Proof.
  induction ps as [|p rest IH]; simpl; [reflexivity|].
  destruct (Product.id p === j) eqn:Ej, (Product.id p === i) eqn:Ei;
    simpl; rewrite ?Ej, ?Ei; trivial.
  - unfold Product.withStock; simpl. f_equal. f_equal. lia.
  - now rewrite IH.
Qed.

Lemma stockOf_bump (productId i : string) (d : Z) (ps : list Product.t) :
  stockOf productId (bump i d ps) =
  if i === productId then option_map (fun s => s + d) (stockOf productId ps)
  else stockOf productId ps.
Proof.
  unfold stockOf. induction ps as [|p rest IH]; simpl.
  - now destruct (i === productId).
  - destruct (strictEq_spec (Product.id p) i) as [Ei|Ni]; simpl.
    + subst i. destruct (Product.id p === productId); reflexivity.
    + destruct (strictEq_spec (Product.id p) productId) as [Ep|Np].
      * subst productId. destruct (strictEq_spec i (Product.id p)); [congruence | reflexivity].
      * apply IH.
Qed.

Lemma knownIn_ids (ps qs : list Product.t) (item : SaleItem.t) :
  map Product.id ps = map Product.id qs -> knownIn ps item = knownIn qs item.
Proof.
  unfold knownIn. revert qs. induction ps as [|p rest IH]; intros [|q qs] E;
    simpl in *; try discriminate; [reflexivity|].
  inversion E as [[E1 E2]]. rewrite E1. f_equal. now apply IH.
Qed.

Lemma stockOf_ids (productId : string) (ps qs : list Product.t) :
  map Product.id ps = map Product.id qs ->
  stockOf productId ps = None -> stockOf productId qs = None.
Proof.
  unfold stockOf. revert qs. induction ps as [|p rest IH]; intros [|q qs] E;
    simpl in *; try discriminate; trivial.
  inversion E as [[E1 E2]]. rewrite E1.
  destruct (Product.id q === productId); simpl; [discriminate | now apply IH].
Qed.

(** *** Taking and putting back without rounding *)

Lemma sold_bump_comm (items : list SaleItem.t) (i : string) (d : Z) (ps : list Product.t) :
  fold_left takeExactly items (bump i d ps) =
  bump i d (fold_left takeExactly items ps).
Proof.
  revert ps. induction items as [|item rest IH]; intros ps; simpl; [reflexivity|].
  unfold takeExactly at 2 4. rewrite bump_comm. apply IH.
Qed.

Lemma putBack_take (items : list SaleItem.t) (ps : list Product.t) :
  fold_left putBackExactly items (fold_left takeExactly items ps) = ps.
Proof.
  revert ps. induction items as [|item rest IH]; intros ps; simpl; [reflexivity|].
  unfold takeExactly at 2. rewrite sold_bump_comm. unfold putBackExactly at 2.
  rewrite bump_bump, Z.add_opp_diag_l, bump_zero. apply IH.
Qed.

Lemma stockOf_sold (productId : string) (items : list SaleItem.t) (ps : list Product.t) :
  stockOf productId (fold_left takeExactly items ps) =
  option_map (fun s => s - quantityOf productId items) (stockOf productId ps).
Proof.
  revert ps. induction items as [|item rest IH]; intros ps; simpl.
  - destruct (stockOf productId ps); simpl; [now rewrite Z.sub_0_r | reflexivity].
  - rewrite IH. unfold takeExactly. rewrite stockOf_bump.
    destruct (SaleItem.productId item === productId);
      destruct (stockOf productId ps); simpl; trivial; f_equal; lia.
Qed.

Lemma stockOf_putBack (productId : string) (items : list SaleItem.t) (ps : list Product.t) :
  stockOf productId (fold_left putBackExactly items ps) =
  option_map (fun s => s + quantityOf productId items) (stockOf productId ps).
Proof.
  revert ps. induction items as [|item rest IH]; intros ps; simpl.
  - destruct (stockOf productId ps); simpl; [now rewrite Z.add_0_r | reflexivity].
  - rewrite IH. unfold putBackExactly. rewrite stockOf_bump.
    destruct (SaleItem.productId item === productId);
      destruct (stockOf productId ps); simpl; trivial; f_equal; lia.
Qed.

(** *** When nothing is rounded *)

Lemma round_in_range (z : Z) : Z.abs z <= 2 ^ 53 -> Double.round z = z.
Proof.
  intros H. unfold Double.round. apply Z.leb_le in H. now rewrite H.
Qed.

Lemma adjust_in_range (productId : string) (f g : Z -> Z) (ps : list Product.t) :
  (forall s, Z.abs (g s) <= 2 ^ 53 -> f s = g s) ->
  inRange (adjust productId g ps) ->
  adjust productId f ps = adjust productId g ps.
Proof.
  intros Agree. induction ps as [|p rest IH]; simpl; [reflexivity|].
  destruct (Product.id p === productId); intros R; inversion R as [|x xs Hx Hxs]; subst.
  - cbn in Hx. now rewrite (Agree _ Hx).
  - f_equal. now apply IH.
Qed.

Lemma take_in_range (ps : list Product.t) (item : SaleItem.t) :
  inRange (takeExactly ps item) -> takeFromStock ps item = takeExactly ps item.
Proof.
  intros R. unfold takeExactly in *. rewrite takeFromStock_adjust, bump_adjust in *.
  apply adjust_in_range; [|exact R].
  intros s H. unfold Double.minus. now apply round_in_range.
Qed.

Lemma putBack_in_range (ps : list Product.t) (item : SaleItem.t) :
  inRange (putBackExactly ps item) -> putBackInStock ps item = putBackExactly ps item.
Proof.
  intros R. unfold putBackExactly in *. rewrite putBackInStock_adjust, bump_adjust in *.
  apply adjust_in_range; [|exact R].
  intros s H. unfold Double.plus. now apply round_in_range.
Qed.

Lemma totalQuantity_nonneg (items : list SaleItem.t) : 0 <= totalQuantity items.
Proof. induction items as [|i items IH]; simpl; lia. Qed.

Lemma withinRange_inRange (items : list SaleItem.t) (ps : list Product.t) :
  withinRange items ps -> inRange ps.
Proof.
  apply Forall_impl. intros p H. pose proof (totalQuantity_nonneg items). lia.
Qed.

Lemma withinRange_less (items fewer : list SaleItem.t) (ps : list Product.t) :
  totalQuantity fewer <= totalQuantity items ->
  withinRange items ps -> withinRange fewer ps.
Proof. intros L. apply Forall_impl. intros p H. lia. Qed.

Lemma bump_withinRange (productId : string) (d : Z) (item : SaleItem.t)
      (items : list SaleItem.t) (ps : list Product.t) :
  Z.abs d = Z.abs (SaleItem.quantity item) ->
  withinRange (item :: items) ps -> withinRange items (bump productId d ps).
Proof.
  intros D. unfold withinRange. induction ps as [|p rest IH]; intros W; simpl;
    [constructor|].
  inversion W as [|x xs Hx Hxs]; subst. simpl in Hx.
  destruct (Product.id p === productId).
  - constructor.
    + cbn. lia.
    + eapply Forall_impl; [|exact Hxs]. intros q Hq. simpl in Hq. lia.
  - constructor; [lia | now apply IH].
Qed.

Lemma takeExactly_withinRange (item : SaleItem.t) (items : list SaleItem.t)
      (ps : list Product.t) :
  withinRange (item :: items) ps -> withinRange items (takeExactly ps item).
Proof. apply bump_withinRange. apply Z.abs_opp. Qed.

Lemma putBackExactly_withinRange (item : SaleItem.t) (items : list SaleItem.t)
      (ps : list Product.t) :
  withinRange (item :: items) ps -> withinRange items (putBackExactly ps item).
Proof. now apply bump_withinRange. Qed.

Lemma sold_exactly (items : list SaleItem.t) (ps : list Product.t) :
  withinRange items ps ->
  fold_left takeFromStock items ps = fold_left takeExactly items ps.
Proof.
  revert ps. induction items as [|item rest IH]; intros ps W; simpl; [reflexivity|].
  pose proof (takeExactly_withinRange item rest ps W) as W'.
  rewrite take_in_range by (now apply (withinRange_inRange rest)).
  now apply IH.
Qed.

Lemma putBack_exactly (items : list SaleItem.t) (ps : list Product.t) :
  withinRange items ps ->
  fold_left putBackInStock items ps = fold_left putBackExactly items ps.
Proof.
  revert ps. induction items as [|item rest IH]; intros ps W; simpl; [reflexivity|].
  pose proof (putBackExactly_withinRange item rest ps W) as W'.
  rewrite putBack_in_range by (now apply (withinRange_inRange rest)).
  now apply IH.
Qed.

Lemma sold_inRange (items : list SaleItem.t) (ps : list Product.t) :
  withinRange items ps -> inRange (fold_left takeExactly items ps).
Proof.
  revert ps. induction items as [|item rest IH]; intros ps W; simpl.
  - now apply (withinRange_inRange []).
  - apply IH. now apply takeExactly_withinRange.
Qed.

(** Within the range, putting back the items of a sale undoes taking them,
    whatever the products and the items are. *)
Lemma putBack_sold (items : list SaleItem.t) (ps : list Product.t) :
  withinRange items ps ->
  fold_left putBackInStock items (fold_left takeExactly items ps) = ps.
Proof.
  revert ps. induction items as [|item rest IH]; intros ps W; simpl; [reflexivity|].
  assert (Wr : withinRange rest ps).
  { apply (withinRange_less (item :: rest)); [|exact W].
    simpl. pose proof (Z.abs_nonneg (SaleItem.quantity item)). lia. }
  unfold takeExactly at 2. rewrite sold_bump_comm.
  rewrite putBack_in_range.
  - unfold putBackExactly. rewrite bump_bump, Z.add_opp_diag_l, bump_zero. now apply IH.
  - unfold putBackExactly. rewrite bump_bump, Z.add_opp_diag_l, bump_zero.
    now apply sold_inRange.
Qed.

(** *** Items on unknown products *)

(** Items that refer to no product leave the products alone. *)
Lemma sold_known_only (items : list SaleItem.t) (ps qs : list Product.t) :
  map Product.id ps = map Product.id qs ->
  fold_left takeFromStock items ps =
  fold_left takeFromStock (filter (knownIn qs) items) ps.
Proof.
  revert ps. induction items as [|item rest IH]; intros ps E; simpl; [reflexivity|].
  destruct (knownIn qs item) eqn:K; simpl.
  - apply IH. now rewrite takeFromStock_adjust, adjust_ids.
  - rewrite takeFromStock_adjust, adjust_unknown; [now apply IH|].
    rewrite <- K. symmetry. now apply knownIn_ids.
Qed.

Lemma putBack_known_only (items : list SaleItem.t) (ps qs : list Product.t) :
  map Product.id ps = map Product.id qs ->
  fold_left putBackInStock items ps =
  fold_left putBackInStock (filter (knownIn qs) items) ps.
Proof.
  revert ps. induction items as [|item rest IH]; intros ps E; simpl; [reflexivity|].
  destruct (knownIn qs item) eqn:K; simpl.
  - apply IH. now rewrite putBackInStock_adjust, adjust_ids.
  - rewrite putBackInStock_adjust, adjust_unknown; [now apply IH|].
    rewrite <- K. symmetry. now apply knownIn_ids.
Qed.

Lemma sold_ids (items : list SaleItem.t) (ps : list Product.t) :
  map Product.id (fold_left takeFromStock items ps) = map Product.id ps.
Proof.
  revert ps. induction items as [|i items IH]; intros ps; simpl; [reflexivity|].
  now rewrite IH, takeFromStock_adjust, adjust_ids.
Qed.

Lemma putBack_ids (items : list SaleItem.t) (ps : list Product.t) :
  map Product.id (fold_left putBackInStock items ps) = map Product.id ps.
Proof.
  revert ps. induction items as [|i items IH]; intros ps; simpl; [reflexivity|].
  now rewrite IH, putBackInStock_adjust, adjust_ids.
Qed.

Lemma totalQuantity_filter (f : SaleItem.t -> bool) (items : list SaleItem.t) :
  totalQuantity (filter f items) <= totalQuantity items.
Proof.
  induction items as [|i items IH]; simpl; [lia|].
  pose proof (Z.abs_nonneg (SaleItem.quantity i)). destruct (f i); simpl; lia.
Qed.

(** *** The two handlers *)

Lemma newSaleOf_items (e : Env) (sale : Sale.t) :
  Sale.items (newSaleOf e sale) = Sale.items sale.
Proof. unfold newSaleOf. now destruct (_ && _). Qed.

Lemma newSaleOf_id (e : Env) (sale : Sale.t) :
  Sale.id (newSaleOf e sale) = generateId e 0.
Proof. unfold newSaleOf. now destruct (_ && _). Qed.

Lemma find_absent (saleId : string) (ss : list Sale.t) :
  ~ In saleId (map Sale.id ss) ->
  find (fun s => Sale.id s === saleId) ss = None.
Proof.
  induction ss as [|s rest IH]; simpl; [reflexivity|]. intros H.
  destruct (strictEq_spec (Sale.id s) saleId) as [E|N].
  - exfalso. apply H. now left.
  - apply IH. intros I. apply H. now right.
Qed.

Lemma find_appended (s : Sale.t) (ss : list Sale.t) :
  ~ In (Sale.id s) (map Sale.id ss) ->
  find (fun x => Sale.id x === Sale.id s) (ss ++ [s]) = Some s.
Proof.
  induction ss as [|x rest IH]; simpl; intros H.
  - now rewrite strictEq_refl.
  - destruct (strictEq_spec (Sale.id x) (Sale.id s)) as [E|N].
    + exfalso. apply H. now left.
    + apply IH. intros I. apply H. now right.
Qed.

Lemma filter_appended (s : Sale.t) (ss : list Sale.t) :
  ~ In (Sale.id s) (map Sale.id ss) ->
  filter (fun x => Sale.id x !== Sale.id s) (ss ++ [s]) = ss.
Proof.
  intros Fresh. rewrite filter_app. cbn [filter]. rewrite strictEq_refl. cbn.
  rewrite app_nil_r. apply filter_all. intros x Hx.
  destruct (strictEq_spec (Sale.id x) (Sale.id s)) as [E|]; [|reflexivity].
  exfalso. apply Fresh. rewrite <- E. now apply in_map.
Qed.

Lemma addSale_products (e : Env) (sale : Sale.t) (st : State) :
  products (stateOf (addSale e sale st)) =
  fold_left takeFromStock (Sale.items sale) (products st).
Proof.
  unfold addSale, render, bind, setProducts, setSales, stateOf.
  cbn [fst snd products]. now rewrite newSaleOf_items.
Qed.

Lemma addSale_sales (e : Env) (sale : Sale.t) (st : State) :
  sales (stateOf (addSale e sale st)) = sales st ++ [newSaleOf e sale].
Proof. reflexivity. Qed.

Lemma addSale_found (e : Env) (sale : Sale.t) (st : State) :
  ~ In (generateId e 0) (map Sale.id (sales st)) ->
  find (fun x => Sale.id x === generateId e 0) (sales (stateOf (addSale e sale st)))
  = Some (newSaleOf e sale).
Proof.
  intros Fresh. rewrite addSale_sales. rewrite <- (newSaleOf_id e sale) in *.
  now apply find_appended.
Qed.

Lemma deleteSale_found (saleId : string) (s : Sale.t) (st : State) :
  find (fun x => Sale.id x === saleId) (sales st) = Some s ->
  products (stateOf (deleteSale saleId st)) =
    fold_left putBackInStock (Sale.items s) (products st)
  /\ sales (stateOf (deleteSale saleId st)) =
       filter (fun x => Sale.id x !== saleId) (sales st).
Proof.
  intros F. unfold deleteSale, render. rewrite F. split; reflexivity.
Qed.

Lemma deleteSale_absent (saleId : string) (st : State) :
  ~ In saleId (map Sale.id (sales st)) -> deleteSale saleId st = (tt, st, []).
Proof.
  intros A. unfold deleteSale, render. now rewrite (find_absent _ _ A).
Qed.

Lemma filter_removes_id (saleId : string) (ss : list Sale.t) :
  ~ In saleId (map Sale.id (filter (fun x => Sale.id x !== saleId) ss)).
Proof.
  rewrite in_map_iff. intros (x & E & I). apply filter_In in I.
  destruct I as [_ I]. subst saleId. now rewrite strictEq_refl in I.
Qed.

Lemma filter_known_same (items : list SaleItem.t) (ps qs : list Product.t) :
  map Product.id ps = map Product.id qs ->
  filter (knownIn ps) items = filter (knownIn qs) items.
Proof.
  intros E. apply filter_ext. intros item. now apply knownIn_ids.
Qed.

(** Deleting the sale just added, under a new id, gives the state back when
    the stocks and the quantities of the items on known products are within
    the range. *)
Lemma deleteSale_addSale (e : Env) (sale : Sale.t) (st : State) :
  ~ In (generateId e 0) (map Sale.id (sales st)) ->
  withinRange (filter (knownIn (products st)) (Sale.items sale)) (products st) ->
  stateOf (deleteSale (generateId e 0) (stateOf (addSale e sale st))) = st.
Proof.
  intros Fresh W.
  destruct (deleteSale_found _ _ _ (addSale_found e sale st Fresh)) as [P S].
  assert (P' : products (stateOf (deleteSale (generateId e 0)
                                    (stateOf (addSale e sale st)))) = products st).
  { etransitivity; [exact P|]. rewrite newSaleOf_items, addSale_products.
    rewrite (sold_known_only (Sale.items sale) (products st) (products st) eq_refl).
    rewrite (putBack_known_only (Sale.items sale) _ (products st))
      by (now rewrite sold_ids).
    rewrite (sold_exactly _ _ W). now apply putBack_sold. }
  assert (S' : sales (stateOf (deleteSale (generateId e 0)
                                 (stateOf (addSale e sale st)))) = sales st).
  { etransitivity; [exact S|]. rewrite addSale_sales.
    rewrite <- (newSaleOf_id e sale) in *. now apply filter_appended. }
  revert P' S'. unfold deleteSale, render.
  rewrite (addSale_found e sale st Fresh).
  unfold addSale, render, bind, setProducts, setSales, stateOf.
  cbn [fst snd products sales suppliers expenses customers purchases customerPayments
       companyInfo systemSettings categories].
  intros -> ->. now destruct st.
Qed.

(** [round] against the library's binary64 subtraction and addition, at the
    stocks and quantities of the samples and at ties. *)
Lemma round_agrees_with_binary64 :
  Double.ieeeMinus 9007199254740994 1 = Some (Double.minus 9007199254740994 1)
  /\ Double.ieeePlus 9007199254740992 1 = Some (Double.plus 9007199254740992 1)
  /\ Double.ieeePlus 9007199254740994 1 = Some (Double.plus 9007199254740994 1)
  /\ Double.ieeeMinus 10 3 = Some (Double.minus 10 3)
  /\ Double.ieeeMinus 5 20 = Some (Double.minus 5 20)
  /\ Double.ieeeMinus (- 2 ^ 60) 129 = Some (Double.minus (- 2 ^ 60) 129)
  /\ Double.ieeeMinus (- 2 ^ 60) 128 = Some (Double.minus (- 2 ^ 60) 128)
  /\ Double.ieeePlus (2 ^ 60) 384 = Some (Double.plus (2 ^ 60) 384)
  /\ Double.ieeePlus (2 ^ 100) (2 ^ 47 + 1) = Some (Double.plus (2 ^ 100) (2 ^ 47 + 1))
  /\ Double.ieeeMinus (2 ^ 54) 1 = Some (Double.minus (2 ^ 54) 1).
Proof. repeat split; vm_compute; reflexivity. Qed.

(** The same over a grid: stocks that are doubles, around 0 and around powers
    of two on both sides of 2^53, of either sign, against quantities from -9
    to 9 and from 2^53 - 9 to 2^53 + 9. *)
Lemma round_agrees_on_a_grid :
  let stocks :=
    map Double.round
        (flat_map (fun c => Double.around c 9 ++ Double.around (- c) 9)
                  [0; 2 ^ 52; 2 ^ 53; 2 ^ 54; 2 ^ 55; 3 * 2 ^ 53; 2 ^ 60]) in
  let quantities := Double.around 0 9 ++ map Double.round (Double.around (2 ^ 53) 9) in
  forallb (fun a => forallb (Double.agrees a) quantities) stocks = true.
Proof. vm_compute. reflexivity. Qed.

(** Why the embedding keeps to integers: with a fractional part the two
    operations do not undo each other even on small numbers.  In binary64,
    5 - 0.4 - 0.6 + 0.4 + 0.6 is below 5. *)
Lemma fractions_do_not_cancel :
  let minus := SFsub 53 1024 in
  let plus := SFadd 53 1024 in
  SFcompare
    (plus (plus (minus (minus (Double.ofZ 5) Double.fourTenths) Double.sixTenths)
                Double.fourTenths)
          Double.sixTenths)
    (Double.ofZ 5)
  = Some Lt.
Proof. vm_compute. reflexivity. Qed.

(** C1, as amended: when stocks and quantities are integers such that, for
    every product, the magnitude of the stock plus the magnitudes of the
    quantities of the line items is at most 2^53 (so that binary64 rounds
    nothing), [addSale] takes each line item's quantity from the stock of the
    matching product, [deleteSale] puts it back and removes the Sale, and
    deleting the sale just added, under the id it was given, restores the
    stock of every product exactly; [deleteSale] on an id that is absent does
    nothing.  The id given by [generateId] is new among the sales. *)
Theorem addSale_deleteSale_restores_stock (e : Env) (sale : Sale.t) (st : State) :
  ~ In (generateId e 0) (map Sale.id (sales st)) ->
  withinRange (Sale.items sale) (products st) ->
  let st1 := stateOf (addSale e sale st) in
  let st2 := stateOf (deleteSale (generateId e 0) st1) in
  (forall productId,
      stockOf productId (products st1) =
      option_map (fun s => s - quantityOf productId (Sale.items sale))
                 (stockOf productId (products st)))
  /\ (forall productId,
        stockOf productId (products st2) =
        option_map (fun s => s + quantityOf productId (Sale.items sale))
                   (stockOf productId (products st1)))
  /\ (forall productId, stockOf productId (products st2) = stockOf productId (products st))
  /\ products st2 = products st
  /\ ~ In (generateId e 0) (map Sale.id (sales st2))
  /\ st2 = st
  /\ (forall saleId st',
        ~ In saleId (map Sale.id (sales st')) -> deleteSale saleId st' = (tt, st', [])).
Proof.
  intros Fresh W st1 st2.
  assert (Back : st2 = st).
  { apply deleteSale_addSale; [exact Fresh|].
    apply (withinRange_less (Sale.items sale)); [apply totalQuantity_filter | exact W]. }
  assert (Sold : forall productId,
             stockOf productId (products st1) =
             option_map (fun s => s - quantityOf productId (Sale.items sale))
                        (stockOf productId (products st))).
  { intros productId. subst st1.
    now rewrite addSale_products, (sold_exactly _ _ W), stockOf_sold. }
  repeat split.
  - exact Sold.
  - intros productId. rewrite Back, Sold.
    destruct (stockOf productId (products st)); simpl; [f_equal; lia | reflexivity].
  - now rewrite Back.
  - now rewrite Back.
  - rewrite Back. exact Fresh.
  - exact Back.
  - intros saleId st'. apply deleteSale_absent.
Qed.

(** The scenario of the specification: A has 10 in stock and B has 5; a sale
    of 3 of A and 2 of B leaves 7 and 3, and deleting it gives 10 and 5
    back. *)
Lemma addSale_deleteSale_restores_stock_witness :
  ~ In "k1a2b3c" (map Sale.id (sales Sample.shop))
  /\ withinRange (Sale.items Sample.sale) (products Sample.shop)
  /\ map Product.stock (products (stateOf (addSale Sample.env Sample.sale Sample.shop)))
     = [7; 3]
  /\ products (stateOf (deleteSale "k1a2b3c"
                 (stateOf (addSale Sample.env Sample.sale Sample.shop))))
     = products Sample.shop.
Proof.
  assert (F : ~ In "k1a2b3c" (map Sale.id (sales Sample.shop)))
    by (simpl; intros H; exact H).
  assert (W : withinRange (Sale.items Sample.sale) (products Sample.shop))
    by (repeat constructor; vm_compute; discriminate).
  split; [exact F | split; [exact W | split; [reflexivity|]]].
  exact (proj1 (proj2 (proj2 (proj2
           (addSale_deleteSale_restores_stock Sample.env Sample.sale Sample.shop F W))))).
Defined.

(** C1, as stated, fails: a stock of 2^53 + 2 sold by one unit is stored as
    2^53, the nearest double to 2^53 + 1, and deleting the sale leaves it at
    2^53. *)
Lemma addSale_deleteSale_loses_a_unit :
  ~ In "k1a2b3c" (map Sale.id (sales SampleLarge.warehouse))
  /\ stockOf "A" (products SampleLarge.warehouse) = Some 9007199254740994
  /\ stockOf "A" (products (stateOf (addSale Sample.env SampleLarge.oneUnit
                                       SampleLarge.warehouse)))
     = Some 9007199254740992
  /\ stockOf "A" (products (stateOf (deleteSale "k1a2b3c"
                     (stateOf (addSale Sample.env SampleLarge.oneUnit
                                 SampleLarge.warehouse)))))
     = Some 9007199254740992
  /\ products (stateOf (deleteSale "k1a2b3c"
                 (stateOf (addSale Sample.env SampleLarge.oneUnit SampleLarge.warehouse))))
     <> products SampleLarge.warehouse.
Proof.
  split; [simpl; intros H; exact H|].
  split; [reflexivity | split; [vm_compute; reflexivity | split; [vm_compute; reflexivity|]]].
  vm_compute. discriminate.
Qed.

(** C10, as amended: a line item whose productId matches no product is
    skipped by [addSale]: nothing is signalled, the products are those
    obtained from the matching items alone, and the Sale is stored with all
    its items; [deleteSale] skips such items in the same way, so deleting the
    sale just added restores the state even with dangling references, when
    the stocks and the quantities of the matching items are integers such
    that, for every product, the magnitude of the stock plus the magnitudes of
    those quantities is at most 2^53. *)
Theorem addSale_skips_unknown_products (e : Env) (sale : Sale.t) (st : State) :
  ~ In (generateId e 0) (map Sale.id (sales st)) ->
  let out := addSale e sale st in
  let st1 := stateOf out in
  toastsOf out = []
  /\ products st1 =
       fold_left takeFromStock (filter (knownIn (products st)) (Sale.items sale))
                 (products st)
  /\ (forall item, In item (Sale.items sale) -> knownIn (products st) item = false ->
        stockOf (SaleItem.productId item) (products st1) = None)
  /\ (forallb (fun item => negb (knownIn (products st) item)) (Sale.items sale) = true ->
      products st1 = products st)
  /\ sales st1 = sales st ++ [newSaleOf e sale]
  /\ Sale.items (newSaleOf e sale) = Sale.items sale
  /\ products (stateOf (deleteSale (generateId e 0) st1)) =
       fold_left putBackInStock (filter (knownIn (products st1)) (Sale.items sale))
                 (products st1)
  /\ toastsOf (deleteSale (generateId e 0) st1) = []
  /\ (withinRange (filter (knownIn (products st)) (Sale.items sale)) (products st) ->
      stateOf (deleteSale (generateId e 0) st1) = st).
Proof.
  intros Fresh out st1. subst st1 out.
  pose proof (addSale_products e sale st) as Pr.
  assert (Known : products (stateOf (addSale e sale st)) =
            fold_left takeFromStock (filter (knownIn (products st)) (Sale.items sale))
                      (products st))
    by (rewrite Pr; now apply sold_known_only).
  pose proof (addSale_found e sale st Fresh) as Found.
  split; [reflexivity|].
  split; [exact Known|].
  split.
  { intros item _ K. apply (stockOf_ids _ (products st)).
    - now rewrite Pr, sold_ids.
    - unfold stockOf. unfold knownIn in K.
      destruct (find _ (products st)) as [p|] eqn:F; [|reflexivity].
      apply find_some in F. destruct F as [I M].
      assert (X : existsb (fun p => Product.id p === SaleItem.productId item) (products st)
                  = true) by (apply existsb_exists; now exists p).
      rewrite K in X. discriminate. }
  split.
  { intros All. rewrite Known. now rewrite (filter_none _ _ All). }
  split; [reflexivity|].
  split; [apply newSaleOf_items|].
  split.
  { etransitivity; [exact (proj1 (deleteSale_found _ _ _ Found))|].
    rewrite newSaleOf_items. now apply putBack_known_only. }
  split.
  { unfold deleteSale, render. now rewrite Found. }
  intros W. now apply deleteSale_addSale.
Qed.

(** The sample sale has an item on a product that was deleted. *)
Lemma addSale_skips_unknown_products_witness :
  ~ In "k1a2b3c" (map Sale.id (sales Sample.shop))
  /\ knownIn (products Sample.shop) (SaleItem.Build "gone" 4 7) = false
  /\ withinRange (filter (knownIn (products Sample.shop)) (Sale.items Sample.sale))
                 (products Sample.shop)
  /\ Sale.items (newSaleOf Sample.env Sample.sale) = Sale.items Sample.sale
  /\ stateOf (deleteSale "k1a2b3c" (stateOf (addSale Sample.env Sample.sale Sample.shop)))
     = Sample.shop.
Proof.
  assert (F : ~ In "k1a2b3c" (map Sale.id (sales Sample.shop)))
    by (simpl; intros H; exact H).
  assert (W : withinRange (filter (knownIn (products Sample.shop)) (Sale.items Sample.sale))
                          (products Sample.shop))
    by (repeat constructor; vm_compute; discriminate).
  split; [exact F | split; [reflexivity | split; [exact W | split; [reflexivity|]]]].
  exact (proj2 (proj2 (proj2 (proj2 (proj2 (proj2 (proj2 (proj2
           (addSale_skips_unknown_products Sample.env Sample.sale Sample.shop F))))))))
           W).
Defined.

(** C10, as stated, fails in its last part: with a line item on a product
    that is gone and one unit of a stock of 2^53 + 2, the item on the missing
    product is skipped both ways, and deleting the sale leaves the stock at
    2^53. *)
Lemma dangling_sale_loses_a_unit :
  ~ In "k1a2b3c" (map Sale.id (sales SampleLarge.warehouse))
  /\ knownIn (products SampleLarge.warehouse) (SaleItem.Build "gone" 4 7) = false
  /\ stateOf (deleteSale "k1a2b3c"
                (stateOf (addSale Sample.env SampleLarge.oneUnitAndGone
                            SampleLarge.warehouse)))
     <> SampleLarge.warehouse.
Proof.
  split; [simpl; intros H; exact H | split; [reflexivity|]].
  intros E. apply (f_equal (fun st => stockOf "A" (products st))) in E.
  vm_compute in E. discriminate E.
Qed.

(** ** Categories *)

Lemma includes_In (arr : list string) (x : string) :
  JS.includes arr x = true <-> In x arr.
Proof.
  unfold JS.includes. rewrite existsb_exists. split.
  - intros (y & I & E). destruct (strictEq_spec y x); [now subst | discriminate].
  - intros I. exists x. split; [exact I | apply strictEq_refl].
Qed.

Lemma trimEnd_keeps_head (c : ascii) (s : string) :
  JS.isSpace c = false -> JS.trimEnd (String c s) = String c (JS.trimEnd s).
Proof.
  intros N. simpl. rewrite N. now destruct (JS.trimEnd s).
Qed.

Lemma trimEnd_idempotent (s : string) : JS.trimEnd (JS.trimEnd s) = JS.trimEnd s.
Proof.
  induction s as [|c s IH]; [reflexivity|].
  simpl. destruct (JS.trimEnd s) as [|c' kept] eqn:E.
  - destruct (JS.isSpace c) eqn:W; [reflexivity|]. simpl. now rewrite W.
  - change (JS.trimEnd (String c (String c' kept)))
      with (match JS.trimEnd (String c' kept) with
            | EmptyString => if JS.isSpace c then EmptyString else String c EmptyString
            | k => String c k
            end).
    now rewrite IH.
Qed.

Lemma trimStart_head (s : string) :
  JS.trimStart s = EmptyString
  \/ exists c rest, JS.trimStart s = String c rest /\ JS.isSpace c = false.
Proof.
  induction s as [|c s IH]; simpl; [now left|].
  destruct (JS.isSpace c) eqn:W; [exact IH|]. right. now exists c, s.
Qed.

Lemma trim_idempotent (s : string) : JS.trim (JS.trim s) = JS.trim s.
Proof.
  unfold JS.trim. destruct (trimStart_head s) as [E | (c & rest & E & N)]; rewrite E.
  - reflexivity.
  - rewrite (trimEnd_keeps_head _ _ N). simpl JS.trimStart. rewrite N.
    now rewrite (trimEnd_keeps_head _ _ N), trimEnd_idempotent.
Qed.

Section Rename.
(** Renaming one entry of a list that has no two entries with the same key:
    [key] stands for the case folding. *)
Variable key : string -> string.
Variables oldName newName : string.

Local Abbreviation rename := (fun c : string => if c === oldName then newName else c).

Lemma rename_absent (l : list string) : ~ In oldName l -> map rename l = l.
Proof.
  induction l as [|a l IH]; intros A; simpl; [reflexivity|].
  destruct (strictEq_spec a oldName) as [E|N].
  - exfalso. apply A. now left.
  - f_equal. apply IH. intros I. apply A. now right.
Qed.

Lemma rename_keys (l : list string) (k : string) :
  In k (map key (map rename l)) -> In k (map key l) \/ (In oldName l /\ k = key newName).
Proof.
  induction l as [|a l IH]; simpl; [tauto|].
  intros [E | I].
  - destruct (strictEq_spec a oldName) as [Ea|Na]; subst; auto.
  - destruct (IH I) as [H | [H1 H2]]; auto.
Qed.

Lemma rename_unique (l : list string) :
  NoDup (map key l) ->
  key newName = key oldName \/ ~ In (key newName) (map key l) ->
  NoDup (map key (map rename l)).
Proof.
  induction l as [|a l IH]; intros U C; simpl; [constructor|].
  inversion U as [|x xs Notin U' E]; subst.
  destruct (strictEq_spec a oldName) as [Ea|Na].
  - subst a. rewrite rename_absent.
    + constructor; [|exact U']. destruct C as [C | C].
      * now rewrite C.
      * intros I. apply C. now right.
    + intros I. apply Notin. now apply in_map.
  - constructor.
    + intros I. destruct (rename_keys _ _ I) as [H | [H1 H2]]; [now apply Notin|].
      destruct C as [C | C].
      * apply Notin. rewrite H2, C. now apply in_map.
      * apply C. left. now symmetry.
    + apply IH; [exact U'|]. destruct C as [C | C]; [now left | right].
      intros I. apply C. now right.
Qed.
End Rename.

Lemma append_unique (key : string -> string) (l : list string) (x : string) :
  NoDup (map key l) -> ~ In (key x) (map key l) -> NoDup (map key (l ++ [x])).
Proof.
  intros U N. rewrite map_app. simpl.
  apply NoDup_app; [exact U | repeat constructor; exact (fun f => f) | ].
  intros k I [E | []]. subst k. contradiction.
Qed.

(** What [addCategory] does, by cases. *)
Lemma addCategory_cases (name : string) (st : State) :
  (JS.includes (map JS.toLowerCase (categories st)) (JS.toLowerCase (JS.trim name)) = true
   /\ resultOf (addCategory name st) = false
   /\ stateOf (addCategory name st) = st)
  \/ (JS.includes (map JS.toLowerCase (categories st)) (JS.toLowerCase (JS.trim name)) = false
      /\ resultOf (addCategory name st) = true
      /\ stateOf (addCategory name st) =
           stateOf (setCategories (fun prev => prev ++ [JS.trim name]) st)).
Proof.
  unfold addCategory, render.
  destruct (JS.includes _ _); [left | right]; repeat split.
Qed.

(** What [updateCategory] does, by cases. *)
Lemma updateCategory_cases (oldName newName : string) (st : State) :
  let trimmedNewName := JS.trim newName in
  let clash :=
    (JS.toLowerCase oldName !== JS.toLowerCase trimmedNewName)
    && JS.includes (map JS.toLowerCase (categories st)) (JS.toLowerCase trimmedNewName) in
  ((trimmedNewName = "" \/ clash = true)
   /\ resultOf (updateCategory oldName newName st) = false
   /\ stateOf (updateCategory oldName newName st) = st)
  \/ (trimmedNewName <> "" /\ clash = false
      /\ resultOf (updateCategory oldName newName st) = true
      /\ products (stateOf (updateCategory oldName newName st)) =
           map (fun p => if Product.category p === oldName
                         then Product.withCategory trimmedNewName p else p)
               (products st)
      /\ categories (stateOf (updateCategory oldName newName st)) =
           map (fun c => if c === oldName then trimmedNewName else c) (categories st)
      /\ stateOf (updateCategory oldName newName st) =
           stateOf (setCategories
                      (fun _ => categories (stateOf (updateCategory oldName newName st)))
                      (stateOf (setProducts
                         (fun _ => products (stateOf (updateCategory oldName newName st)))
                         st)))).
Proof.
  intros trimmedNewName clash. subst clash trimmedNewName.
  unfold updateCategory, render.
  destruct (strictEq_spec (JS.trim newName) "") as [E|N].
  - left. repeat split. now left.
  - destruct (_ && _) eqn:C; [left | right]; repeat split; auto.
Qed.

Lemma addCategory_unique (name : string) (st : State) :
  uniqueNames (categories st) -> uniqueNames (categories (stateOf (addCategory name st))).
Proof.
  intros U. destruct (addCategory_cases name st) as [(_ & _ & S) | (I & _ & S)]; rewrite S.
  - exact U.
  - apply append_unique; [exact U|]. intros H. apply includes_In in H.
    rewrite H in I. discriminate.
Qed.

Lemma updateCategory_unique (oldName newName : string) (st : State) :
  uniqueNames (categories st) ->
  uniqueNames (categories (stateOf (updateCategory oldName newName st))).
Proof.
  intros U.
  destruct (updateCategory_cases oldName newName st)
    as [(_ & _ & S) | (_ & C & _ & _ & S & _)]; rewrite S; [exact U|].
  apply rename_unique; [exact U|].
  apply andb_false_iff in C. destruct C as [C | C].
  - left. apply negb_false_iff in C.
    destruct (strictEq_spec (JS.toLowerCase oldName) (JS.toLowerCase (JS.trim newName)));
      [now symmetry | discriminate].
  - right. intros I. apply includes_In in I. rewrite I in C. discriminate.
Qed.

Lemma addCategory_noBlank (name : string) (st : State) :
  JS.trim name <> "" -> noBlankName (categories st) ->
  noBlankName (categories (stateOf (addCategory name st))).
Proof.
  intros N B. destruct (addCategory_cases name st) as [(_ & _ & S) | (_ & _ & S)];
    rewrite S; [exact B|].
  apply Forall_app. split; [exact B|]. constructor; [|constructor].
  now rewrite trim_idempotent.
Qed.

Lemma updateCategory_noBlank (oldName newName : string) (st : State) :
  noBlankName (categories st) ->
  noBlankName (categories (stateOf (updateCategory oldName newName st))).
Proof.
  intros B.
  destruct (updateCategory_cases oldName newName st)
    as [(_ & _ & S) | (N & _ & _ & _ & S & _)]; rewrite S; [exact B|].
  unfold noBlankName in *. rewrite Forall_forall in *. intros c I.
  apply in_map_iff in I. destruct I as (x & E & I). subst c.
  destruct (x === oldName); [now rewrite trim_idempotent | now apply B].
Qed.

(** C3, as amended: from a state whose category names are pairwise different
    ignoring case, any sequence of [addCategory] and [updateCategory] calls
    leaves them pairwise different ignoring case; no name is empty after
    trimming as long as no [addCategory] call is given a name that is empty
    after trimming, which [addCategory] does not check itself.  A rejected
    call returns false and changes nothing: [addCategory] rejects a name
    already present ignoring case, [updateCategory] rejects an empty trimmed
    name and a name present ignoring case. *)
Theorem category_calls_keep_names_unique (calls : list CategoryCall) (st : State) :
  uniqueNames (categories st) ->
  uniqueNames (categories (callAll calls st))
  /\ (noBlankName (categories st) -> Forall nonBlankCall calls ->
      noBlankName (categories (callAll calls st)))
  /\ (forall name st',
        In (JS.toLowerCase (JS.trim name)) (map JS.toLowerCase (categories st')) ->
        resultOf (addCategory name st') = false /\ stateOf (addCategory name st') = st')
  /\ (forall oldName newName st',
        JS.trim newName = ""
        \/ (JS.toLowerCase oldName <> JS.toLowerCase (JS.trim newName)
            /\ In (JS.toLowerCase (JS.trim newName)) (map JS.toLowerCase (categories st'))) ->
        resultOf (updateCategory oldName newName st') = false
        /\ stateOf (updateCategory oldName newName st') = st')
  /\ (forall name st',
        noBlankName (categories st') ->
        noBlankName (categories (stateOf (handleAddCategory name st')))).
Proof.
  intros U.
  assert (Form : forall name st',
             noBlankName (categories st') ->
             noBlankName (categories (stateOf (handleAddCategory name st')))).
  { intros name st' B. unfold handleAddCategory.
    destruct (strictEq_spec (JS.trim name) "") as [E|N]; [exact B|].
    now apply (addCategory_noBlank name st' N). }
  repeat split; [| | | | | |exact Form].
  - revert st U. induction calls as [|c calls IH]; intros st U; simpl; [exact U|].
    apply IH. destruct c; simpl; [now apply addCategory_unique | now apply updateCategory_unique].
  - revert st U. induction calls as [|c calls IH]; intros st U B V; simpl; [exact B|].
    inversion V as [|x xs V1 V2]; subst.
    apply IH; [| |exact V2]; destruct c; simpl in *;
      auto using addCategory_unique, updateCategory_unique, addCategory_noBlank,
                 updateCategory_noBlank.
  - apply includes_In in H.
    destruct (addCategory_cases name st') as [(_ & R & _) | (I & _ & _)]; [exact R|].
    rewrite H in I. discriminate.
  - apply includes_In in H.
    destruct (addCategory_cases name st') as [(_ & _ & S) | (I & _ & _)]; [exact S|].
    rewrite H in I. discriminate.
  - destruct (updateCategory_cases oldName newName st')
      as [(_ & R & _) | (N & C & _)]; [exact R|].
    destruct H as [H | [H1 H2]]; [contradiction|].
    apply includes_In in H2. rewrite H2, andb_true_r in C. apply negb_false_iff in C.
    destruct (strictEq_spec (JS.toLowerCase oldName) (JS.toLowerCase (JS.trim newName)));
      [contradiction | discriminate].
  - destruct (updateCategory_cases oldName newName st')
      as [(_ & _ & S) | (N & C & _)]; [exact S|].
    destruct H as [H | [H1 H2]]; [contradiction|].
    apply includes_In in H2. rewrite H2, andb_true_r in C. apply negb_false_iff in C.
    destruct (strictEq_spec (JS.toLowerCase oldName) (JS.toLowerCase (JS.trim newName)));
      [contradiction | discriminate].
Qed.

(** The scenario of the specification: "Shoes" and then "shoes"; the second
    call is rejected and the list is unchanged. *)
Lemma category_calls_keep_names_unique_witness :
  uniqueNames (categories Sample.emptyState)
  /\ noBlankName (categories Sample.emptyState)
  /\ Forall nonBlankCall [CallAdd "Shoes"; CallAdd "shoes"; CallUpdate "Shoes" " Boots "]
  /\ categories (callAll [CallAdd "Shoes"; CallAdd "shoes"; CallUpdate "Shoes" " Boots "]
                         Sample.emptyState) = ["Boots"]
  /\ uniqueNames (categories (callAll [CallAdd "Shoes"; CallAdd "shoes";
                                       CallUpdate "Shoes" " Boots "] Sample.emptyState))
  /\ noBlankName (categories (callAll [CallAdd "Shoes"; CallAdd "shoes";
                                       CallUpdate "Shoes" " Boots "] Sample.emptyState)).
Proof.
  assert (U : uniqueNames (categories Sample.emptyState)) by constructor.
  assert (B : noBlankName (categories Sample.emptyState)) by constructor.
  assert (V : Forall nonBlankCall
                [CallAdd "Shoes"; CallAdd "shoes"; CallUpdate "Shoes" " Boots "])
    by (repeat constructor; discriminate).
  split; [exact U | split; [exact B | split; [exact V | split; [reflexivity | split]]]].
  - exact (proj1 (category_calls_keep_names_unique
                    [CallAdd "Shoes"; CallAdd "shoes"; CallUpdate "Shoes" " Boots "]
                    Sample.emptyState U)).
  - exact (proj1 (proj2 (category_calls_keep_names_unique
                    [CallAdd "Shoes"; CallAdd "shoes"; CallUpdate "Shoes" " Boots "]
                    Sample.emptyState U)) B V).
Defined.

(** C3, as stated, fails: [addCategory] accepts a name made of spaces and
    stores the empty name. *)
Lemma addCategory_accepts_blank_name :
  uniqueNames (categories Sample.shop)
  /\ noBlankName (categories Sample.shop)
  /\ resultOf (addCategory "  " Sample.shop) = true
  /\ categories (callAll [CallAdd "  "] Sample.shop) = ["Clothing"; "Shoes"; ""]
  /\ ~ noBlankName (categories (callAll [CallAdd "  "] Sample.shop)).
Proof.
  repeat split.
  - repeat constructor; simpl; intuition discriminate.
  - repeat constructor; discriminate.
  - intros B. unfold noBlankName in B. rewrite Forall_forall in B.
    apply (B ""); [|reflexivity]. simpl. auto.
Qed.

(** C6, as amended: after a successful [updateCategory] (one that returns
    true) every product whose category was the old name has the trimmed new
    name as category, every other product is unchanged, the category entry is
    renamed, all in the one state change, and no other cell changes; no
    product is left with the old name provided the trimmed new name differs
    from it. *)
Theorem updateCategory_cascades (oldName newName : string) (st : State) :
  resultOf (updateCategory oldName newName st) = true ->
  let trimmedNewName := JS.trim newName in
  let st1 := stateOf (updateCategory oldName newName st) in
  trimmedNewName <> ""
  /\ (forall i p, nth_error (products st) i = Some p -> Product.category p = oldName ->
        nth_error (products st1) i = Some (Product.withCategory trimmedNewName p))
  /\ (forall i p, nth_error (products st) i = Some p -> Product.category p <> oldName ->
        nth_error (products st1) i = Some p)
  /\ List.length (products st1) = List.length (products st)
  /\ (trimmedNewName <> oldName ->
      Forall (fun p => Product.category p <> oldName) (products st1))
  /\ categories st1 = map (fun c => if c === oldName then trimmedNewName else c) (categories st)
  /\ st1 = stateOf (setCategories (fun _ => categories st1)
                      (stateOf (setProducts (fun _ => products st1) st))).
Proof.
  intros R trimmedNewName st1. subst st1 trimmedNewName.
  destruct (updateCategory_cases oldName newName st)
    as [(_ & R' & _) | (N & _ & _ & P & C & F)]; [rewrite R in R'; discriminate|].
  repeat split; trivial.
  - intros i p Hi Hc. rewrite P, nth_error_map, Hi. simpl.
    now rewrite Hc, strictEq_refl.
  - intros i p Hi Hc. rewrite P, nth_error_map, Hi. simpl.
    destruct (strictEq_spec (Product.category p) oldName); [contradiction | reflexivity].
  - now rewrite P, length_map.
  - intros D. rewrite P. apply Forall_forall. intros p I.
    apply in_map_iff in I. destruct I as (q & E & _). subst p.
    destruct (strictEq_spec (Product.category q) oldName); [exact D | assumption].
Qed.

Lemma updateCategory_cascades_witness :
  resultOf (updateCategory "Clothing" " Apparel " Sample.shop) = true
  /\ map Product.category
         (products (stateOf (updateCategory "Clothing" " Apparel " Sample.shop)))
     = ["Apparel"; "Apparel"]
  /\ Forall (fun p => Product.category p <> "Clothing")
            (products (stateOf (updateCategory "Clothing" " Apparel " Sample.shop))).
Proof.
  split; [reflexivity | split; [reflexivity|]].
  apply (updateCategory_cascades "Clothing" " Apparel " Sample.shop eq_refl).
  discriminate.
Defined.

(** C6, as stated, fails: saving a category under its own name succeeds and
    the products keep the old name. *)
Lemma updateCategory_same_name_keeps_old :
  resultOf (updateCategory "Clothing" "Clothing" Sample.shop) = true
  /\ ~ Forall (fun p => Product.category p <> "Clothing")
              (products (stateOf (updateCategory "Clothing" "Clothing" Sample.shop))).
Proof.
  split; [reflexivity|]. intros F. inversion F as [|p ps H _]; subst.
  apply H. reflexivity.
Qed.

(** C7: [deleteCategory] removes nothing while products are filed under the
    name: it shows the error with their number and changes no cell; the
    category goes only when that number is zero and the user confirms. *)
Theorem deleteCategory_refuses_in_use (e : Env) (name : string) (st : State) :
  let count := productsUsing name st in
  let out := deleteCategory e name st in
  ((0 < count)%nat ->
     stateOf out = st
     /\ toastsOf out =
          [Toast.Build
             (JS.template ["Cannot delete category "; JS.dq; name; JS.dq;
                           " as it is being used by "; JS.showNat count; " product(s)."])
             error])
  /\ ((0 < count)%nat -> In name (categories st) -> In name (categories (stateOf out)))
  /\ (count = 0%nat -> confirm e = true ->
        categories (stateOf out) = filter (fun c => c !== name) (categories st)
        /\ ~ In name (categories (stateOf out))
        /\ stateOf out = stateOf (setCategories (fun _ => categories (stateOf out)) st))
  /\ (count = 0%nat -> confirm e = false -> stateOf out = st /\ toastsOf out = [])
  /\ (stateOf out <> st -> count = 0%nat /\ confirm e = true).
Proof.
  intros count out. subst out count.
  unfold deleteCategory, render, productsUsing.
  destruct (Nat.ltb_spec 0 (List.length
              (filter (fun p => Product.category p === name) (products st)))) as [L|L].
  - split; [|split; [|split; [|split]]].
    + intros _. split; reflexivity.
    + intros _ I. exact I.
    + intros Z. lia.
    + intros Z. lia.
    + intros D. now contradiction D.
  - destruct (confirm e) eqn:C; (split; [|split; [|split; [|split]]]).
    + intros Z. lia.
    + intros Z. lia.
    + intros _ _. split; [reflexivity | split; [|reflexivity]].
      cbn. intros I. apply filter_In in I. destruct I as [_ I].
      now rewrite strictEq_refl in I.
    + intros _ X. discriminate X.
    + intros _. split; [lia | reflexivity].
    + intros Z. lia.
    + intros Z. lia.
    + intros _ X. discriminate X.
    + intros _ _. split; reflexivity.
    + intros D. now contradiction D.
Qed.

Lemma deleteCategory_refuses_in_use_witness :
  (0 < productsUsing "Clothing" Sample.shop)%nat
  /\ stateOf (deleteCategory Sample.env "Clothing" Sample.shop) = Sample.shop
  /\ productsUsing "Shoes" Sample.shop = 0%nat
  /\ categories (stateOf (deleteCategory Sample.env "Shoes" Sample.shop)) = ["Clothing"]
  /\ stateOf (deleteCategory Sample.declined "Shoes" Sample.shop) = Sample.shop.
Proof.
  assert (L : (0 < productsUsing "Clothing" Sample.shop)%nat) by (vm_compute; lia).
  split; [exact L | split; [|split; [reflexivity|split]]].
  - exact (proj1 (proj1 (deleteCategory_refuses_in_use Sample.env "Clothing" Sample.shop) L)).
  - exact (proj1 (proj1 (proj2 (proj2
             (deleteCategory_refuses_in_use Sample.env "Shoes" Sample.shop)))
             eq_refl eq_refl)).
  - exact (proj1 (proj1 (proj2 (proj2 (proj2
             (deleteCategory_refuses_in_use Sample.declined "Shoes" Sample.shop))))
             eq_refl eq_refl)).
Defined.

(** ** Backup *)

Lemma Key_eqb_spec (a b : Key.t) : reflect (a = b) (Key.eqb a b).
Proof. destruct a, b; simpl; constructor; congruence. Qed.

Lemma importOrder_complete (k : Key.t) : In k Key.importOrder.
Proof. destruct k; simpl; tauto. Qed.

Lemma getProp_throws (data : value) (k : Key.t) :
  getProp data k = Threw <-> data = VNull.
Proof.
  destruct data; simpl; split; try discriminate; trivial.
  destruct (lookup (Key.name k) fields); discriminate.
Qed.

(** Without an exception the ten statements run to the end, each on its own
    cell. *)
Lemma importCells_run (data : value) (ks : list Key.t) (st : Store) :
  data <> VNull ->
  exists st',
    fold_left (importCell data) ks (Completed st) = Completed st'
    /\ forall k, st' k = if existsb (Key.eqb k) ks then imported data st k else st k.
Proof.
  intros NN. revert st. induction ks as [|k0 ks IH]; intros st; simpl.
  - now exists st.
  - destruct (getProp data k0) as [| |v] eqn:G.
    + apply getProp_throws in G. contradiction.
    + destruct (IH st) as (st' & F & C). exists st'. split; [exact F|].
      intros k. rewrite C. destruct (Key_eqb_spec k k0) as [E|N]; simpl; [|reflexivity].
      subst k0. unfold imported. rewrite G. now destruct (existsb _ ks).
    + destruct (IH (if truthy v then setCell k0 v st else st)) as (st' & F & C).
      exists st'. split; [exact F|]. intros k. rewrite C. unfold imported.
      destruct (Key_eqb_spec k k0) as [E|N]; simpl.
      * subst k0. rewrite G. unfold setCell.
        destruct (truthy v), (existsb _ ks); trivial;
          destruct (Key_eqb_spec k k); congruence.
      * destruct (truthy v); trivial. unfold setCell.
        destruct (Key_eqb_spec k k0); [contradiction|]. reflexivity.
Qed.

Lemma importData_cells (e : Env) (data : value) (st : Store) :
  confirm e = true -> data <> VNull ->
  snd (importData e data st) = [Toast.Build "Data imported successfully!" success]
  /\ forall k, fst (importData e data st) k = imported data st k.
Proof.
  intros C NN. unfold importData. rewrite C.
  destruct (importCells_run data Key.importOrder st NN) as (st' & F & Cells).
  rewrite F. split; [reflexivity|]. intros k. simpl. rewrite Cells.
  destruct (existsb (Key.eqb k) Key.importOrder) eqn:X; [reflexivity|].
  assert (Y : existsb (Key.eqb k) Key.importOrder = true).
  { apply existsb_exists. exists k. split; [apply importOrder_complete|].
    now destruct (Key_eqb_spec k k). }
  rewrite X in Y. discriminate.
Qed.

(** Partial import: with the confirmation given, [importData] replaces the
    cell of every recognised top-level key whose value in the document is
    truthy by that value, whole, and leaves the cells of the other keys as
    they are.  For [null], and for a file that is not JSON, it shows an error
    and changes no cell.  Without the confirmation nothing happens. *)
Theorem importData_replaces_present_keys (e : Env) (data : value) (st : Store) :
  confirm e = true ->
  (data <> VNull ->
     snd (importData e data st) = [Toast.Build "Data imported successfully!" success]
     /\ (forall k v, getProp data k = Defined v -> truthy v = true ->
           fst (importData e data st) k = v)
     /\ (forall k v, getProp data k = Defined v -> truthy v = false ->
           fst (importData e data st) k = st k)
     /\ (forall k, getProp data k = Undefined ->
           fst (importData e data st) k = st k))
  /\ importData e VNull st = (st, [Toast.Build "Invalid data file." error])
  /\ handleImportJson e None st = (st, [Toast.Build "Invalid JSON file" error])
  /\ handleImportJson e (Some data) st = importData e data st
  /\ (forall e', confirm e' = false -> importData e' data st = (st, [])).
Proof.
  intros C. split; [|split; [|split; [|split]]].
  - intros NN. destruct (importData_cells e data st C NN) as [T Cells].
    split; [exact T|]. split; [|split].
    + intros k v G Tr. rewrite Cells. unfold imported. now rewrite G, Tr.
    + intros k v G Tr. rewrite Cells. unfold imported. now rewrite G, Tr.
    + intros k G. rewrite Cells. unfold imported. now rewrite G.
  - unfold importData. rewrite C. reflexivity.
  - reflexivity.
  - reflexivity.
  - intros e' C'. unfold importData. now rewrite C'.
Qed.

(** A document with two of the keys: those two cells are replaced. *)
Lemma importData_replaces_present_keys_witness :
  confirm Sample.env = true
  /\ fst (importData Sample.env
            (VObj [("categories", VArr [VStr "Toys"]); ("sales", VArr [])])
            (toStore Sample.shop)) Key.categories
     = VArr [VStr "Toys"].
Proof.
  split; [reflexivity|].
  apply (proj1 (proj2 (proj1 (importData_replaces_present_keys Sample.env
           (VObj [("categories", VArr [VStr "Toys"]); ("sales", VArr [])])
           (toStore Sample.shop) eq_refl) ltac:(discriminate)))).
  - reflexivity.
  - reflexivity.
Defined.

(** C2: [importData] is to refuse a malformed document and change nothing: it
    has the error 'Invalid data file.' for it, and the cells it writes are
    typed.  It does not: a document that has not the expected structure is
    not refused.  A bare number is reported as imported, and a document whose
    [products] is a number is reported as imported and replaces the products
    by that number. *)
Lemma importData_accepts_malformed :
  expectedStructure (VNum 5) = false
  /\ snd (importData Sample.env (VNum 5) (toStore Sample.shop))
     = [Toast.Build "Data imported successfully!" success]
  /\ expectedStructure (VObj [("products", VNum 5)]) = false
  /\ snd (importData Sample.env (VObj [("products", VNum 5)]) (toStore Sample.shop))
     = [Toast.Build "Data imported successfully!" success]
  /\ fst (importData Sample.env (VObj [("products", VNum 5)]) (toStore Sample.shop))
         Key.products = VNum 5
  /\ fst (importData Sample.env (VObj [("products", VNum 5)]) (toStore Sample.shop))
         Key.products <> toStore Sample.shop Key.products.
Proof.
  repeat split. discriminate.
Qed.

Lemma map_injective {A B : Type} (f : A -> B) :
  (forall x y, f x = f y -> x = y) ->
  forall l l', map f l = map f l' -> l = l'.
Proof.
  intros Inj. induction l as [|a l IH]; intros [|b l'] E; simpl in E;
    try discriminate; [reflexivity|].
  injection E as E1 E2. f_equal; [now apply Inj | now apply IH].
Qed.

Lemma optionalField_injective (key : string) (o o' : option string) :
  optionalField key o = optionalField key o' -> o = o'.
Proof.
  destruct o, o'; simpl; intros E; try discriminate; [|reflexivity].
  now injection E as ->.
Qed.

Lemma jsProduct_injective (p q : Product.t) : jsProduct p = jsProduct q -> p = q.
Proof.
  destruct p, q. unfold jsProduct. simpl. intros E.
  injection E as -> -> -> -> -> -> E. apply optionalField_injective in E. now subst.
Qed.

Lemma jsSaleItem_injective (i j : SaleItem.t) : jsSaleItem i = jsSaleItem j -> i = j.
Proof.
  destruct i, j. unfold jsSaleItem. simpl. intros E. now injection E as -> -> ->.
Qed.

Lemma jsSale_injective (s t : Sale.t) : jsSale s = jsSale t -> s = t.
Proof.
  destruct s, t. unfold jsSale. simpl. intros E.
  injection E as -> E1 -> -> E2.
  apply optionalField_injective in E2.
  apply (map_injective jsSaleItem jsSaleItem_injective) in E1. now subst.
Qed.

Lemma jsPurchase_injective (p q : Purchase.t) : jsPurchase p = jsPurchase q -> p = q.
Proof.
  destruct p, q. unfold jsPurchase. simpl. intros E.
  now injection E as -> -> -> -> -> -> ->.
Qed.

(** Two typed states with the same cells are the same state. *)
Lemma toStore_injective (s s' : State) :
  (forall k, toStore s k = toStore s' k) -> s = s'.
Proof.
  intros E. destruct s, s'.
  pose proof (E Key.products) as E1. pose proof (E Key.sales) as E2.
  pose proof (E Key.suppliers) as E3. pose proof (E Key.expenses) as E4.
  pose proof (E Key.customers) as E5. pose proof (E Key.purchases) as E6.
  pose proof (E Key.customerPayments) as E7. pose proof (E Key.companyInfo) as E8.
  pose proof (E Key.systemSettings) as E9. pose proof (E Key.categories) as E10.
  simpl in *.
  injection E1 as E1. injection E2 as E2. injection E3 as E3. injection E4 as E4.
  injection E5 as E5. injection E6 as E6. injection E7 as E7. injection E8 as E8.
  injection E9 as E9. injection E10 as E10.
  apply (map_injective jsProduct jsProduct_injective) in E1.
  apply (map_injective jsSale jsSale_injective) in E2.
  apply (map_injective jsPurchase jsPurchase_injective) in E6.
  assert (ObjInj : forall x y : object, VObj x = VObj y -> x = y)
    by (intros x y H; now injection H).
  assert (StrInj : forall x y : string, VStr x = VStr y -> x = y)
    by (intros x y H; now injection H).
  apply (map_injective VObj ObjInj) in E3, E4, E5, E7.
  apply (map_injective VStr StrInj) in E10.
  now subst.
Qed.

(** The exported object has each cell under its key, and a cell of a typed
    state is an array or an object, hence truthy. *)
Lemma exportData_getProp (st : Store) (k : Key.t) :
  getProp (exportData st) k = Defined (st k).
Proof. destruct k; reflexivity. Qed.

Lemma toStore_truthy (s : State) (k : Key.t) : truthy (toStore s k) = true.
Proof. destruct k; reflexivity. Qed.

Lemma import_export_cells (e : Env) (st st0 : Store) :
  confirm e = true -> (forall k, truthy (st k) = true) ->
  forall k, fst (importData e (exportData st) st0) k = st k.
Proof.
  intros C T k.
  assert (NN : exportData st <> VNull) by discriminate.
  rewrite (proj2 (importData_cells e (exportData st) st0 C NN)).
  unfold imported. now rewrite exportData_getProp, T.
Qed.

(** C8: importing, with the confirmation given, the document exported from a
    state gives that state back: each of the ten cells (the entity
    collections, the categories, the company info and the settings) is as
    before the export.  This holds whatever the state is at the time of the
    import, in particular when it is the exported state itself. *)
Theorem export_import_round_trip (e : Env) (s : State) (current : Store) :
  confirm e = true ->
  let document := exportData (toStore s) in
  let out := handleImportJson e (Some document) current in
  expectedStructure document = true
  /\ snd out = [Toast.Build "Data imported successfully!" success]
  /\ (forall k, fst out k = toStore s k)
  /\ (forall s', (forall k, fst out k = toStore s' k) -> s' = s)
  /\ (forall k, fst (handleImportJson e (Some document) (toStore s)) k = toStore s k).
Proof.
  intros C document out. subst out document.
  assert (Cells : forall st0 k,
             fst (handleImportJson e (Some (exportData (toStore s))) st0) k = toStore s k).
  { intros st0 k. simpl. apply import_export_cells; [exact C | apply toStore_truthy]. }
  split; [reflexivity | split; [|split; [|split]]].
  - simpl. apply importData_cells; [exact C | discriminate].
  - apply Cells.
  - intros s' E. apply toStore_injective. intros k. now rewrite <- E, Cells.
  - apply Cells.
Qed.

Lemma export_import_round_trip_witness :
  confirm Sample.env = true
  /\ forall k,
       fst (handleImportJson Sample.env (Some (exportData (toStore Sample.shop)))
              (toStore Sample.emptyState)) k
       = toStore Sample.shop k.
Proof.
  split; [reflexivity|].
  apply (export_import_round_trip Sample.env Sample.shop (toStore Sample.emptyState) eq_refl).
Defined.

(** * Further properties *)

(** ** Stock over runs of sales *)

Lemma strictEq_sym (a b : string) : (a === b) = (b === a).
Proof. apply String.eqb_sym. Qed.

Lemma take_take_comm (a b : list SaleItem.t) (ps : list Product.t) :
  fold_left takeExactly a (fold_left takeExactly b ps) =
  fold_left takeExactly b (fold_left takeExactly a ps).
Proof.
  revert ps. induction a as [|i a IH]; intros ps; simpl; [reflexivity|].
  change (takeExactly (fold_left takeExactly b ps) i)
    with (bump (SaleItem.productId i) (- SaleItem.quantity i) (fold_left takeExactly b ps)).
  rewrite <- sold_bump_comm. now rewrite IH.
Qed.

Lemma totalQuantity_app (a b : list SaleItem.t) :
  totalQuantity (a ++ b) = totalQuantity a + totalQuantity b.
Proof. induction a as [|i a IH]; simpl; lia. Qed.

(** X1: The products after two sales do not depend on the order in which the two
    sales were recorded, when the items of the two sales together are within
    the range for the products. *)
Theorem addSale_order_irrelevant (e1 e2 : Env) (s1 s2 : Sale.t) (st : State) :
  withinRange (Sale.items s1 ++ Sale.items s2) (products st) ->
  products (stateOf (addSale e2 s2 (stateOf (addSale e1 s1 st)))) =
  products (stateOf (addSale e1 s1 (stateOf (addSale e2 s2 st)))).
Proof.
  intros W. rewrite !addSale_products, <- !fold_left_app.
  rewrite (sold_exactly _ _ W).
  rewrite sold_exactly.
  - rewrite !fold_left_app. apply take_take_comm.
  - apply (withinRange_less (Sale.items s1 ++ Sale.items s2)); [|exact W].
    rewrite !totalQuantity_app. lia.
Qed.

Lemma addSale_order_irrelevant_witness :
  withinRange (Sale.items Sample.sale ++ Sale.items Sample2.secondSale)
              (products Sample.shop)
  /\ products (stateOf (addSale Sample2.otherEnv Sample2.secondSale
                          (stateOf (addSale Sample.env Sample.sale Sample.shop)))) =
     products (stateOf (addSale Sample.env Sample.sale
                          (stateOf (addSale Sample2.otherEnv Sample2.secondSale
                                      Sample.shop)))).
Proof.
  assert (W : withinRange (Sale.items Sample.sale ++ Sale.items Sample2.secondSale)
                          (products Sample.shop))
    by (repeat constructor; vm_compute; discriminate).
  split; [exact W|].
  exact (addSale_order_irrelevant Sample.env Sample2.otherEnv Sample.sale
           Sample2.secondSale Sample.shop W).
Defined.

Lemma bump_as_map (productId : string) (d : Z) (ps : list Product.t) :
  NoDup (map Product.id ps) ->
  bump productId d ps =
  map (fun p => if Product.id p === productId
                then Product.withStock (Product.stock p + d) p else p) ps.
Proof.
  induction ps as [|p rest IH]; intros U; simpl; [reflexivity|].
  inversion U as [|x xs Notin U' E]; subst.
  destruct (strictEq_spec (Product.id p) productId) as [E|N].
  - f_equal. subst productId. symmetry.
    rewrite <- (map_id rest) at 2. apply map_ext_in. intros q I.
    destruct (strictEq_spec (Product.id q) (Product.id p)) as [E|]; [|reflexivity].
    exfalso. apply Notin. rewrite <- E. now apply in_map.
  - f_equal. now apply IH.
Qed.

Lemma sold_as_map (items : list SaleItem.t) (ps : list Product.t) :
  NoDup (map Product.id ps) ->
  fold_left takeExactly items ps =
  map (fun p => Product.withStock
                  (Product.stock p - quantityOf (Product.id p) items) p) ps.
Proof.
  revert ps. induction items as [|i items IH]; intros ps U; simpl.
  - rewrite <- (map_id ps) at 1. apply map_ext. intros p.
    now rewrite Z.sub_0_r, withStock_same.
  - unfold takeExactly at 2. rewrite IH by now rewrite bump_ids.
    rewrite bump_as_map by exact U. rewrite map_map. apply map_ext. intros p.
    destruct (Product.id p === SaleItem.productId i) eqn:E.
    + unfold Product.withStock; simpl. rewrite strictEq_sym, E. f_equal; lia.
    + rewrite strictEq_sym, E. f_equal; lia.
Qed.

Lemma putBack_as_map (items : list SaleItem.t) (ps : list Product.t) :
  NoDup (map Product.id ps) ->
  fold_left putBackExactly items ps =
  map (fun p => Product.withStock
                  (Product.stock p + quantityOf (Product.id p) items) p) ps.
Proof.
  revert ps. induction items as [|i items IH]; intros ps U; simpl.
  - rewrite <- (map_id ps) at 1. apply map_ext. intros p.
    now rewrite Z.add_0_r, withStock_same.
  - unfold putBackExactly at 2. rewrite IH by now rewrite bump_ids.
    rewrite bump_as_map by exact U. rewrite map_map. apply map_ext. intros p.
    destruct (Product.id p === SaleItem.productId i) eqn:E.
    + unfold Product.withStock; simpl. rewrite strictEq_sym, E. f_equal; lia.
    + rewrite strictEq_sym, E. f_equal; lia.
Qed.

Lemma adjust_stock_only (productId : string) (f : Z -> Z) (ps : list Product.t) :
  map (Product.withStock 0) (adjust productId f ps) = map (Product.withStock 0) ps.
Proof.
  induction ps as [|p rest IH]; simpl; [reflexivity|].
  destruct (Product.id p === productId); simpl; [reflexivity | now rewrite IH].
Qed.

Lemma sold_stock_only (items : list SaleItem.t) (ps : list Product.t) :
  map (Product.withStock 0) (fold_left takeFromStock items ps)
  = map (Product.withStock 0) ps.
Proof.
  revert ps. induction items as [|i items IH]; intros ps; simpl; [reflexivity|].
  now rewrite IH, takeFromStock_adjust, adjust_stock_only.
Qed.

Lemma putBack_stock_only (items : list SaleItem.t) (ps : list Product.t) :
  map (Product.withStock 0) (fold_left putBackInStock items ps)
  = map (Product.withStock 0) ps.
Proof.
  revert ps. induction items as [|i items IH]; intros ps; simpl; [reflexivity|].
  now rewrite IH, putBackInStock_adjust, adjust_stock_only.
Qed.

(** X2: [addSale] and [deleteSale] leave every product in place and change
    nothing of it but the stock.  When no two products share an id and the
    items of the sale are within the range for the products, the stock goes
    down under [addSale] by the total quantity of the line items on that
    product, below zero if need be; [deleteSale] of a sale on record does the
    same with the quantities added. *)
Theorem sale_changes_stock_only (e : Env) (sale : Sale.t) (st : State) :
  NoDup (map Product.id (products st)) ->
  map (Product.withStock 0) (products (stateOf (addSale e sale st)))
  = map (Product.withStock 0) (products st)
  /\ (forall saleId,
        map (Product.withStock 0) (products (stateOf (deleteSale saleId st)))
        = map (Product.withStock 0) (products st))
  /\ (withinRange (Sale.items sale) (products st) ->
      products (stateOf (addSale e sale st)) =
        map (fun p => Product.withStock
                        (Product.stock p - quantityOf (Product.id p) (Sale.items sale)) p)
            (products st))
  /\ (forall saleId s,
        find (fun x => Sale.id x === saleId) (sales st) = Some s ->
        withinRange (Sale.items s) (products st) ->
        products (stateOf (deleteSale saleId st)) =
          map (fun p => Product.withStock
                          (Product.stock p + quantityOf (Product.id p) (Sale.items s)) p)
              (products st)).
Proof.
  intros U. split; [|split; [|split]].
  - rewrite addSale_products. apply sold_stock_only.
  - intros saleId.
    destruct (find (fun x => Sale.id x === saleId) (sales st)) as [s|] eqn:F.
    + rewrite (proj1 (deleteSale_found _ _ _ F)). apply putBack_stock_only.
    + unfold deleteSale, render. now rewrite F.
  - intros W. rewrite addSale_products, (sold_exactly _ _ W). now apply sold_as_map.
  - intros saleId s F W. rewrite (proj1 (deleteSale_found _ _ _ F)).
    rewrite (putBack_exactly _ _ W). now apply putBack_as_map.
Qed.

(** The second sample sale asks for 20 of A, of which 10 are in stock. *)
Lemma sale_changes_stock_only_witness :
  NoDup (map Product.id (products Sample.shop))
  /\ withinRange (Sale.items Sample2.secondSale) (products Sample.shop)
  /\ map Product.stock
         (products (stateOf (addSale Sample2.otherEnv Sample2.secondSale Sample.shop)))
     = [-10; 4].
Proof.
  assert (U : NoDup (map Product.id (products Sample.shop))).
  { repeat constructor; simpl; intuition discriminate. }
  assert (W : withinRange (Sale.items Sample2.secondSale) (products Sample.shop))
    by (repeat constructor; vm_compute; discriminate).
  split; [exact U | split; [exact W|]].
  rewrite (proj1 (proj2 (proj2 (sale_changes_stock_only Sample2.otherEnv Sample2.secondSale
                                  Sample.shop U))) W).
  reflexivity.
Defined.

Lemma soldIn_app (productId : string) (a b : list Sale.t) :
  soldIn productId (a ++ b) = soldIn productId a + soldIn productId b.
Proof.
  induction a as [|s a IH]; simpl; [reflexivity|]. rewrite IH. lia.
Qed.

Lemma filter_other_ids (saleId : string) (ss : list Sale.t) :
  ~ In saleId (map Sale.id ss) ->
  filter (fun x => Sale.id x !== saleId) ss = ss.
Proof.
  intros A. apply filter_all. intros x I.
  destruct (strictEq_spec (Sale.id x) saleId) as [E|]; [|reflexivity].
  exfalso. apply A. rewrite <- E. now apply in_map.
Qed.

Lemma soldIn_removed (productId saleId : string) (s : Sale.t) (ss : list Sale.t) :
  NoDup (map Sale.id ss) ->
  find (fun x => Sale.id x === saleId) ss = Some s ->
  soldIn productId (filter (fun x => Sale.id x !== saleId) ss) =
  soldIn productId ss - quantityOf productId (Sale.items s).
Proof.
  induction ss as [|x ss IH]; intros U F; simpl in *; [discriminate|].
  inversion U as [|y ys Notin U' E]; subst.
  destruct (strictEq_spec (Sale.id x) saleId) as [E|N]; simpl.
  - inversion F; subst. rewrite filter_other_ids by exact Notin. lia.
  - rewrite IH by assumption. lia.
Qed.

Lemma NoDup_ids_filter (f : Sale.t -> bool) (ss : list Sale.t) :
  NoDup (map Sale.id ss) -> NoDup (map Sale.id (filter f ss)).
Proof.
  induction ss as [|x ss IH]; intros U; simpl; [constructor|].
  inversion U as [|y ys Notin U' E]; subst.
  destruct (f x); simpl; [|now apply IH].
  constructor; [|now apply IH]. intros I. apply Notin.
  apply in_map_iff in I. destruct I as (z & E & I). apply filter_In in I.
  rewrite <- E. apply in_map. tauto.
Qed.

Lemma stockOf_recategorized (productId : string) (f : Product.t -> bool) (c : string)
      (ps : list Product.t) :
  stockOf productId (map (fun p => if f p then Product.withCategory c p else p) ps)
  = stockOf productId ps.
Proof.
  unfold stockOf. induction ps as [|p ps IH]; simpl; [reflexivity|].
  destruct (f p); simpl; destruct (Product.id p === productId); simpl; trivial.
Qed.

Lemma stockAndSold_same (productId : string) (st st' : State) :
  products st' = products st -> sales st' = sales st ->
  stockAndSold productId st' = stockAndSold productId st.
Proof. unfold stockAndSold. now intros -> ->. Qed.

Lemma addCategory_frame (name : string) (st : State) :
  products (stateOf (addCategory name st)) = products st
  /\ sales (stateOf (addCategory name st)) = sales st
  /\ purchases (stateOf (addCategory name st)) = purchases st.
Proof.
  destruct (addCategory_cases name st) as [(_ & _ & S) | (_ & _ & S)]; rewrite S;
    repeat split.
Qed.

Lemma deleteCategory_frame (e : Env) (name : string) (st : State) :
  products (stateOf (deleteCategory e name st)) = products st
  /\ sales (stateOf (deleteCategory e name st)) = sales st
  /\ purchases (stateOf (deleteCategory e name st)) = purchases st.
Proof.
  unfold deleteCategory, render.
  destruct (0 <? _)%nat; [repeat split|]. destruct (confirm e); repeat split.
Qed.

Lemma updateCategory_frame (oldName newName : string) (st : State) :
  sales (stateOf (updateCategory oldName newName st)) = sales st
  /\ purchases (stateOf (updateCategory oldName newName st)) = purchases st
  /\ map Product.id (products (stateOf (updateCategory oldName newName st)))
     = map Product.id (products st)
  /\ forall productId,
       stockOf productId (products (stateOf (updateCategory oldName newName st)))
       = stockOf productId (products st).
Proof.
  destruct (updateCategory_cases oldName newName st)
    as [(_ & _ & S) | (_ & _ & _ & P & _ & F)].
  - rewrite S. repeat split.
  - split; [exact (f_equal sales F) | split; [exact (f_equal purchases F)|]].
    rewrite P. split.
    + rewrite map_map. apply map_ext. intros p. now destruct (_ === _).
    + intros productId. apply stockOf_recategorized.
Qed.

(** One call of a run of sales keeps, for every product, the stock plus the
    quantity in the sales on record, and keeps the sale ids distinct. *)
Lemma perform_keeps_stockAndSold (c : Call) (st : State) (productId : string) :
  NoDup (map Sale.id (sales st)) ->
  salesRun st [c] ->
  stockAndSold productId (perform st c) = stockAndSold productId st
  /\ NoDup (map Sale.id (sales (perform st c))).
Proof.
  intros U [A _].
  destruct c; try contradiction;
    try (split; [apply stockAndSold_same; reflexivity | exact U]).
  - (* AddSale *)
    destruct A as [A W]. cbn [perform]. split.
    + unfold stockAndSold.
      rewrite addSale_products, addSale_sales, (sold_exactly _ _ W), stockOf_sold, soldIn_app.
      simpl. rewrite newSaleOf_items.
      destruct (stockOf productId (products st)); simpl; [f_equal; lia | reflexivity].
    + rewrite addSale_sales, map_app. simpl. rewrite newSaleOf_id.
      apply NoDup_app; [exact U | repeat constructor; exact (fun f => f) |].
      intros k I [E | []]. subst k. contradiction.
  - (* DeleteSale *)
    cbn [perform]. destruct (find (fun x => Sale.id x === saleId) (sales st)) as [s|] eqn:F.
    + destruct (deleteSale_found _ _ _ F) as [P S]. split.
      * unfold stockAndSold.
        rewrite P, S, (putBack_exactly _ _ (A s eq_refl)), stockOf_putBack,
          (soldIn_removed _ _ _ _ U F).
        destruct (stockOf productId (products st)); simpl; [f_equal; lia | reflexivity].
      * rewrite S. now apply NoDup_ids_filter.
    + unfold deleteSale, render. rewrite F. now split.
  - (* AddCategory *)
    cbn [perform]. destruct (addCategory_frame name st) as (P & S & _).
    split; [now apply stockAndSold_same | now rewrite S].
  - (* UpdateCategory *)
    cbn [perform]. destruct (updateCategory_frame oldName newName st) as (S & _ & _ & K).
    split; [|now rewrite S]. unfold stockAndSold. now rewrite K, S.
  - (* DeleteCategory *)
    cbn [perform]. destruct (deleteCategory_frame e name st) as (P & S & _).
    split; [now apply stockAndSold_same | now rewrite S].
Qed.

(** X3: Over any run of calls of the sale, supplier, expense, customer,
    customer-payment, company-info and category mutators (no product is added,
    edited or deleted; [resetAllData], [importData] and [saveSystemSettings]
    are not among the calls) in which every new sale gets an id no sale on
    record has and the items of every sale added or deleted are within the
    range for the products at that point, the stock of each product plus its
    quantity in the sales on record stays what it was: sales and their
    deletion only move quantity between the two.  The sale ids stay
    distinct. *)
Theorem stock_and_sales_balance (calls : list Call) (st : State) (productId : string) :
  NoDup (map Sale.id (sales st)) ->
  salesRun st calls ->
  stockAndSold productId (performAll calls st) = stockAndSold productId st
  /\ NoDup (map Sale.id (sales (performAll calls st))).
Proof.
  revert st. induction calls as [|c calls IH]; intros st U R; simpl; [now split|].
  destruct R as [A R].
  destruct (perform_keeps_stockAndSold c st productId U (conj A I)) as [K U'].
  destruct (IH (perform st c) U' R) as [K' U'']. split; [now rewrite K', K | exact U''].
Qed.

(** Two sales, a renamed category, then the first sale deleted. *)
Lemma stock_and_sales_balance_witness :
  NoDup (map Sale.id (sales Sample.shop))
  /\ salesRun Sample.shop
       [AddSale Sample.env Sample.sale; AddSale Sample2.otherEnv Sample2.secondSale;
        UpdateCategory "Clothing" "Apparel"; DeleteSale "k1a2b3c"]
  /\ stockAndSold "A"
       (performAll [AddSale Sample.env Sample.sale;
                    AddSale Sample2.otherEnv Sample2.secondSale;
                    UpdateCategory "Clothing" "Apparel"; DeleteSale "k1a2b3c"]
                   Sample.shop)
     = Some 10.
Proof.
  assert (U : NoDup (map Sale.id (sales Sample.shop))) by constructor.
  assert (R : salesRun Sample.shop
                [AddSale Sample.env Sample.sale;
                 AddSale Sample2.otherEnv Sample2.secondSale;
                 UpdateCategory "Clothing" "Apparel"; DeleteSale "k1a2b3c"]).
  { split; [split; [exact (fun f => f) | repeat constructor; vm_compute; discriminate]|].
    split; [split; [simpl; intuition discriminate
                   | repeat constructor; vm_compute; discriminate]|].
    split; [exact I|].
    split; [|exact I].
    intros s F. vm_compute in F. injection F as <-.
    repeat constructor; vm_compute; discriminate. }
  split; [exact U | split; [exact R|]].
  rewrite (proj1 (stock_and_sales_balance _ Sample.shop "A" U R)). reflexivity.
Defined.

(** X4: [deleteSale] leaves no sale with the given id, and a second [deleteSale]
    with the same id changes nothing. *)
Theorem deleteSale_idempotent (saleId : string) (st : State) :
  ~ In saleId (map Sale.id (sales (stateOf (deleteSale saleId st))))
  /\ deleteSale saleId (stateOf (deleteSale saleId st))
     = (tt, stateOf (deleteSale saleId st), []).
Proof.
  assert (Gone : ~ In saleId (map Sale.id (sales (stateOf (deleteSale saleId st))))).
  { destruct (find (fun x => Sale.id x === saleId) (sales st)) as [s|] eqn:F.
    - rewrite (proj2 (deleteSale_found _ _ _ F)). apply filter_removes_id.
    - unfold deleteSale, render. rewrite F. simpl. intros I.
      apply in_map_iff in I. destruct I as (x & E & I).
      apply (find_none _ _ F) in I. subst saleId. now rewrite strictEq_refl in I. }
  split; [exact Gone | now apply deleteSale_absent].
Qed.

(** ** Products and purchases over runs of calls *)

Lemma deleteSale_ids (saleId : string) (st : State) :
  map Product.id (products (stateOf (deleteSale saleId st))) = map Product.id (products st).
Proof.
  destruct (find (fun x => Sale.id x === saleId) (sales st)) as [s|] eqn:F.
  - rewrite (proj1 (deleteSale_found _ _ _ F)). apply putBack_ids.
  - unfold deleteSale, render. now rewrite F.
Qed.

Lemma updateProduct_products (e : Env) (updatedProduct : Product.t) (st : State) :
  products (stateOf (updateProduct e updatedProduct st)) =
  map (fun p => if Product.id p === Product.id updatedProduct then updatedProduct else p)
      (products st).
Proof.
  unfold updateProduct, render, bind, stateOf.
  destruct (JS.truthyStr _ && _ && _); reflexivity.
Qed.

Lemma replaced_ids (u : Product.t) (ps : list Product.t) :
  map Product.id (map (fun p => if Product.id p === Product.id u then u else p) ps)
  = map Product.id ps.
Proof.
  rewrite map_map. apply map_ext. intros p.
  destruct (strictEq_spec (Product.id p) (Product.id u)); congruence.
Qed.

Lemma addProduct_products (e : Env) (product : Product.t) (st : State) :
  products (stateOf (addProduct e product st)) =
  products st ++ [Product.withId (generateId e 0) product].
Proof.
  unfold addProduct, bind, stateOf. destruct (JS.truthyStr _ && _ && _); reflexivity.
Qed.

Lemma NoDup_product_ids_filter (f : Product.t -> bool) (ps : list Product.t) :
  NoDup (map Product.id ps) -> NoDup (map Product.id (filter f ps)).
Proof.
  induction ps as [|x ps IH]; intros U; simpl; [constructor|].
  inversion U as [|y ys Notin U' E]; subst.
  destruct (f x); simpl; [|now apply IH].
  constructor; [|now apply IH]. intros I. apply Notin.
  apply in_map_iff in I. destruct I as (z & E & I). apply filter_In in I.
  rewrite <- E. apply in_map. tauto.
Qed.

Lemma perform_keeps_product_ids_distinct (c : Call) (st : State) :
  NoDup (map Product.id (products st)) ->
  freshProductIds st [c] ->
  NoDup (map Product.id (products (perform st c))).
Proof.
  intros U [A _]. destruct c; cbn [perform]; try exact U.
  - rewrite addProduct_products, map_app. simpl.
    apply NoDup_app; [exact U | repeat constructor; exact (fun f => f) |].
    intros k I [E | []]. subst k. contradiction.
  - now rewrite updateProduct_products, replaced_ids.
  - now apply NoDup_product_ids_filter.
  - now rewrite addSale_products, sold_ids.
  - now rewrite deleteSale_ids.
  - now rewrite (proj1 (addCategory_frame name st)).
  - now rewrite (proj1 (proj2 (proj2 (updateCategory_frame oldName newName st)))).
  - now rewrite (proj1 (deleteCategory_frame e name st)).
Qed.

(** X5: Product ids stay distinct over any run of calls of the product, sale,
    supplier, expense, customer, customer-payment, company-info and category
    mutators ([resetAllData], [importData] and [saveSystemSettings] are not
    among the calls), provided each product added gets an id that no product
    has at that point: none of the other calls creates a product or changes
    an id. *)
Theorem product_ids_stay_distinct (calls : list Call) (st : State) :
  NoDup (map Product.id (products st)) ->
  freshProductIds st calls ->
  NoDup (map Product.id (products (performAll calls st))).
Proof.
  revert st. induction calls as [|c calls IH]; intros st U R; simpl; [exact U|].
  destruct R as [A R]. apply IH; [|exact R].
  apply perform_keeps_product_ids_distinct; [exact U | exact (conj A I)].
Qed.

Lemma product_ids_stay_distinct_witness :
  NoDup (map Product.id (products Sample.shop))
  /\ freshProductIds Sample.shop
       [AddProduct Sample.env Sample.shirt; AddSale Sample2.otherEnv Sample.sale;
        UpdateProduct Sample.env Sample.restockedA; DeleteProduct "B"]
  /\ map Product.id
         (products (performAll
            [AddProduct Sample.env Sample.shirt; AddSale Sample2.otherEnv Sample.sale;
             UpdateProduct Sample.env Sample.restockedA; DeleteProduct "B"]
            Sample.shop))
     = ["A"; "k1a2b3c"]
  /\ NoDup (map Product.id
         (products (performAll
            [AddProduct Sample.env Sample.shirt; AddSale Sample2.otherEnv Sample.sale;
             UpdateProduct Sample.env Sample.restockedA; DeleteProduct "B"]
            Sample.shop))).
Proof.
  assert (U : NoDup (map Product.id (products Sample.shop))).
  { repeat constructor; simpl; intuition discriminate. }
  assert (R : freshProductIds Sample.shop
       [AddProduct Sample.env Sample.shirt; AddSale Sample2.otherEnv Sample.sale;
        UpdateProduct Sample.env Sample.restockedA; DeleteProduct "B"]).
  { simpl. repeat split; trivial; intuition discriminate. }
  split; [exact U | split; [exact R | split; [reflexivity|]]].
  exact (product_ids_stay_distinct _ Sample.shop U R).
Defined.

Lemma product_by_id (p q : Product.t) (ps : list Product.t) :
  NoDup (map Product.id ps) -> In p ps -> In q ps -> Product.id p = Product.id q -> p = q.
Proof.
  induction ps as [|x ps IH]; intros U Ip Iq E; [contradiction|].
  inversion U as [|y ys Notin U' E']; subst.
  destruct Ip as [-> | Ip], Iq as [-> | Iq]; trivial.
  - exfalso. apply Notin. rewrite E. now apply in_map.
  - exfalso. apply Notin. rewrite <- E. now apply in_map.
  - now apply IH.
Qed.

(** X6: Saving a product as it is on record, when no other product has its id,
    changes nothing and writes no Purchase. *)
Theorem updateProduct_unchanged_record (e : Env) (p : Product.t) (st : State) :
  NoDup (map Product.id (products st)) ->
  In p (products st) ->
  updateProduct e p st = (tt, st, []).
Proof.
  intros U I.
  assert (F : find (fun q => Product.id q === Product.id p) (products st) = Some p).
  { destruct (find (fun q => Product.id q === Product.id p) (products st)) as [q|] eqn:F.
    - apply find_some in F. destruct F as [Iq M].
      destruct (strictEq_spec (Product.id q) (Product.id p)) as [E|]; [|discriminate].
      f_equal. now apply (product_by_id q p (products st)).
    - apply (find_none _ _ F) in I. now rewrite strictEq_refl in I. }
  assert (M : map (fun q => if Product.id q === Product.id p then p else q) (products st)
              = products st).
  { rewrite <- (map_id (products st)) at 2. apply map_ext_in. intros q Iq.
    destruct (strictEq_spec (Product.id q) (Product.id p)) as [E|]; [|reflexivity].
    now apply (product_by_id p q (products st)). }
  unfold updateProduct, render, bind. rewrite F, Z.sub_diag.
  replace (JS.truthyStr (Product.supplierId p) && (0 <? 0) && (0 <? Product.buyingPrice p))
    with false by (now rewrite andb_false_r).
  unfold setProducts, ret. cbn. rewrite M. now destruct st.
Qed.

Lemma updateProduct_unchanged_record_witness :
  NoDup (map Product.id (products Sample.shop))
  /\ In Sample.productA (products Sample.shop)
  /\ updateProduct Sample.env Sample.productA Sample.shop = (tt, Sample.shop, []).
Proof.
  assert (U : NoDup (map Product.id (products Sample.shop))).
  { repeat constructor; simpl; intuition discriminate. }
  assert (I : In Sample.productA (products Sample.shop)) by (simpl; auto).
  split; [exact U | split; [exact I|]].
  exact (updateProduct_unchanged_record Sample.env Sample.productA Sample.shop U I).
Defined.





(** ** Categories over runs of calls *)

Lemma adjust_categories (productId : string) (f : Z -> Z) (ps : list Product.t) :
  map Product.category (adjust productId f ps) = map Product.category ps.
Proof.
  induction ps as [|p rest IH]; simpl; [reflexivity|].
  destruct (Product.id p === productId); simpl; [reflexivity | now rewrite IH].
Qed.

Lemma sold_categories (items : list SaleItem.t) (ps : list Product.t) :
  map Product.category (fold_left takeFromStock items ps) = map Product.category ps.
Proof.
  revert ps. induction items as [|i items IH]; intros ps; simpl; [reflexivity|].
  now rewrite IH, takeFromStock_adjust, adjust_categories.
Qed.

Lemma putBack_categories (items : list SaleItem.t) (ps : list Product.t) :
  map Product.category (fold_left putBackInStock items ps) = map Product.category ps.
Proof.
  revert ps. induction items as [|i items IH]; intros ps; simpl; [reflexivity|].
  now rewrite IH, putBackInStock_adjust, adjust_categories.
Qed.

Lemma deleteSale_categories (saleId : string) (st : State) :
  map Product.category (products (stateOf (deleteSale saleId st)))
  = map Product.category (products st)
  /\ categories (stateOf (deleteSale saleId st)) = categories st.
Proof.
  destruct (find (fun x => Sale.id x === saleId) (sales st)) as [s|] eqn:F.
  - rewrite (proj1 (deleteSale_found _ _ _ F)). split; [apply putBack_categories|].
    unfold deleteSale, render. now rewrite F.
  - unfold deleteSale, render. now rewrite F.
Qed.

Lemma none_filed_under (name : string) (ps : list Product.t) :
  List.length (filter (fun p => Product.category p === name) ps) = 0%nat ->
  ~ In name (map Product.category ps).
Proof.
  induction ps as [|p ps IH]; simpl; [tauto|].
  destruct (strictEq_spec (Product.category p) name) as [E|N]; simpl; [discriminate|].
  intros L [H | H]; [contradiction | now apply IH].
Qed.

Lemma addCategory_categories (name : string) (st : State) :
  incl (categories st) (categories (stateOf (addCategory name st))).
Proof.
  destruct (addCategory_cases name st) as [(_ & _ & S) | (_ & _ & S)]; rewrite S.
  - apply incl_refl.
  - simpl. now apply incl_appl, incl_refl.
Qed.

Lemma updateCategory_keeps_filed (oldName newName : string) (st : State) :
  categoriesOnRecord st -> categoriesOnRecord (stateOf (updateCategory oldName newName st)).
Proof.
  intros K.
  destruct (updateCategory_cases oldName newName st)
    as [(_ & _ & S) | (_ & _ & _ & P & C & _)]; [now rewrite S|].
  unfold categoriesOnRecord in *. rewrite P, C. rewrite Forall_forall in *.
  intros c I. rewrite map_map in I. apply in_map_iff in I. destruct I as (p & E & I).
  assert (Kp : In (Product.category p) (categories st))
    by (apply K; now apply in_map).
  destruct (strictEq_spec (Product.category p) oldName) as [Eo|No]; simpl in E; subst c.
  - apply in_map_iff. exists oldName. rewrite strictEq_refl. split; [reflexivity|].
    now rewrite <- Eo.
  - apply in_map_iff. exists (Product.category p). split; [|exact Kp].
    destruct (strictEq_spec (Product.category p) oldName); [contradiction | reflexivity].
Qed.

Lemma deleteCategory_keeps_filed (e : Env) (name : string) (st : State) :
  categoriesOnRecord st -> categoriesOnRecord (stateOf (deleteCategory e name st)).
Proof.
  intros K. unfold deleteCategory, render.
  destruct (Nat.ltb_spec 0 (List.length
              (filter (fun p => Product.category p === name) (products st)))) as [L|L];
    [exact K|].
  destruct (confirm e); [|exact K].
  unfold categoriesOnRecord in *. cbn. rewrite Forall_forall in *. intros c I.
  apply filter_In. split; [now apply K|].
  destruct (strictEq_spec c name) as [E|]; [|reflexivity]. subst c.
  exfalso. apply (none_filed_under name (products st)); [lia | exact I].
Qed.

Lemma perform_keeps_filed (c : Call) (st : State) :
  categoriesOnRecord st -> knownCategories st [c] -> categoriesOnRecord (perform st c).
Proof.
  intros K [A _]. destruct c; cbn [perform]; try exact K.
  - unfold categoriesOnRecord in *.
    replace (categories (stateOf (addProduct e product st))) with (categories st)
      by (unfold addProduct, bind, stateOf; now destruct (JS.truthyStr _ && _ && _)).
    rewrite addProduct_products, map_app. apply Forall_app. split; [exact K|].
    constructor; [exact A | constructor].
  - unfold categoriesOnRecord in *.
    replace (categories (stateOf (updateProduct e updatedProduct st))) with (categories st)
      by (unfold updateProduct, render, bind, stateOf;
          now destruct (JS.truthyStr _ && _ && _)).
    rewrite updateProduct_products, map_map. rewrite Forall_forall in *. intros c I.
    apply in_map_iff in I. destruct I as (p & E & I). subst c.
    destruct (Product.id p === Product.id updatedProduct); [exact A|].
    apply K. now apply in_map.
  - unfold categoriesOnRecord in *. cbn. rewrite Forall_forall in *. intros c I.
    apply K. apply in_map_iff in I. destruct I as (p & E & I). apply filter_In in I.
    subst c. apply in_map. tauto.
  - unfold categoriesOnRecord in *.
    rewrite addSale_products, sold_categories. exact K.
  - unfold categoriesOnRecord in *.
    destruct (deleteSale_categories saleId st) as [E1 E2]. now rewrite E1, E2.
  - unfold categoriesOnRecord in *.
    rewrite (proj1 (addCategory_frame name st)).
    eapply Forall_impl; [|exact K]. intros c. apply addCategory_categories.
  - now apply updateCategory_keeps_filed.
  - now apply deleteCategory_keeps_filed.
Qed.

(** X9: Every product stays filed under a category of the list over any run of
    calls of the product, sale, supplier, expense, customer, customer-payment,
    company-info and category mutators ([resetAllData], [importData] and
    [saveSystemSettings], with the effect on the business type that follows
    it, are not among the calls), provided products are added and saved under
    categories of the list: renaming a category takes its products along, and
    a category in use is not deleted. *)
Theorem products_stay_filed (calls : list Call) (st : State) :
  categoriesOnRecord st ->
  knownCategories st calls ->
  categoriesOnRecord (performAll calls st).
Proof.
  revert st. induction calls as [|c calls IH]; intros st K R; simpl; [exact K|].
  destruct R as [A R]. apply IH; [|exact R].
  apply perform_keeps_filed; [exact K | exact (conj A I)].
Qed.

Lemma products_stay_filed_witness :
  categoriesOnRecord Sample.shop
  /\ knownCategories Sample.shop
       [UpdateCategory "Clothing" "Apparel"; DeleteCategory Sample.env "Apparel";
        DeleteCategory Sample.env "Shoes"; AddSale Sample.env Sample.sale]
  /\ categories (performAll
       [UpdateCategory "Clothing" "Apparel"; DeleteCategory Sample.env "Apparel";
        DeleteCategory Sample.env "Shoes"; AddSale Sample.env Sample.sale] Sample.shop)
     = ["Apparel"]
  /\ categoriesOnRecord (performAll
       [UpdateCategory "Clothing" "Apparel"; DeleteCategory Sample.env "Apparel";
        DeleteCategory Sample.env "Shoes"; AddSale Sample.env Sample.sale] Sample.shop).
Proof.
  assert (K : categoriesOnRecord Sample.shop).
  { repeat constructor; simpl; auto. }
  assert (R : knownCategories Sample.shop
       [UpdateCategory "Clothing" "Apparel"; DeleteCategory Sample.env "Apparel";
        DeleteCategory Sample.env "Shoes"; AddSale Sample.env Sample.sale]).
  { simpl. tauto. }
  split; [exact K | split; [exact R | split; [reflexivity|]]].
  exact (products_stay_filed _ Sample.shop K R).
Defined.

Lemma deleteCategory_unique (e : Env) (name : string) (st : State) :
  uniqueNames (categories st) ->
  uniqueNames (categories (stateOf (deleteCategory e name st))).
Proof.
  intros U. unfold deleteCategory, render.
  destruct (0 <? _)%nat; [exact U|]. destruct (confirm e); [|exact U].
  cbn. unfold uniqueNames in *.
  induction (categories st) as [|c cs IH]; simpl; [constructor|].
  inversion U as [|x xs Notin U' E]; subst.
  destruct (c === name); simpl; [now apply IH|].
  constructor; [|now apply IH]. intros I. apply Notin.
  apply in_map_iff in I. destruct I as (z & E & I). apply filter_In in I.
  rewrite <- E. apply in_map. tauto.
Qed.

(** X10: Category names stay pairwise different ignoring case over any run of
    calls of the product, sale, supplier, expense, customer, customer-payment,
    company-info and category mutators, deletions of categories included
    ([resetAllData], [importData] and [saveSystemSettings], with the effect on
    the business type that follows it, are not among the calls). *)
Theorem category_names_stay_unique (calls : list Call) (st : State) :
  uniqueNames (categories st) ->
  uniqueNames (categories (performAll calls st)).
Proof.
  revert st. induction calls as [|c calls IH]; intros st U; simpl; [exact U|].
  apply IH. destruct c; cbn [perform]; try exact U.
  - unfold addProduct, bind, stateOf. now destruct (JS.truthyStr _ && _ && _).
  - unfold updateProduct, render, bind, stateOf. now destruct (JS.truthyStr _ && _ && _).
  - now rewrite (proj2 (deleteSale_categories saleId st)).
  - now apply addCategory_unique.
  - now apply updateCategory_unique.
  - now apply deleteCategory_unique.
Qed.

Lemma category_names_stay_unique_witness :
  uniqueNames (categories Sample.shop)
  /\ categories (performAll
       [AddCategory "shoes"; UpdateCategory "Shoes" "CLOTHING"; AddCategory " Hats ";
        DeleteCategory Sample.env "Shoes"] Sample.shop)
     = ["Clothing"; "Hats"]
  /\ uniqueNames (categories (performAll
       [AddCategory "shoes"; UpdateCategory "Shoes" "CLOTHING"; AddCategory " Hats ";
        DeleteCategory Sample.env "Shoes"] Sample.shop)).
Proof.
  assert (U : uniqueNames (categories Sample.shop)).
  { repeat constructor; simpl; intuition discriminate. }
  split; [exact U | split; [reflexivity|]].
  exact (category_names_stay_unique _ Sample.shop U).
Defined.

(** X11: [deleteCategory] compares names exactly: for a name that is not in the
    list, be it a different spelling of one that is, no cell changes, and yet
    the deletion is reported when no product is filed under the name and the
    user confirms. *)
Theorem deleteCategory_absent_name (e : Env) (name : string) (st : State) :
  ~ In name (categories st) ->
  stateOf (deleteCategory e name st) = st
  /\ (productsUsing name st = 0%nat -> confirm e = true ->
      toastsOf (deleteCategory e name st) =
        [Toast.Build (JS.template ["Category "; JS.dq; name; JS.dq; " deleted."]) success]).
Proof.
  intros A. unfold deleteCategory, render, productsUsing.
  destruct (Nat.ltb_spec 0 (List.length
              (filter (fun p => Product.category p === name) (products st)))) as [L|L].
  - split; [reflexivity | intros Z; lia].
  - destruct (confirm e); [|split; [reflexivity | discriminate]].
    split; [|reflexivity]. unfold bind, setCategories, showToast, stateOf. cbn.
    rewrite filter_all; [now destruct st|].
    intros c I. destruct (strictEq_spec c name) as [E|]; [|reflexivity].
    subst c. contradiction.
Qed.

Lemma deleteCategory_absent_name_witness :
  ~ In "shoes" (categories Sample.shop)
  /\ stateOf (deleteCategory Sample.env "shoes" Sample.shop) = Sample.shop
  /\ map Toast.type (toastsOf (deleteCategory Sample.env "shoes" Sample.shop)) = [success].
Proof.
  assert (A : ~ In "shoes" (categories Sample.shop)).
  { simpl. intuition discriminate. }
  destruct (deleteCategory_absent_name Sample.env "shoes" Sample.shop A) as [S T].
  split; [exact A | split; [exact S|]].
  now rewrite (T eq_refl eq_refl).
Defined.

(** X12: A category just added can be deleted again, which gives the state back,
    when no product is filed under it and the user confirms. *)
Theorem addCategory_deleteCategory (e : Env) (name : string) (st : State) :
  resultOf (addCategory name st) = true ->
  productsUsing (JS.trim name) st = 0%nat ->
  confirm e = true ->
  stateOf (deleteCategory e (JS.trim name) (stateOf (addCategory name st))) = st.
Proof.
  intros R Z C.
  destruct (addCategory_cases name st) as [(_ & R' & _) | (I & _ & S)];
    [rewrite R in R'; discriminate|].
  rewrite S. unfold deleteCategory, render, productsUsing in *. cbn [setCategories stateOf
    fst snd products]. rewrite Z. cbn [Nat.ltb Nat.leb]. rewrite C.
  unfold bind, setCategories, showToast, stateOf. cbn.
  rewrite filter_app. cbn. rewrite strictEq_refl. cbn. rewrite app_nil_r.
  rewrite filter_all; [now destruct st|].
  intros c Ic. destruct (strictEq_spec c (JS.trim name)) as [E|]; [|reflexivity].
  subst c. exfalso.
  assert (X : JS.includes (map JS.toLowerCase (categories st))
                          (JS.toLowerCase (JS.trim name)) = true)
    by (apply includes_In; now apply in_map).
  rewrite I in X. discriminate.
Qed.

Lemma addCategory_deleteCategory_witness :
  resultOf (addCategory " Hats " Sample.shop) = true
  /\ productsUsing "Hats" Sample.shop = 0%nat
  /\ stateOf (deleteCategory Sample.env "Hats" (stateOf (addCategory " Hats " Sample.shop)))
     = Sample.shop.
Proof.
  split; [reflexivity | split; [reflexivity|]].
  exact (addCategory_deleteCategory Sample.env " Hats " Sample.shop eq_refl eq_refl eq_refl).
Defined.

(** X13: Renaming a category and renaming it back gives the state back, when both
    calls succeed, the name in between is new to the list and to the products,
    and the old name has no surrounding white space. *)
Theorem updateCategory_there_and_back (oldName newName : string) (st : State) :
  let between := JS.trim newName in
  let st1 := stateOf (updateCategory oldName newName st) in
  resultOf (updateCategory oldName newName st) = true ->
  resultOf (updateCategory between oldName st1) = true ->
  JS.trim oldName = oldName ->
  ~ In between (categories st) ->
  ~ In between (map Product.category (products st)) ->
  stateOf (updateCategory between oldName st1) = st.
Proof.
  intros between st1 R1 R2 T NC NP. subst st1 between.
  destruct (updateCategory_cases oldName newName st)
    as [(_ & R' & _) | (_ & _ & _ & P1 & C1 & F1)]; [rewrite R1 in R'; discriminate|].
  destruct (updateCategory_cases (JS.trim newName) oldName
              (stateOf (updateCategory oldName newName st)))
    as [(_ & R' & _) | (_ & _ & _ & P2 & C2 & F2)]; [rewrite R2 in R'; discriminate|].
  rewrite T in P2, C2.
  assert (P : products (stateOf (updateCategory (JS.trim newName) oldName
                          (stateOf (updateCategory oldName newName st)))) = products st).
  { rewrite P2, P1, map_map. rewrite <- (map_id (products st)) at 2.
    apply map_ext_in. intros p I.
    destruct (strictEq_spec (Product.category p) oldName) as [E|N].
    - cbn. rewrite strictEq_refl. destruct p; cbn in *. now subst.
    - destruct (strictEq_spec (Product.category p) (JS.trim newName)) as [E|];
        [|reflexivity].
      exfalso. apply NP. rewrite <- E. now apply in_map. }
  assert (C : categories (stateOf (updateCategory (JS.trim newName) oldName
                            (stateOf (updateCategory oldName newName st)))) = categories st).
  { rewrite C2, C1, map_map. rewrite <- (map_id (categories st)) at 2.
    apply map_ext_in. intros c I.
    destruct (strictEq_spec c oldName) as [E|N].
    - rewrite strictEq_refl. now subst.
    - destruct (strictEq_spec c (JS.trim newName)) as [E|]; [|reflexivity].
      exfalso. apply NC. now rewrite <- E. }
  rewrite F2, P, C, F1. destruct st. reflexivity.
Qed.

Lemma updateCategory_there_and_back_witness :
  resultOf (updateCategory "Clothing" " Apparel " Sample.shop) = true
  /\ stateOf (updateCategory "Apparel" "Clothing"
                (stateOf (updateCategory "Clothing" " Apparel " Sample.shop)))
     = Sample.shop.
Proof.
  split; [reflexivity|].
  apply (updateCategory_there_and_back "Clothing" " Apparel " Sample.shop);
    try reflexivity; simpl; intuition discriminate.
Defined.

(** ** Suppliers, expenses, customers and payments *)

Lemma lookup_setProp (key k : string) (v : value) (o : object) :
  lookup k (Obj.setProp key v o) = if key === k then Some v else lookup k o.
Proof.
  induction o as [|[k0 x] o IH]; simpl.
  - now destruct (key === k).
  - destruct (strictEq_spec k0 key) as [E|N]; simpl.
    + subst k0. now destruct (key === k).
    + rewrite IH. destruct (strictEq_spec k0 k) as [E|N']; [|reflexivity].
      subst k0. destruct (strictEq_spec key k); [congruence | reflexivity].
Qed.

Lemma hasId_withId (i : string) (o : object) : Obj.hasId i (Obj.withId i o) = true.
Proof.
  unfold Obj.hasId, Obj.id, Obj.withId. rewrite lookup_setProp. simpl.
  apply strictEq_refl.
Qed.

Lemma hasId_spec (i : string) (o : object) :
  Obj.hasId i o = true <-> Obj.id o = Some (VStr i).
Proof.
  unfold Obj.hasId, Obj.strictEq. destruct (Obj.id o) as [[| | |s| |]|]; simpl;
    split; try discriminate.
  - intros E. destruct (strictEq_spec s i); [now subst | discriminate].
  - intros E. inversion E. apply strictEq_refl.
Qed.

(** The list of records after [appendRecord] and [removeRecord] with the same
    id is the list before, when no record had that id. *)
Lemma removeRecord_appendRecord (i : string) (record : object) (prev : list object) :
  ~ In (Some (VStr i)) (map Obj.id prev) ->
  removeRecord i (appendRecord i record prev) = prev.
Proof.
  intros Fresh. unfold removeRecord, appendRecord. rewrite filter_app. cbn [filter].
  rewrite hasId_withId. cbn. rewrite app_nil_r. apply filter_all. intros s I.
  destruct (Obj.hasId i s) eqn:H; [|reflexivity].
  exfalso. apply Fresh. apply hasId_spec in H. rewrite <- H. now apply in_map.
Qed.

(** X14: A supplier, an expense or a customer that was just added is removed again
    by the delete of its kind with the generated id, which gives the state
    back, when no record of that kind had the id.  The record is stored with
    its fields and the id. *)
Theorem add_then_delete_record (e : Env) (record : object) (st : State) :
  (~ In (Some (VStr (generateId e 0))) (map Obj.id (suppliers st)) ->
   stateOf (deleteSupplier (generateId e 0) (stateOf (addSupplier e record st))) = st)
  /\ (~ In (Some (VStr (generateId e 0))) (map Obj.id (expenses st)) ->
      stateOf (deleteExpense (generateId e 0) (stateOf (addExpense e record st))) = st)
  /\ (~ In (Some (VStr (generateId e 0))) (map Obj.id (customers st)) ->
      stateOf (deleteCustomer (generateId e 0) (stateOf (addCustomer e record st))) = st)
  /\ (forall k, k <> "id" ->
        lookup k (Obj.withId (generateId e 0) record) = lookup k record)
  /\ Obj.id (Obj.withId (generateId e 0) record) = Some (VStr (generateId e 0)).
Proof.
  split; [|split; [|split; [|split]]].
  - intros F. unfold deleteSupplier, addSupplier, setSuppliers, stateOf.
    cbn -[removeRecord appendRecord].
    rewrite (removeRecord_appendRecord _ _ _ F). now destruct st.
  - intros F. unfold deleteExpense, addExpense, setExpenses, stateOf.
    cbn -[removeRecord appendRecord].
    rewrite (removeRecord_appendRecord _ _ _ F). now destruct st.
  - intros F. unfold deleteCustomer, addCustomer, setCustomers, stateOf.
    cbn -[removeRecord appendRecord].
    rewrite (removeRecord_appendRecord _ _ _ F). now destruct st.
  - intros k N. unfold Obj.withId. rewrite lookup_setProp.
    destruct (strictEq_spec "id" k); [congruence | reflexivity].
  - unfold Obj.id, Obj.withId. now rewrite lookup_setProp.
Qed.

Lemma add_then_delete_record_witness :
  ~ In (Some (VStr "k1a2b3c")) (map Obj.id (suppliers Sample4.suppliersOnly))
  /\ stateOf (deleteSupplier "k1a2b3c"
                (stateOf (addSupplier Sample.env Sample4.acme Sample4.suppliersOnly)))
     = Sample4.suppliersOnly.
Proof.
  assert (F : ~ In (Some (VStr "k1a2b3c")) (map Obj.id (suppliers Sample4.suppliersOnly))).
  { simpl. intuition discriminate. }
  split; [exact F|].
  exact (proj1 (add_then_delete_record Sample.env Sample4.acme Sample4.suppliersOnly) F).
Defined.

Lemma replaceRecord_ids (updated : object) (prev : list object) :
  map Obj.id (replaceRecord updated prev) = map Obj.id prev.
Proof.
  unfold replaceRecord. rewrite map_map. apply map_ext. intros s.
  destruct (Obj.strictEq (Obj.id s) (Obj.id updated)) eqn:E; [|reflexivity].
  unfold Obj.strictEq in E.
  destruct (Obj.id s) as [[| | |x| |]|], (Obj.id updated) as [[| | |y| |]|];
    try discriminate; trivial.
  - now apply Bool.eqb_prop in E; subst.
  - now apply Z.eqb_eq in E; subst.
  - destruct (strictEq_spec x y); [now subst | discriminate].
Qed.

Lemma replaceRecord_unknown (updated : object) (i : string) (prev : list object) :
  Obj.id updated = Some (VStr i) ->
  ~ In (Some (VStr i)) (map Obj.id prev) ->
  replaceRecord updated prev = prev.
Proof.
  intros U A. unfold replaceRecord. rewrite <- (map_id prev) at 2.
  apply map_ext_in. intros s I. rewrite U. fold (Obj.hasId i s).
  destruct (Obj.hasId i s) eqn:H; [|reflexivity].
  exfalso. apply A. apply hasId_spec in H. rewrite <- H. now apply in_map.
Qed.

Lemma Obj_strictEq_right (a b : option value) :
  Obj.strictEq a b = true -> Obj.strictEq b b = true.
Proof.
  unfold Obj.strictEq.
  destruct a as [[| | |x| |]|], b as [[| | |y| |]|]; try discriminate; trivial; intros _.
  - apply Bool.eqb_reflx.
  - apply Z.eqb_refl.
  - apply strictEq_refl.
Qed.

Lemma replaceRecord_twice (first second : object) (prev : list object) :
  Obj.id first = Obj.id second ->
  replaceRecord second (replaceRecord first prev) = replaceRecord second prev.
Proof.
  intros E. unfold replaceRecord. rewrite map_map. apply map_ext. intros s.
  rewrite E. destruct (Obj.strictEq (Obj.id s) (Obj.id second)) eqn:H.
  - now rewrite E, (Obj_strictEq_right _ _ H).
  - now rewrite H.
Qed.

(** X15: Saving a supplier, an expense or a customer whose id no record of its
    kind has changes nothing: the record is not stored. *)
Theorem update_unknown_record (updated : object) (i : string) (st : State) :
  Obj.id updated = Some (VStr i) ->
  (~ In (Some (VStr i)) (map Obj.id (suppliers st)) ->
   updateSupplier updated st = (tt, st, []))
  /\ (~ In (Some (VStr i)) (map Obj.id (expenses st)) ->
      updateExpense updated st = (tt, st, []))
  /\ (~ In (Some (VStr i)) (map Obj.id (customers st)) ->
      updateCustomer updated st = (tt, st, [])).
Proof.
  intros U. split; [|split]; intros A.
  - unfold updateSupplier, setSuppliers. rewrite (replaceRecord_unknown _ _ _ U A).
    now destruct st.
  - unfold updateExpense, setExpenses. rewrite (replaceRecord_unknown _ _ _ U A).
    now destruct st.
  - unfold updateCustomer, setCustomers. rewrite (replaceRecord_unknown _ _ _ U A).
    now destruct st.
Qed.

Lemma update_unknown_record_witness :
  Obj.id Sample4.acmeEdited = Some (VStr "s1")
  /\ ~ In (Some (VStr "s1")) (map Obj.id (customers Sample4.suppliersOnly))
  /\ updateCustomer Sample4.acmeEdited Sample4.suppliersOnly
     = (tt, Sample4.suppliersOnly, []).
Proof.
  assert (A : ~ In (Some (VStr "s1")) (map Obj.id (customers Sample4.suppliersOnly)))
    by (simpl; tauto).
  split; [reflexivity | split; [exact A|]].
  exact (proj2 (proj2 (update_unknown_record Sample4.acmeEdited "s1"
                         Sample4.suppliersOnly eq_refl)) A).
Defined.

(** X16: Saving a supplier, an expense or a customer keeps the number, the order
    and the ids of the records of its kind; every record that had the id is
    now the saved one; of two saves under the same id the second stands. *)
Theorem update_record_in_place (updated : object) (st : State) :
  map Obj.id (suppliers (stateOf (updateSupplier updated st))) = map Obj.id (suppliers st)
  /\ map Obj.id (expenses (stateOf (updateExpense updated st))) = map Obj.id (expenses st)
  /\ map Obj.id (customers (stateOf (updateCustomer updated st))) = map Obj.id (customers st)
  /\ (forall i n s,
        Obj.id updated = Some (VStr i) ->
        nth_error (suppliers st) n = Some s ->
        nth_error (suppliers (stateOf (updateSupplier updated st))) n
        = Some (if Obj.hasId i s then updated else s))
  /\ (forall first,
        Obj.id first = Obj.id updated ->
        stateOf (updateSupplier updated (stateOf (updateSupplier first st)))
        = stateOf (updateSupplier updated st)
        /\ stateOf (updateExpense updated (stateOf (updateExpense first st)))
           = stateOf (updateExpense updated st)
        /\ stateOf (updateCustomer updated (stateOf (updateCustomer first st)))
           = stateOf (updateCustomer updated st)).
Proof.
  split; [|split; [|split; [|split]]].
  - apply replaceRecord_ids.
  - apply replaceRecord_ids.
  - apply replaceRecord_ids.
  - intros i n s U N. cbn. unfold replaceRecord. rewrite nth_error_map, N, U. reflexivity.
  - intros first E. repeat split.
    + unfold updateSupplier, setSuppliers, stateOf. cbn -[replaceRecord].
      now rewrite (replaceRecord_twice _ _ _ E).
    + unfold updateExpense, setExpenses, stateOf. cbn -[replaceRecord].
      now rewrite (replaceRecord_twice _ _ _ E).
    + unfold updateCustomer, setCustomers, stateOf. cbn -[replaceRecord].
      now rewrite (replaceRecord_twice _ _ _ E).
Qed.

Lemma update_record_in_place_witness :
  Obj.id Sample4.acmeEdited = Some (VStr "s1")
  /\ suppliers (stateOf (updateSupplier Sample4.acmeEdited Sample4.suppliersOnly))
     = [Sample4.acmeEdited; Sample4.bolt]
  /\ nth_error (suppliers (stateOf (updateSupplier Sample4.acmeEdited
                                      Sample4.suppliersOnly))) 0
     = Some Sample4.acmeEdited.
Proof.
  split; [reflexivity | split; [reflexivity|]].
  exact (proj1 (proj2 (proj2 (proj2 (update_record_in_place Sample4.acmeEdited
           Sample4.suppliersOnly)))) "s1" 0%nat Sample4.acmeStored eq_refl eq_refl).
Defined.

Lemma removeRecord_gone (i : string) (prev : list object) :
  ~ In (Some (VStr i)) (map Obj.id (removeRecord i prev)).
Proof.
  intros I. apply in_map_iff in I. destruct I as (s & E & I).
  apply filter_In in I. destruct I as [_ H].
  apply hasId_spec in E. now rewrite E in H.
Qed.

Lemma removeRecord_absent (i : string) (prev : list object) :
  ~ In (Some (VStr i)) (map Obj.id prev) -> removeRecord i prev = prev.
Proof.
  intros A. apply filter_all. intros s I.
  destruct (Obj.hasId i s) eqn:H; [|reflexivity].
  exfalso. apply A. apply hasId_spec in H. rewrite <- H. now apply in_map.
Qed.

Lemma deleteProduct_gone (productId : string) (ps : list Product.t) :
  ~ In productId (map Product.id (filter (fun p => Product.id p !== productId) ps)).
Proof.
  intros I. apply in_map_iff in I. destruct I as (p & E & I).
  apply filter_In in I. destruct I as [_ H]. subst productId.
  now rewrite strictEq_refl in H.
Qed.

(** X17: A delete leaves no record with the given id among the products, the
    suppliers, the expenses or the customers, whichever it is called for, and
    the same delete once more changes nothing; deleting a product leaves the
    sales and the purchases that refer to it on record. *)
Theorem delete_record_idempotent (i : string) (st : State) :
  (~ In i (map Product.id (products (stateOf (deleteProduct i st))))
   /\ deleteProduct i (stateOf (deleteProduct i st)) = (tt, stateOf (deleteProduct i st), [])
   /\ sales (stateOf (deleteProduct i st)) = sales st
   /\ purchases (stateOf (deleteProduct i st)) = purchases st)
  /\ (~ In (Some (VStr i)) (map Obj.id (suppliers (stateOf (deleteSupplier i st))))
      /\ deleteSupplier i (stateOf (deleteSupplier i st))
         = (tt, stateOf (deleteSupplier i st), []))
  /\ (~ In (Some (VStr i)) (map Obj.id (expenses (stateOf (deleteExpense i st))))
      /\ deleteExpense i (stateOf (deleteExpense i st))
         = (tt, stateOf (deleteExpense i st), []))
  /\ (~ In (Some (VStr i)) (map Obj.id (customers (stateOf (deleteCustomer i st))))
      /\ deleteCustomer i (stateOf (deleteCustomer i st))
         = (tt, stateOf (deleteCustomer i st), [])).
Proof.
  split; [|split; [|split]].
  - split; [apply deleteProduct_gone|]. split; [|split; reflexivity].
    unfold deleteProduct, setProducts, stateOf. cbn.
    rewrite (filter_all _ (filter _ (products st))); [reflexivity|].
    intros p I. apply filter_In in I. tauto.
  - split; [apply removeRecord_gone|].
    unfold deleteSupplier, setSuppliers, stateOf. cbn -[removeRecord].
    now rewrite (removeRecord_absent _ _ (removeRecord_gone i (suppliers st))).
  - split; [apply removeRecord_gone|].
    unfold deleteExpense, setExpenses, stateOf. cbn -[removeRecord].
    now rewrite (removeRecord_absent _ _ (removeRecord_gone i (expenses st))).
  - split; [apply removeRecord_gone|].
    unfold deleteCustomer, setCustomers, stateOf. cbn -[removeRecord].
    now rewrite (removeRecord_absent _ _ (removeRecord_gone i (customers st))).
Qed.

Lemma perform_payments (c : Call) (st : State) :
  customerPayments (perform st c) = customerPayments st ++ paymentsOf [c].
Proof.
  destruct c; cbn [perform paymentsOf flat_map]; rewrite ?app_nil_r; trivial.
  - unfold addProduct, bind, stateOf. now destruct (JS.truthyStr _ && _ && _).
  - unfold updateProduct, render, bind, stateOf. now destruct (JS.truthyStr _ && _ && _).
  - unfold deleteSale, render. now destruct (find _ _).
  - destruct (addCategory_cases name st) as [(_ & _ & S) | (_ & _ & S)]; now rewrite S.
  - destruct (updateCategory_cases oldName newName st)
      as [(_ & _ & S) | (_ & _ & _ & _ & _ & F)]; [now rewrite S|].
    exact (f_equal customerPayments F).
  - unfold deleteCategory, render. destruct (0 <? _)%nat; [reflexivity|].
    now destruct (confirm e).
Qed.

(** X18: Customer payments form a ledger under the product, sale, supplier,
    expense, customer, customer-payment, company-info and category mutators
    ([resetAllData], [importData] and [saveSystemSettings] are not among the
    calls): over any run of such calls the payments on record are the earlier
    ones followed by the payments added, in the order of the calls, each with
    its fields and the generated id; none is changed or removed. *)
Theorem payments_are_a_ledger (calls : list Call) (st : State) :
  customerPayments (performAll calls st) = customerPayments st ++ paymentsOf calls.
Proof.
  revert st. induction calls as [|c calls IH]; intros st; simpl; [now rewrite app_nil_r|].
  rewrite IH, perform_payments. simpl. now rewrite app_nil_r, app_assoc.
Qed.

(** ** Reset and the default categories *)

Lemma all_included (arr cats : list string) :
  forallb (fun x => JS.includes arr x) cats = true <-> incl cats arr.
Proof.
  rewrite forallb_forall. unfold incl. split; intros H x I.
  - now apply includes_In, H.
  - now apply includes_In, H.
Qed.

Lemma defaults_included (c : Constants) (b : string) :
  In b (businessTypes c) -> incl (DEFAULT_CATEGORIES c b) (allDefaultCategories c).
Proof.
  intros I x Ix. unfold allDefaultCategories. apply in_flat_map. now exists b.
Qed.

Lemma sync_replaces (c : Constants) (b : string) (st : State) :
  incl (categories st) (allDefaultCategories c) ->
  syncDefaultCategories c b st
  = (tt, stateOf (setCategories (fun _ => DEFAULT_CATEGORIES c b) st), []).
Proof.
  intros S. unfold syncDefaultCategories, render.
  fold (allDefaultCategories c).
  replace (forallb (fun x => JS.includes (allDefaultCategories c) x) (categories st))
    with true by (symmetry; now apply all_included).
  now rewrite orb_true_r.
Qed.

Lemma sync_keeps (c : Constants) (b : string) (st : State) :
  ~ incl (categories st) (allDefaultCategories c) ->
  syncDefaultCategories c b st = (tt, st, []).
Proof.
  intros S. unfold syncDefaultCategories, render. fold (allDefaultCategories c).
  destruct (forallb (fun x => JS.includes (allDefaultCategories c) x) (categories st))
    eqn:F; [exfalso; apply S; now apply all_included|].
  destruct (categories st) as [|x xs] eqn:E; [exfalso; apply S; intros y []|].
  reflexivity.
Qed.

(** X19: A category list with an entry that is not a default category of any
    business type is left alone when the business type changes; and in every
    case running the effect a second time for the same business type changes
    nothing more. *)
Theorem sync_keeps_custom_categories (c : Constants) (businessType : string) (st : State) :
  In businessType (businessTypes c) ->
  (forall x, In x (categories st) -> ~ In x (allDefaultCategories c) ->
     syncDefaultCategories c businessType st = (tt, st, []))
  /\ stateOf (syncDefaultCategories c businessType
                (stateOf (syncDefaultCategories c businessType st)))
     = stateOf (syncDefaultCategories c businessType st).
Proof.
  intros Key. split.
  - intros x I N. apply sync_keeps. intros S. apply N. now apply S.
  - assert (Dec : incl (categories st) (allDefaultCategories c)
                  \/ ~ incl (categories st) (allDefaultCategories c)).
    { destruct (forallb (fun x => JS.includes (allDefaultCategories c) x) (categories st))
        eqn:F.
      - left. now apply all_included.
      - right. intros S. apply all_included in S. rewrite S in F. discriminate. }
    destruct Dec as [S | S].
    + rewrite (sync_replaces c businessType st S).
      set (st1 := stateOf (tt, stateOf (setCategories
                     (fun _ => DEFAULT_CATEGORIES c businessType) st), @nil Toast.t)).
      assert (Dec1 : incl (categories st1) (allDefaultCategories c)
                     \/ ~ incl (categories st1) (allDefaultCategories c)).
      { destruct (forallb (fun x => JS.includes (allDefaultCategories c) x)
                          (categories st1)) eqn:F.
        - left. now apply all_included.
        - right. intros S1. apply all_included in S1. rewrite S1 in F. discriminate. }
      destruct Dec1 as [S1 | S1].
      * rewrite (sync_replaces c businessType st1 S1). subst st1. now destruct st.
      * now rewrite (sync_keeps c businessType st1 S1).
    + rewrite (sync_keeps c businessType st S).
      change (stateOf (tt, st, @nil Toast.t)) with st.
      now rewrite (sync_keeps c businessType st S).
Qed.

Lemma sync_keeps_custom_categories_witness :
  In "pharmacy" (businessTypes Sample5.constants)
  /\ In "Scarves" (categories Sample5.customized)
  /\ ~ In "Scarves" (allDefaultCategories Sample5.constants)
  /\ syncDefaultCategories Sample5.constants "pharmacy" Sample5.customized
     = (tt, Sample5.customized, []).
Proof.
  assert (I : In "Scarves" (categories Sample5.customized)) by (simpl; auto).
  assert (N : ~ In "Scarves" (allDefaultCategories Sample5.constants)).
  { simpl. intuition discriminate. }
  assert (K : In "pharmacy" (businessTypes Sample5.constants)) by (simpl; auto).
  split; [exact K | split; [exact I | split; [exact N|]]].
  exact (proj1 (sync_keeps_custom_categories Sample5.constants "pharmacy"
                  Sample5.customized K) "Scarves" I N).
Defined.

(** X20: A category list made only of default categories, of whatever business
    types, in whatever order and however few, is replaced by the defaults of
    the new business type, so that deletions among the defaults are lost; and
    changing the business type and changing it back ends with the defaults of
    the first. *)
Theorem sync_replaces_default_lists (c : Constants) (first second : string) (st : State) :
  In first (businessTypes c) ->
  In second (businessTypes c) ->
  incl (categories st) (allDefaultCategories c) ->
  categories (stateOf (syncDefaultCategories c second st)) = DEFAULT_CATEGORIES c second
  /\ categories (stateOf (syncDefaultCategories c first
                   (stateOf (syncDefaultCategories c second st))))
     = DEFAULT_CATEGORIES c first.
Proof.
  intros _ I S. rewrite (sync_replaces c second st S). split; [reflexivity|].
  rewrite sync_replaces; [reflexivity|].
  cbn. now apply defaults_included.
Qed.

Lemma sync_replaces_default_lists_witness :
  incl (categories Sample5.trimmedDefaults) (allDefaultCategories Sample5.constants)
  /\ categories (stateOf (syncDefaultCategories Sample5.constants "pharmacy"
                            Sample5.trimmedDefaults))
     = ["Medicine"; "Care"]
  /\ categories (stateOf (syncDefaultCategories Sample5.constants "clothing"
                   (stateOf (syncDefaultCategories Sample5.constants "pharmacy"
                               Sample5.trimmedDefaults))))
     = ["Shirts"; "Pants"].
Proof.
  assert (S : incl (categories Sample5.trimmedDefaults)
                   (allDefaultCategories Sample5.constants)).
  { intros x [E | []]. subst x. simpl. auto. }
  assert (K1 : In "clothing" (businessTypes Sample5.constants)) by (simpl; auto).
  assert (K2 : In "pharmacy" (businessTypes Sample5.constants)) by (simpl; auto).
  split; [exact S | split].
  - exact (proj1 (sync_replaces_default_lists Sample5.constants "clothing" "pharmacy"
                    Sample5.trimmedDefaults K1 K2 S)).
  - exact (proj2 (sync_replaces_default_lists Sample5.constants "clothing" "pharmacy"
                    Sample5.trimmedDefaults K1 K2 S)).
Defined.

(** X21: A confirmed reset forgets the state it starts from: the outcome is the
    same from any two states.  That outcome has no product and no sale, so
    ids are distinct and every product is filed under a category; its business
    type is clothing, and with clothing in the table the effect on the
    business type leaves it as it is.  A declined reset changes nothing. *)
Theorem resetAllData_starts_afresh (c : Constants) (e : Env) (st other : State) :
  (confirm e = true ->
     let fresh := stateOf (resetAllData c e st) in
     fresh = stateOf (resetAllData c e other)
     /\ NoDup (map Product.id (products fresh))
     /\ NoDup (map Sale.id (sales fresh))
     /\ categoriesOnRecord fresh
     /\ (forall productId, stockAndSold productId fresh = None)
     /\ businessTypeOf fresh = Some "clothing"
     /\ (In "clothing" (businessTypes c) ->
         stateOf (syncDefaultCategories c "clothing" fresh) = fresh)
     /\ stateOf (resetAllData c e fresh) = fresh)
  /\ (confirm e = false -> resetAllData c e st = (tt, st, [])).
Proof.
  split; intros C; unfold resetAllData; rewrite C; [|reflexivity].
  cbn. repeat split; try constructor.
  intros I. rewrite sync_replaces; [reflexivity|].
  cbn. now apply defaults_included.
Qed.

Lemma resetAllData_starts_afresh_witness :
  confirm Sample.env = true
  /\ stateOf (resetAllData Sample5.constants Sample.env Sample.shop)
     = stateOf (resetAllData Sample5.constants Sample.env Sample4.suppliersOnly)
  /\ categories (stateOf (resetAllData Sample5.constants Sample.env Sample.shop))
     = ["Shirts"; "Pants"]
  /\ resetAllData Sample5.constants Sample.declined Sample.shop = (tt, Sample.shop, []).
Proof.
  split; [reflexivity | split; [|split; [reflexivity|]]].
  - exact (proj1 (proj1 (resetAllData_starts_afresh Sample5.constants Sample.env
                           Sample.shop Sample4.suppliersOnly) eq_refl)).
  - exact (proj2 (resetAllData_starts_afresh Sample5.constants Sample.declined
                    Sample.shop Sample.shop) eq_refl).
Defined.

(** ** Toasts on screen *)

(** X22: Dismissing a toast by its id, as the click and the timer do, removes the
    toast just shown together with any other toast shown in the same
    millisecond; when no toast on screen has that id, the list is as before
    the toast was shown.  Dismissals can come in any order. *)
Theorem removeToast_dismisses (now other : Z) (message : string) (type : Severity)
        (prev : list ToastMessage.t) :
  removeToast now (pushToast now message type prev) = removeToast now prev
  /\ (~ In now (map ToastMessage.id prev) ->
      removeToast now (pushToast now message type prev) = prev)
  /\ (other <> now ->
      removeToast other (pushToast now message type prev)
      = pushToast now message type (removeToast other prev))
  /\ removeToast now (removeToast other prev) = removeToast other (removeToast now prev)
  /\ ~ In now (map ToastMessage.id (removeToast now prev)).
Proof.
  assert (Step : removeToast now (pushToast now message type prev) = removeToast now prev).
  { unfold removeToast, pushToast. rewrite filter_app. cbn.
    rewrite Z.eqb_refl. cbn. apply app_nil_r. }
  split; [exact Step | split; [|split; [|split]]].
  - intros A. rewrite Step. apply filter_all. intros t I.
    destruct (Z.eqb_spec (ToastMessage.id t) now) as [E|]; [|reflexivity].
    exfalso. apply A. rewrite <- E. now apply in_map.
  - intros N. unfold removeToast, pushToast. rewrite filter_app. cbn.
    destruct (Z.eqb_spec now other) as [E|]; [congruence | reflexivity].
  - clear Step. unfold removeToast. induction prev as [|t prev IH]; simpl; [reflexivity|].
    destruct (ToastMessage.id t =? other) eqn:Eo, (ToastMessage.id t =? now) eqn:En;
      simpl; rewrite ?Eo, ?En; simpl; rewrite ?IH; reflexivity.
  - intros I. apply in_map_iff in I. destruct I as (t & E & I).
    apply filter_In in I. destruct I as [_ H]. subst now.
    now rewrite Z.eqb_refl in H.
Qed.

Lemma removeToast_dismisses_witness :
  ~ In 1715900000000 (map ToastMessage.id
        [ToastMessage.Build 1715899999000 "Category added." success])
  /\ removeToast 1715900000000
       (pushToast 1715900000000 "Invalid JSON file" error
          [ToastMessage.Build 1715899999000 "Category added." success])
     = [ToastMessage.Build 1715899999000 "Category added." success].
Proof.
  assert (A : ~ In 1715900000000 (map ToastMessage.id
        [ToastMessage.Build 1715899999000 "Category added." success])).
  { simpl. intros [H | []]. discriminate. }
  split; [exact A|].
  exact (proj1 (proj2 (removeToast_dismisses 1715900000000 0 "Invalid JSON file" error
           [ToastMessage.Build 1715899999000 "Category added." success])) A).
Defined.

(** ** Backup file *)

Ltac inEvents :=
  repeat match goal with
    | H : _ \/ _ |- _ => destruct H
    | H : False |- _ => contradiction
    | H : In _ _ |- _ => simpl in H
    | H : _ = Shown _ |- _ => discriminate H
    | H : Shown _ = Downloaded _ _ |- _ => discriminate H
    | H : Shown _ = Written _ _ |- _ => discriminate H
    | H : Written _ _ = Downloaded _ _ |- _ => discriminate H
    | H : Downloaded _ _ = Written _ _ |- _ => discriminate H
    | H : Downloaded _ _ = Downloaded _ _ |- _ => inversion H; clear H; subst
    | H : Written _ _ = Written _ _ |- _ => inversion H; clear H; subst
    end.

Ltac downloadedOnce :=
  right; split; [reflexivity | split; [simpl; auto | simpl; intros X; inEvents]].

(** X23: [exportBackup] never loses the backup: whatever the directory handle
    answers, either the file is written and closed in the folder and this is
    reported, or a download of the same content under the same name is
    started, exactly once.  Only the state at the start of the export is
    written.  Without a folder the file is downloaded. *)
Theorem exportBackup_never_loses (e : Env) (directoryHandle : option Dir.t) (st : State) :
  let blob := exportData (toStore st) in
  let fileName := backupFileName e in
  let events := exportBackup e directoryHandle st in
  let saved :=
    Shown (Toast.Build (JS.template ["Backup saved to your selected folder: "; fileName])
                       success) in
  (events = [Written blob fileName; saved]
   \/ (List.length (filter isDownload events) = 1%nat
       /\ In (Downloaded blob fileName) events
       /\ ~ In saved events))
  /\ (forall content name,
        In (Downloaded content name) events \/ In (Written content name) events ->
        content = blob /\ name = fileName)
  /\ (directoryHandle = None ->
      events = [Downloaded blob fileName;
                Shown (Toast.Build "Backup file is downloading." info)])
  /\ (events = [Written blob fileName; saved] ->
      exists h, directoryHandle = Some h
                /\ Dir.getFileHandle h = true /\ Dir.createWritable h = true
                /\ Dir.write h = true /\ Dir.close h = true
                /\ (Dir.queryPermission h = Some "granted"
                    \/ Dir.requestPermission h = Some "granted")).
Proof.
  intros blob fileName events saved. subst events saved.
  unfold exportBackup. fold (backupFileName e). fold blob. fold fileName.
  clearbody blob fileName.
  destruct directoryHandle as [[q r g c w cl]|]; cbn [Dir.queryPermission
    Dir.requestPermission Dir.getFileHandle Dir.createWritable Dir.write Dir.close].
  2:{ unfold downloadBackup.
      split; [downloadedOnce | split; [intros content name H; inEvents; auto
                                      | split; [reflexivity | intros H; discriminate H]]]. }
  assert (Granted : forall s, (s !== "granted") = false -> s = "granted").
  { intros s H. apply negb_false_iff in H.
    destruct (strictEq_spec s "granted"); [assumption | discriminate]. }
  destruct q as [q|]; [destruct (q !== "granted") eqn:Q;
                        [destruct r as [r|]; [destruct (r !== "granted") eqn:R|]|]|];
    destruct g, c, w, cl; unfold downloadBackup; cbn [negb];
    (split; [first [left; reflexivity | downloadedOnce]
            | split; [intros content name H; inEvents; auto
                     | split; [intros H; discriminate H|]]]);
    intros H; try discriminate H;
    eexists; (split; [reflexivity|]); cbn; repeat split;
    first [left; f_equal; now apply Granted | right; f_equal; now apply Granted].
Qed.

(** A folder whose file cannot be closed after the write: the backup is
    downloaded. *)
Lemma exportBackup_never_loses_witness :
  In (Downloaded (exportData (toStore Sample.shop)) "swift-pos-backup-2024-05-17.json")
     (exportBackup Sample.env (Some Sample6.closeFails) Sample.shop)
  /\ exportBackup Sample.env (Some Sample6.granted) Sample.shop
     = [Written (exportData (toStore Sample.shop)) "swift-pos-backup-2024-05-17.json";
        Shown (Toast.Build
                 "Backup saved to your selected folder: swift-pos-backup-2024-05-17.json"
                 success)].
Proof.
  split; [|reflexivity].
  destruct (proj1 (exportBackup_never_loses Sample.env (Some Sample6.closeFails)
                     Sample.shop)) as [H | (_ & H & _)]; [discriminate H | exact H].
Defined.

(** ** Settings *)

Lemma setProp_present (key : string) (v : value) (o : object) :
  lookup key o = Some v -> Obj.setProp key v o = o.
Proof.
  induction o as [|[k x] o IH]; simpl; [discriminate|].
  destruct (strictEq_spec k key) as [E|N].
  - intros H. inversion H. now subst.
  - intros H. now rewrite IH.
Qed.

Lemma handleSaveStorage_state (storagePref storagePath : string) (st : State) :
  stateOf (handleSaveStorage storagePref storagePath st) =
  stateOf (setSystemSettings
             (fun _ => Obj.setProp "storagePath" (VStr storagePath)
                         (Obj.setProp "storagePreference" (VStr storagePref)
                            (systemSettings st)))
             st).
Proof.
  unfold handleSaveStorage, render, bind, stateOf.
  destruct (storagePref === "online"); reflexivity.
Qed.

(** X24: Saving the storage preference rewrites two settings and nothing else:
    every other setting reads as before, business type included, no other
    cell changes, and saving the same values again changes nothing.  The
    online preference is answered with the placeholder notice. *)
Theorem handleSaveStorage_two_settings (storagePref storagePath : string) (st : State) :
  let st1 := stateOf (handleSaveStorage storagePref storagePath st) in
  (forall k,
      lookup k (systemSettings st1) =
      if "storagePath" === k then Some (VStr storagePath)
      else if "storagePreference" === k then Some (VStr storagePref)
      else lookup k (systemSettings st))
  /\ businessTypeOf st1 = businessTypeOf st
  /\ st1 = stateOf (setSystemSettings (fun _ => systemSettings st1) st)
  /\ stateOf (handleSaveStorage storagePref storagePath st1) = st1
  /\ (List.length (toastsOf (handleSaveStorage storagePref storagePath st)) = 2%nat
      <-> storagePref = "online").
Proof.
  intros st1.
  assert (L : forall k,
      lookup k (systemSettings st1) =
      if "storagePath" === k then Some (VStr storagePath)
      else if "storagePreference" === k then Some (VStr storagePref)
      else lookup k (systemSettings st)).
  { intros k. subst st1. rewrite handleSaveStorage_state. cbn [setSystemSettings stateOf
      fst snd systemSettings]. now rewrite !lookup_setProp. }
  split; [exact L | split; [|split; [|split]]].
  - unfold businessTypeOf. now rewrite (L "businessType").
  - subst st1. rewrite handleSaveStorage_state. now destruct st.
  - rewrite (handleSaveStorage_state storagePref storagePath st1).
    rewrite (setProp_present "storagePreference" (VStr storagePref) (systemSettings st1))
      by (now rewrite (L "storagePreference")).
    rewrite (setProp_present "storagePath" (VStr storagePath) (systemSettings st1))
      by (now rewrite (L "storagePath")).
    now destruct st1.
  - unfold handleSaveStorage, render, bind, toastsOf.
    destruct (strictEq_spec storagePref "online") as [E|N]; cbn; split; intros H;
      trivial; try discriminate; contradiction.
Qed.

Lemma handleSaveStorage_two_settings_witness :
  lookup "currency"
         (systemSettings (stateOf (handleSaveStorage "online" "Backups" Sample7.withSettings)))
  = Some (VStr "MMK")
  /\ lookup "storagePath"
            (systemSettings (stateOf (handleSaveStorage "online" "Backups"
                                        Sample7.withSettings)))
     = Some (VStr "Backups")
  /\ List.length (toastsOf (handleSaveStorage "online" "Backups" Sample7.withSettings))
     = 2%nat.
Proof.
  split; [|split].
  - exact (proj1 (handleSaveStorage_two_settings "online" "Backups" Sample7.withSettings)
             "currency").
  - exact (proj1 (handleSaveStorage_two_settings "online" "Backups" Sample7.withSettings)
             "storagePath").
  - exact (proj2 (proj2 (proj2 (proj2 (proj2
             (handleSaveStorage_two_settings "online" "Backups" Sample7.withSettings)))))
             eq_refl).
Defined.

(** ** Import, once more *)

Lemma toStore_shaped (s : State) : shaped (toStore s).
Proof. intros k. destruct k; reflexivity. Qed.

(** X26: Importing a document that has the expected structure keeps every cell an
    array, or an object for the company info and the settings, as the cells
    of a typed state are; so does an import that is declined or fails. *)
Theorem importData_keeps_shape (e : Env) (data : value) (st : Store) :
  shaped st ->
  expectedStructure data = true \/ data = VNull \/ confirm e = false ->
  shaped (fst (importData e data st)).
Proof.
  intros S H k.
  destruct (confirm e) eqn:C; [|unfold importData; rewrite C; apply S].
  destruct H as [H | [H | H]]; [| |discriminate].
  - assert (NN : data <> VNull) by (intros ->; discriminate).
    rewrite (proj2 (importData_cells e data st C NN)). unfold imported.
    destruct data as [| | | | |fields]; try discriminate.
    unfold expectedStructure in H. cbn [getProp].
    destruct (lookup (Key.name k) fields) as [v|] eqn:L; [|apply S].
    destruct (truthy v); [|apply S].
    rewrite forallb_forall in H. specialize (H k (importOrder_complete k)).
    now rewrite L in H.
  - subst data. unfold importData. rewrite C. apply S.
Qed.

Lemma importData_keeps_shape_witness :
  shaped (toStore Sample.shop)
  /\ expectedStructure (VObj [("categories", VArr [VStr "Toys"]); ("sales", VArr [])]) = true
  /\ shaped (fst (importData Sample.env
                    (VObj [("categories", VArr [VStr "Toys"]); ("sales", VArr [])])
                    (toStore Sample.shop))).
Proof.
  assert (S : shaped (toStore Sample.shop)) by (intros k; destruct k; reflexivity).
  split; [exact S | split; [reflexivity|]].
  apply (importData_keeps_shape Sample.env _ (toStore Sample.shop) S).
  left. reflexivity.
Defined.
